(** * libvlc-common.c: creation, initialisation and destruction of libvlc
      instances

    A shallow embedding of [src/libvlc-common.c].  The C functions are
    written as functions on explicit state; every call to a collaborator that
    lives outside the file (module bank, configuration store, D-Bus, message
    queue, object tree) is recorded as an [event], and every value such a
    collaborator hands back is read from an environment record, one field per
    call site.  Preprocessor conditionals are fields of [build_config]. *)

From Stdlib Require Import ZArith List String Ascii Bool Lia Arith.
Import ListNotations.

Local Open Scope string_scope.
Local Open Scope Z_scope.
Local Open Scope list_scope.

(** ** Build configuration (the preprocessor symbols the file tests) *)

Record build_config : Type := {
  WIN32 : bool;
  APPLE : bool;                (* __APPLE__ *)
  ENABLE_NLS_GETTEXT : bool;   (* ENABLE_NLS && (HAVE_GETTEXT || HAVE_INCLUDED_GETTEXT) *)
  HAVE_DBUS_3 : bool;
  HAVE_DAEMON : bool;
  HAVE_ISATTY : bool;
  HAVE_X11_XLIB_H : bool;
  HAVE_SYSLOG_H : bool;
  ARCH_X86 : bool;             (* __i386__ || __x86_64__ *)
  ARCH_PPC : bool;             (* __powerpc__ || __ppc__ || __ppc64__ *)
  (* the capability bits of vlc_cpu.h *)
  CPU_CAPABILITY_FPU : Z;
  CPU_CAPABILITY_MMX : Z;
  CPU_CAPABILITY_3DNOW : Z;
  CPU_CAPABILITY_MMXEXT : Z;
  CPU_CAPABILITY_SSE : Z;
  CPU_CAPABILITY_SSE2 : Z;
  CPU_CAPABILITY_ALTIVEC : Z
}.

(** ** Return codes of [vlc/vlc.h] *)

Inductive vlc_ret : Type :=
| VLC_SUCCESS
| VLC_EGENERIC
| VLC_EEXIT
| VLC_EEXITSUCCESS
| VLC_error (i_err : Z).

(** ** Object types searched for by [libvlc_InternalCleanup] *)

Inductive object_type : Type :=
| VLC_OBJECT_INTF
| VLC_OBJECT_VOUT
| VLC_OBJECT_AOUT
| VLC_OBJECT_ANNOUNCE
| VLC_OBJECT_OTHER.

Definition object_type_eqb (a b : object_type) : bool :=
  match a, b with
  | VLC_OBJECT_INTF, VLC_OBJECT_INTF
  | VLC_OBJECT_VOUT, VLC_OBJECT_VOUT
  | VLC_OBJECT_AOUT, VLC_OBJECT_AOUT
  | VLC_OBJECT_ANNOUNCE, VLC_OBJECT_ANNOUNCE
  | VLC_OBJECT_OTHER, VLC_OBJECT_OTHER => true
  | _, _ => false
  end.

Record vlc_object_t : Type := {
  i_object_type : object_type;
  i_object_id : Z
}.

(** ** Events: the calls the file makes to its collaborators *)

Inductive event : Type :=
(* threads, lock, global data *)
| E_vlc_threads_init
| E_vlc_threads_end
| E_vlc_mutex_lock
| E_vlc_mutex_unlock
| E_CPUCapabilities
| E_vlc_object_create_libvlc (ok : bool)
| E_vlc_object_release_libvlc
| E_vlc_object_destroy_libvlc
(* messages *)
| E_msg_Create
| E_msg_Flush
| E_msg_Destroy
| E_msg_Err (psz : string)
| E_msg_Warn (psz : string)
| E_msg_Dbg (psz : string)
(* system and locale *)
| E_system_Init
| E_system_Configure
| E_system_End
| E_SetLanguage (psz_lang : string)
| E_LocaleInit
| E_LocaleDeinit
(* module bank and the help module *)
| E_module_InitBank
| E_module_EndBank
| E_module_LoadBuiltins
| E_module_LoadPlugins
| E_help_module_create (ok : bool)
| E_config_Duplicate
| E_help_module_attach
| E_help_module_detach
| E_config_Free
| E_help_module_destroy
| E_module_Need_memcpy (found : bool)
| E_module_Unneed_memcpy
(* configuration store *)
| E_config_LoadCmdLine (b_ignore_errors : bool)
| E_config_LoadConfigFile (psz_module : option string)
| E_config_ResetAll
| E_config_SaveConfigFile
(* help, version, console *)
| E_Help (psz_help_name : string)
| E_Version
| E_ListModules
| E_ShowConsole
| E_PauseConsole
| E_InitDeviceValues
(* daemon mode *)
| E_daemon
| E_fork
| E_close_std_streams
| E_pidfile_write (psz_pidfile : string)
(* D-Bus *)
| E_dbus_init
| E_dbus_bus_get
| E_dbus_error_free
| E_dbus_bus_request_name
| E_dbus_probe
| E_dbus_message_new (psz_mrl : string)
| E_dbus_message_unref (psz_mrl : string)
| E_dbus_send (psz_mrl : string) (b_play : bool)
| E_dbus_connection_flush
| E_dbus_pending_call_block (psz_mrl : string)
| E_dbus_register_root
| E_dbus_connection_unref
| E_exit (status : Z)
(* variables, playlist, interfaces *)
| E_var_Create (psz_name : string)
| E_var_Set_verbose (i_int : Z)
| E_VerboseCallback (i_int : Z)
| E_playlist_ThreadCreate (ok : bool)
| E_playlist_ThreadDestroy
| E_playlist_ServicesDiscoveryAdd (psz_modules : string)
| E_playlist_Play
| E_VLC_AddIntf (psz_module : string)
| E_AddIntf_logger_syslog
| E_GetFilenames
| E_VLC_AddTarget (psz_target : string)
| E_intf_Create (psz_module : string)
| E_intf_RunThread (id : Z)
| E_intf_StopThread (id : Z)
| E_intf_Destroy (id : Z)
| E_vout_Destroy (id : Z)
| E_aout_Delete (id : Z)
| E_announce_HandlerDestroy (id : Z)
| E_vlc_object_detach (id : Z)
| E_vlc_object_release (id : Z)
| E_stats_TimersDumpAll
| E_stats_TimersClean.

(** ** Data *)

Record module_bank_t : Type := {
  b_cache_delete : bool
}.

(** [libvlc_global_data_t], the fields this file touches. *)
Record libvlc_global_data_t : Type := {
  b_ready : bool;
  i_cpu : Z;
  p_module_bank : option module_bank_t;
  b_daemon : bool
}.

(** The file-level statics: [libvlc_global], [i_instances] (an
    [unsigned int]) and [p_static_vlc] (the id of the last created
    instance). *)
Record process : Type := {
  libvlc_global : libvlc_global_data_t;
  i_instances : Z;
  p_static_vlc : option Z
}.

(** [libvlc_int_t], the fields this file touches.  C strings are [string],
    pointers that may be NULL are [option]. *)
Record libvlc_int_t : Type := {
  instance_id : Z;
  thread_id : Z;
  psz_object_name : string;
  i_verbose : Z;
  b_color : bool;
  b_attached : bool;
  psz_homedir : option string;
  psz_userdir : option string;
  psz_configfile : option string;
  p_memcpy_module : bool;          (* non-NULL? *)
  pf_memcpy : option string;       (* name of the routine, NULL = None *)
  pf_memset : option string;
  b_stats : bool;
  p_hotkeys : bool;                (* non-NULL? *)
  p_playlist : bool;               (* non-NULL? *)
  children : list vlc_object_t     (* the objects attached below it *)
}.

(** The initial value of the statics: C zero-initialises them. *)
Definition libvlc_global_zero : libvlc_global_data_t :=
  {| b_ready := false; i_cpu := 0; p_module_bank := None; b_daemon := false |}.

Definition process_start : process :=
  {| libvlc_global := libvlc_global_zero; i_instances := 0; p_static_vlc := None |}.

(** ** Arithmetic of [unsigned int] *)

Definition UINT_MODULUS : Z := 2 ^ 32.

Definition uint_incr (x : Z) : Z := (x + 1) mod UINT_MODULUS.
Definition uint_decr (x : Z) : Z := (x - 1) mod UINT_MODULUS.

(** ** [atoi] of the C library

    The value is an [int].  The C standard gives no meaning to [atoi] of a
    number an [int] cannot hold; the model takes what glibc computes on a
    platform with a [long] of 64 bits, [(int) strtol( nptr, NULL, 10 )]:
    [strtol] stops at the ends of [long] and the conversion keeps the low
    32 bits. *)

Definition LONG_MIN : Z := - 2 ^ 63.
Definition LONG_MAX : Z := 2 ^ 63 - 1.

(** A [long] converted to [int]. *)
Definition int_of_long (x : Z) : Z :=
  let y := x mod 2 ^ 32 in
  if y <? 2 ^ 31 then y else y - 2 ^ 32.

Definition isspace (c : ascii) : bool :=
  match nat_of_ascii c with
  | 32%nat | 9%nat | 10%nat | 11%nat | 12%nat | 13%nat => true
  | _ => false
  end.

Definition digit_value (c : ascii) : option Z :=
  let n := Z.of_nat (nat_of_ascii c) in
  if (48 <=? n) && (n <=? 57) then Some (n - 48) else None.

Fixpoint skip_spaces (s : string) : string :=
  match s with
  | String c r => if isspace c then skip_spaces r else s
  | EmptyString => s
  end.

Fixpoint digits_value (acc : Z) (s : string) : Z :=
  match s with
  | String c r =>
      match digit_value c with
      | Some d => digits_value (10 * acc + d) r
      | None => acc
      end
  | EmptyString => acc
  end.

(** [strtol( nptr, NULL, 10 )] *)
Definition strtol (s : string) : Z :=
  let v := match skip_spaces s with
           | String "-" r => - digits_value 0 r
           | String "+" r => digits_value 0 r
           | r => digits_value 0 r
           end in
  Z.max LONG_MIN (Z.min LONG_MAX v).

Definition atoi (s : string) : Z := int_of_long (strtol s).

(** ** [libvlc_InternalCreate] (lines 155-226) *)

Record create_env : Type := {
  vlc_threads_init_ret : Z;            (* result of vlc_threads_init *)
  CPUCapabilities_ret : Z;             (* result of CPUCapabilities *)
  vlc_object_create_ret : option Z;    (* id of the new object, NULL = None *)
  getenv_VLC_VERBOSE : option string;  (* getenv( "VLC_VERBOSE" ) *)
  isatty_stderr : bool                 (* isatty( 2 ) *)
}.

Definition COPYRIGHT_MESSAGE : string := "COPYRIGHT_MESSAGE".

(** The critical section of lines 175-188. *)
Definition create_locked (ce : create_env) (g : process) : process * list event :=
  let n := uint_incr (i_instances g) in
  let gd := libvlc_global g in
  if b_ready gd
  then ({| libvlc_global := gd; i_instances := n; p_static_vlc := p_static_vlc g |},
        [E_vlc_mutex_lock; E_vlc_mutex_unlock])
  else ({| libvlc_global :=
             {| b_ready := true;
                i_cpu := CPUCapabilities_ret ce;
                p_module_bank := None;
                b_daemon := b_daemon gd |};
           i_instances := n;
           p_static_vlc := p_static_vlc g |},
        [E_vlc_mutex_lock; E_CPUCapabilities; E_vlc_mutex_unlock]).

Definition libvlc_InternalCreate (bc : build_config) (ce : create_env) (g : process)
  : option libvlc_int_t * process * list event :=
  if vlc_threads_init_ret ce <? 0 then (None, g, [E_vlc_threads_init])
  else
    let '(g1, t1) := create_locked ce g in
    match vlc_object_create_ret ce with
    | None =>
        (None,
         {| libvlc_global := libvlc_global g1;
            i_instances := uint_decr (i_instances g1);
            p_static_vlc := p_static_vlc g1 |},
         E_vlc_threads_init :: t1 ++ [E_vlc_object_create_libvlc false])
    | Some id =>
        let p :=
          {| instance_id := id;
             thread_id := 0;
             psz_object_name := "libvlc";
             i_verbose := match getenv_VLC_VERBOSE ce with
                          | Some psz_env => atoi psz_env
                          | None => -1
                          end;
             b_color := if HAVE_ISATTY bc && negb (WIN32 bc)
                        then isatty_stderr ce else false;
             b_attached := true;
             psz_homedir := None;
             psz_userdir := None;
             psz_configfile := None;
             p_memcpy_module := false;
             pf_memcpy := None;
             pf_memset := None;
             b_stats := false;
             p_hotkeys := false;
             p_playlist := false;
             children := [] |} in
        (Some p,
         {| libvlc_global := libvlc_global g1;
            i_instances := i_instances g1;
            p_static_vlc := Some id |},
         E_vlc_threads_init :: t1 ++
         [E_vlc_object_create_libvlc true; E_msg_Create;
          E_msg_Dbg COPYRIGHT_MESSAGE;
          E_msg_Dbg "libvlc was configured with %s"])
    end.

(** ** [libvlc_InternalDestroy] (lines 1073-1123) *)

(** The critical section of lines 1093-1104. *)
Definition destroy_locked (g : process) : process * list event :=
  let n := uint_decr (i_instances g) in
  ({| libvlc_global := libvlc_global g; i_instances := n;
      p_static_vlc := p_static_vlc g |},
   if n =? 0
   then [E_vlc_mutex_lock; E_system_End; E_LocaleDeinit; E_vlc_mutex_unlock]
   else [E_vlc_mutex_lock; E_vlc_mutex_unlock]).

Definition libvlc_InternalDestroy (p : libvlc_int_t) (b_release : bool) (g : process)
  : vlc_ret * process * list event :=
  let '(g1, t1) := destroy_locked g in
  (VLC_SUCCESS, g1,
   (if p_memcpy_module p then [E_module_Unneed_memcpy] else []) ++
   [E_module_EndBank] ++ t1 ++
   [E_msg_Flush; E_msg_Destroy] ++
   (if b_release then [E_vlc_object_release_libvlc] else []) ++
   [E_vlc_object_destroy_libvlc; E_vlc_threads_end]).

(** ** [VerboseCallback] (lines 1781-1791) *)

Definition set_i_verbose (v : Z) (p : libvlc_int_t) : libvlc_int_t :=
  {| instance_id := instance_id p; thread_id := thread_id p;
     psz_object_name := psz_object_name p; i_verbose := v;
     b_color := b_color p; b_attached := b_attached p;
     psz_homedir := psz_homedir p; psz_userdir := psz_userdir p;
     psz_configfile := psz_configfile p;
     p_memcpy_module := p_memcpy_module p; pf_memcpy := pf_memcpy p;
     pf_memset := pf_memset p; b_stats := b_stats p;
     p_hotkeys := p_hotkeys p; p_playlist := p_playlist p;
     children := children p |}.

Definition VerboseCallback (p_libvlc : libvlc_int_t) (new_val : Z) : libvlc_int_t :=
  if -1 <=? new_val
  then set_i_verbose (Z.min new_val 2) p_libvlc
  else p_libvlc.

(** ** The state and event monad of [libvlc_InternalInit]

    [libvlc_InternalInit] works on the instance it is given and on
    [libvlc_global]; it leaves through [return], through [exit] or, where C
    gives no meaning to a step (a NULL string handed to [strdup], a
    buffer written past its end, the null instance read), nowhere
    defined. *)

Inductive outcome : Type :=
| Returned (r : vlc_ret)
| Exited (status : Z)
| Undefined.

Inductive step (A : Type) : Type :=
| Next (a : A)
| Stop (o : outcome).

Arguments Next {A} a.
Arguments Stop {A} o.

Record istate : Type := {
  p_libvlc : libvlc_int_t;
  global : libvlc_global_data_t
}.

Definition M (A : Type) : Type := istate -> step A * istate * list event.

Definition ret {A} (a : A) : M A := fun s => (Next a, s, []).

Definition bind {A B} (m : M A) (k : A -> M B) : M B :=
  fun s =>
    match m s with
    | (Next a, s1, t1) =>
        match k a s1 with
        | (r, s2, t2) => (r, s2, t1 ++ t2)
        end
    | (Stop o, s1, t1) => (Stop o, s1, t1)
    end.

Declare Scope vlc_scope.
Delimit Scope vlc_scope with vlc.
Notation "x <- m ;; k" := (bind m (fun x => k))
  (at level 61, m at next level, right associativity) : vlc_scope.
Notation "m ;; k" := (bind m (fun _ => k))
  (at level 61, right associativity) : vlc_scope.
Local Open Scope vlc_scope.

Definition emit (e : event) : M unit := fun s => (Next tt, s, [e]).
Definition emits (t : list event) : M unit := fun s => (Next tt, s, t).
Definition stop {A} (o : outcome) : M A := fun s => (Stop o, s, []).
Definition return_ {A} (r : vlc_ret) : M A := stop (Returned r).
Definition get_vlc : M libvlc_int_t := fun s => (Next (p_libvlc s), s, []).
Definition get_global : M libvlc_global_data_t := fun s => (Next (global s), s, []).
Definition modify_vlc (f : libvlc_int_t -> libvlc_int_t) : M unit :=
  fun s => (Next tt, {| p_libvlc := f (p_libvlc s); global := global s |}, []).
Definition modify_global (f : libvlc_global_data_t -> libvlc_global_data_t) : M unit :=
  fun s => (Next tt, {| p_libvlc := p_libvlc s; global := f (global s) |}, []).
Definition when (b : bool) (m : M unit) : M unit := if b then m else ret tt.

(** ** Field updates *)

Definition set_psz_object_name (n : string) (p : libvlc_int_t) : libvlc_int_t :=
  {| instance_id := instance_id p; thread_id := thread_id p;
     psz_object_name := n; i_verbose := i_verbose p;
     b_color := b_color p; b_attached := b_attached p;
     psz_homedir := psz_homedir p; psz_userdir := psz_userdir p;
     psz_configfile := psz_configfile p;
     p_memcpy_module := p_memcpy_module p; pf_memcpy := pf_memcpy p;
     pf_memset := pf_memset p; b_stats := b_stats p;
     p_hotkeys := p_hotkeys p; p_playlist := p_playlist p;
     children := children p |}.

Definition set_config_paths (home user cfg : option string) (p : libvlc_int_t)
  : libvlc_int_t :=
  {| instance_id := instance_id p; thread_id := thread_id p;
     psz_object_name := psz_object_name p; i_verbose := i_verbose p;
     b_color := b_color p; b_attached := b_attached p;
     psz_homedir := home; psz_userdir := user; psz_configfile := cfg;
     p_memcpy_module := p_memcpy_module p; pf_memcpy := pf_memcpy p;
     pf_memset := pf_memset p; b_stats := b_stats p;
     p_hotkeys := p_hotkeys p; p_playlist := p_playlist p;
     children := children p |}.

Definition set_b_color (b : bool) (p : libvlc_int_t) : libvlc_int_t :=
  {| instance_id := instance_id p; thread_id := thread_id p;
     psz_object_name := psz_object_name p; i_verbose := i_verbose p;
     b_color := b; b_attached := b_attached p;
     psz_homedir := psz_homedir p; psz_userdir := psz_userdir p;
     psz_configfile := psz_configfile p;
     p_memcpy_module := p_memcpy_module p; pf_memcpy := pf_memcpy p;
     pf_memset := pf_memset p; b_stats := b_stats p;
     p_hotkeys := p_hotkeys p; p_playlist := p_playlist p;
     children := children p |}.

Definition set_memcpy (found : bool) (cpy set : option string) (p : libvlc_int_t)
  : libvlc_int_t :=
  {| instance_id := instance_id p; thread_id := thread_id p;
     psz_object_name := psz_object_name p; i_verbose := i_verbose p;
     b_color := b_color p; b_attached := b_attached p;
     psz_homedir := psz_homedir p; psz_userdir := psz_userdir p;
     psz_configfile := psz_configfile p;
     p_memcpy_module := found; pf_memcpy := cpy; pf_memset := set;
     b_stats := b_stats p;
     p_hotkeys := p_hotkeys p; p_playlist := p_playlist p;
     children := children p |}.

Definition set_stats_hotkeys (stats : bool) (p : libvlc_int_t) : libvlc_int_t :=
  {| instance_id := instance_id p; thread_id := thread_id p;
     psz_object_name := psz_object_name p; i_verbose := i_verbose p;
     b_color := b_color p; b_attached := b_attached p;
     psz_homedir := psz_homedir p; psz_userdir := psz_userdir p;
     psz_configfile := psz_configfile p;
     p_memcpy_module := p_memcpy_module p; pf_memcpy := pf_memcpy p;
     pf_memset := pf_memset p; b_stats := stats;
     p_hotkeys := true; p_playlist := p_playlist p;
     children := children p |}.

Definition set_p_playlist (b : bool) (p : libvlc_int_t) : libvlc_int_t :=
  {| instance_id := instance_id p; thread_id := thread_id p;
     psz_object_name := psz_object_name p; i_verbose := i_verbose p;
     b_color := b_color p; b_attached := b_attached p;
     psz_homedir := psz_homedir p; psz_userdir := psz_userdir p;
     psz_configfile := psz_configfile p;
     p_memcpy_module := p_memcpy_module p; pf_memcpy := pf_memcpy p;
     pf_memset := pf_memset p; b_stats := b_stats p;
     p_hotkeys := p_hotkeys p; p_playlist := b;
     children := children p |}.

Definition set_children (l : list vlc_object_t) (p : libvlc_int_t) : libvlc_int_t :=
  {| instance_id := instance_id p; thread_id := thread_id p;
     psz_object_name := psz_object_name p; i_verbose := i_verbose p;
     b_color := b_color p; b_attached := b_attached p;
     psz_homedir := psz_homedir p; psz_userdir := psz_userdir p;
     psz_configfile := psz_configfile p;
     p_memcpy_module := p_memcpy_module p; pf_memcpy := pf_memcpy p;
     pf_memset := pf_memset p; b_stats := b_stats p;
     p_hotkeys := p_hotkeys p; p_playlist := p_playlist p;
     children := l |}.

Definition set_p_module_bank (b : option module_bank_t) (g : libvlc_global_data_t)
  : libvlc_global_data_t :=
  {| b_ready := b_ready g; i_cpu := i_cpu g; p_module_bank := b;
     b_daemon := b_daemon g |}.

Definition set_b_daemon (b : bool) (g : libvlc_global_data_t) : libvlc_global_data_t :=
  {| b_ready := b_ready g; i_cpu := i_cpu g; p_module_bank := p_module_bank g;
     b_daemon := b |}.

Definition set_i_cpu (c : Z) (g : libvlc_global_data_t) : libvlc_global_data_t :=
  {| b_ready := b_ready g; i_cpu := c; p_module_bank := p_module_bank g;
     b_daemon := b_daemon g |}.

(** ** The environment of [libvlc_InternalInit] *)

(** What one pass of the forwarding loop (lines 683-745) meets. *)
Inductive forward_result : Type :=
| MessageNewFails      (* dbus_message_new_method_call returns NULL *)
| AppendMrlFails       (* appending the MRL fails *)
| AppendPlayFails      (* appending b_play fails *)
| SendFails            (* dbus_connection_send_with_reply fails *)
| PendingNull          (* it succeeds, the pending call is NULL *)
| Acknowledged.        (* the reply arrives *)

Record init_env : Type := {
  ppsz_argv : list string;               (* the arguments, i_argc their number *)
  optind : nat;                          (* getopt's index of the first input *)
  config_GetInt : string -> Z;           (* the value read at the one place
                                            each option is read *)
  config_GetPsz : string -> option string;
  config_GetHomeDir : option string;
  config_GetUserDir : option string;
  var_Get_open : option string;          (* var_Get( "open" ) *)
  var_inherited_verbose : Z;             (* "verbose" as var_Create inherits it *)
  InitBank_cache_delete : bool;          (* b_cache_delete after line 325 *)
  InitBank_again_cache_delete : bool;    (* b_cache_delete after line 491 *)
  help_module_created : bool;            (* vlc_object_create, line 328 *)
  LoadCmdLine_early_fails : bool;        (* config_LoadCmdLine, line 341 *)
  LoadCmdLine_late_fails : bool;         (* config_LoadCmdLine, line 590 *)
  daemon_ret : Z;                        (* daemon( 1, 0 ) *)
  fork_ret : Z;                          (* fork() *)
  pidfile_opened : bool;                 (* utf8_fopen non-NULL *)
  b_die_after_LoadPlugins : bool;        (* p_libvlc->b_die, line 508 *)
  dbus_bus_get_ok : bool;
  dbus_request_name_error : bool;        (* dbus_error_is_set, line 640 *)
  dbus_primary_owner : bool;             (* reply is PRIMARY_OWNER *)
  dbus_probe_replied : bool;             (* p_test_reply non-NULL *)
  dbus_forward : nat -> forward_result;  (* by i_input *)
  dbus_register_ok : bool;
  module_Need_memcpy_found : bool;
  memcpy_module_pf_memcpy : option string;  (* routines the module installs *)
  memcpy_module_pf_memset : option string;
  playlist_ThreadCreate_ok : bool
}.

Definition config_Bool (e : init_env) (key : string) : bool :=
  negb (config_GetInt e key =? 0).

Definition nonempty (o : option string) : bool :=
  match o with
  | Some (String _ _) => true
  | _ => false
  end.

(** ** Steps of [libvlc_InternalInit] (lines 270-1005) *)

(** Lines 293-305: the executable name, as [basename] does. *)
Fixpoint after_last_slash (name s : string) : string :=
  match s with
  | EmptyString => name
  | String c r => if Ascii.eqb c "/" then after_last_slash r r
                  else after_last_slash name r
  end.

Definition object_name_of (argv : list string) : string :=
  match argv with
  | a :: _ => after_last_slash a a
  | [] => "vlc"
  end.

Definition module_InitBank (fresh_cache_delete : bool) : M unit :=
  emit E_module_InitBank ;;
  modify_global (set_p_module_bank (Some {| b_cache_delete := fresh_cache_delete |})).

(** [libvlc_global.p_module_bank->b_cache_delete = b]. *)
Definition set_bank_cache_delete (b : bool) : M unit :=
  g <- get_global ;;
  match p_module_bank g with
  | Some _ => modify_global (set_p_module_bank (Some {| b_cache_delete := b |}))
  | None => stop Undefined
  end.

Definition get_bank_cache_delete : M bool :=
  g <- get_global ;;
  match p_module_bank g with
  | Some bank => ret (b_cache_delete bank)
  | None => stop Undefined
  end.

(** Lines 371-381: the [~/] rule on the configuration file name. *)
Definition resolve_configfile (psz_userdir : string) (psz_configfile : option string)
  : option string :=
  match psz_configfile with
  | Some (String "~" (String "/" rest)) => Some (psz_userdir ++ "/" ++ rest)%string
  | other => other
  end.

(** Lines 365-381. *)
Definition config_file_stuff (e : init_env) : M unit :=
  let home := config_GetHomeDir e in
  match (match config_GetUserDir e with Some u => Some u | None => home end) with
  | None => stop Undefined        (* strdup( NULL ) *)
  | Some user =>
      modify_vlc (set_config_paths home (Some user)
                    (resolve_configfile user (config_GetPsz e "config")))
  end.

(** Lines 396-459, absent under [WIN32].  Takes and gives back the locals
    [b_exit] and [i_ret].  The process followed is the one in which
    [daemon( 1, 0 )] returns: where the call forks, that is the child, and
    the process that made the call ends inside it. *)
Definition daemon_mode (bc : build_config) (e : init_env) (b_exit : bool) (i_ret : vlc_ret)
  : M (bool * vlc_ret) :=
  if WIN32 bc then ret (b_exit, i_ret)
  else if config_Bool e "daemon" then
    if HAVE_DAEMON bc then
      emit E_daemon ;;
      b_exit1 <- (if negb (daemon_ret e =? 0)
                  then emit (E_msg_Err "Unable to fork vlc to daemon mode") ;; ret true
                  else ret b_exit) ;;
      modify_global (set_b_daemon true) ;;
      match config_GetPsz e "pidfile" with
      | Some psz_pidfile =>
          emit (E_msg_Dbg "PID is %d, writing it to %s") ;;
          (if pidfile_opened e then emit (E_pidfile_write psz_pidfile)
           else emit (E_msg_Err "cannot open pid file for writing: %s (%s)")) ;;
          ret (b_exit1, i_ret)
      | None => ret (b_exit1, i_ret)
      end
    else
      emit E_fork ;;
      if fork_ret e <? 0 then
        emit (E_msg_Err "unable to fork vlc to daemon mode") ;;
        ret (true, i_ret)
      else if negb (fork_ret e =? 0) then
        emit (E_msg_Dbg "closing parent process") ;;
        ret (true, VLC_EEXITSUCCESS)
      else
        emit (E_msg_Dbg "daemon spawned") ;;
        emit E_close_std_streams ;;
        modify_global (set_b_daemon true) ;;
        ret (b_exit, i_ret)
  else ret (b_exit, i_ret).

(** Lines 289-467: from [system_Init] to the first test of [b_exit].  Gives
    back [i_ret]. *)
Definition init_bootstrap (bc : build_config) (e : init_env) : M vlc_ret :=
  emit E_system_Init ;;
  modify_vlc (set_psz_object_name (object_name_of (ppsz_argv e))) ;;
  emit (E_SetLanguage EmptyString) ;;
  emit E_LocaleInit ;;
  emit (E_msg_Dbg "translation test: code is %s") ;;
  module_InitBank (InitBank_cache_delete e) ;;
  (* Hack: insert the help module here *)
  (if help_module_created e then emit (E_help_module_create true)
   else emit (E_help_module_create false) ;;
        emit E_module_EndBank ;;
        return_ VLC_EGENERIC) ;;
  emit E_config_Duplicate ;;
  emit E_help_module_attach ;;
  emit (E_config_LoadCmdLine true) ;;
  (if LoadCmdLine_early_fails e
   then emit E_help_module_detach ;;
        emit E_config_Free ;;
        emit E_help_module_destroy ;;
        emit E_module_EndBank ;;
        return_ VLC_EGENERIC
   else ret tt) ;;
  x <- (if config_Bool e "help"
        then emit (E_Help "help") ;; ret (true, VLC_EEXITSUCCESS)
        else if config_Bool e "version"
        then emit E_Version ;; ret (true, VLC_EEXITSUCCESS)
        else ret (false, VLC_EEXIT)) ;;
  config_file_stuff e ;;
  when (config_Bool e "reset-plugins-cache") (set_bank_cache_delete true) ;;
  emit E_help_module_detach ;;
  modify_vlc (set_i_verbose (config_GetInt e "verbose")) ;;
  y <- daemon_mode bc e (fst x) (snd x) ;;
  if fst y
  then emit E_config_Free ;;
       emit E_help_module_destroy ;;
       emit E_module_EndBank ;;
       return_ (snd y)
  else ret (snd y).

(** Lines 469-498: the language of the configuration, compiled in only with
    NLS and gettext under [WIN32] or [__APPLE__]. *)
Definition language_reload_built (bc : build_config) : bool :=
  ENABLE_NLS_GETTEXT bc && (WIN32 bc || APPLE bc).

Definition custom_language (psz_language : option string) : option string :=
  match psz_language with
  | Some l => if nonempty (Some l) && negb (String.eqb l "auto") then Some l else None
  | None => None
  end.

Definition init_language (bc : build_config) (e : init_env) : M unit :=
  if language_reload_built bc then
    emit (E_config_LoadConfigFile (Some "main")) ;;
    emit (E_config_LoadCmdLine true) ;;
    match custom_language (config_GetPsz e "language") with
    | Some psz_language =>
        b <- get_bank_cache_delete ;;
        emit (E_SetLanguage psz_language) ;;
        emit (E_msg_Dbg "translation test: code is %s") ;;
        emit E_module_EndBank ;;
        module_InitBank (InitBank_again_cache_delete e) ;;
        emit (E_config_LoadConfigFile (Some "main")) ;;
        emit (E_config_LoadCmdLine true) ;;
        set_bank_cache_delete b
    | None => ret tt
    end
  else ret tt.

(** Lines 500-610: module loading, help on modules, configuration file and
    command line, removal of the help module.  [i_ret] is the local as the
    first part left it. *)
Definition init_modules (bc : build_config) (e : init_env) (i_ret : vlc_ret) : M unit :=
  emit E_module_LoadBuiltins ;;
  emit E_module_LoadPlugins ;;
  emit (E_msg_Dbg "module bank initialized, found %i modules") ;;
  (* Hack: insert the help module here *)
  emit E_help_module_attach ;;
  x <- match config_GetPsz e "module" with
       | Some p_tmp => emit (E_Help p_tmp) ;; ret (true, VLC_EEXITSUCCESS)
       | None =>
           if config_Bool e "longhelp"
           then emit (E_Help "longhelp") ;; ret (true, VLC_EEXITSUCCESS)
           else if config_Bool e "list"
           then emit E_ListModules ;; ret (true, VLC_EEXITSUCCESS)
           else ret (b_die_after_LoadPlugins e, i_ret)
       end ;;
  when (config_Bool e "reset-config")
    (emit E_help_module_detach ;;
     emit E_config_ResetAll ;;
     emit (E_config_LoadCmdLine true) ;;
     emit E_config_SaveConfigFile ;;
     emit E_help_module_attach) ;;
  when (config_Bool e "save-config")
    (emit E_help_module_detach ;;
     emit (E_config_LoadConfigFile None) ;;
     emit (E_config_LoadCmdLine true) ;;
     emit E_config_SaveConfigFile ;;
     emit E_help_module_attach) ;;
  (* Hack: remove the help module here *)
  emit E_help_module_detach ;;
  (if fst x
   then emit E_config_Free ;;
        emit E_help_module_destroy ;;
        emit E_module_EndBank ;;
        return_ (snd x)
   else ret tt) ;;
  emit E_InitDeviceValues ;;
  emit (E_config_LoadConfigFile None) ;;
  emit E_help_module_attach ;;
  emit (E_config_LoadCmdLine false) ;;
  (if LoadCmdLine_late_fails e
   then when (WIN32 bc) (emit E_ShowConsole ;; emit E_PauseConsole) ;;
        emit E_help_module_detach ;;
        emit E_config_Free ;;
        emit E_help_module_destroy ;;
        emit E_module_EndBank ;;
        return_ VLC_EGENERIC
   else ret tt) ;;
  emit E_help_module_detach ;;
  emit E_config_Free ;;
  emit E_help_module_destroy.

(** [exit( status )]. *)
Definition exit_ {A} (status : Z) : M A :=
  emit (E_exit status) ;; stop (Exited status).

(** Lines 683-745: the arguments from [optind] on are handed to the other
    instance, one [AddMRL] call each. *)
Fixpoint forward_mrls (e : init_env) (i_input : nat) (inputs : list string) : M unit :=
  match inputs with
  | [] => ret tt
  | psz_mrl :: rest =>
      emit (E_msg_Dbg "Give %s to other vlc") ;;
      emit (E_dbus_message_new psz_mrl) ;;
      let b_play := negb (config_Bool e "playlist-enqueue") in
      match dbus_forward e i_input with
      | MessageNewFails =>
          emit (E_msg_Err "D-Bus problem") ;;
          emit E_system_End ;;
          exit_ 0
      | AppendMrlFails =>
          emit (E_msg_Err "Out of memory") ;;
          emit (E_dbus_message_unref psz_mrl) ;;
          emit E_system_End ;;
          exit_ 0
      | AppendPlayFails =>
          emit (E_msg_Err "Out of memory") ;;
          emit (E_dbus_message_unref psz_mrl) ;;
          emit E_system_End ;;
          exit_ 0
      | SendFails =>
          emit (E_dbus_send psz_mrl b_play) ;;
          emit (E_msg_Err "D-Bus problem") ;;
          emit (E_dbus_message_unref psz_mrl) ;;
          emit E_system_End ;;
          exit_ 0
      | PendingNull =>
          emit (E_dbus_send psz_mrl b_play) ;;
          emit (E_msg_Err "D-Bus problem") ;;
          emit (E_dbus_message_unref psz_mrl) ;;
          emit E_system_End ;;
          exit_ 0
      | Acknowledged =>
          emit (E_dbus_send psz_mrl b_play) ;;
          emit E_dbus_connection_flush ;;
          emit (E_dbus_message_unref psz_mrl) ;;
          emit (E_dbus_pending_call_block psz_mrl) ;;
          forward_mrls e (S i_input) rest
      end
  end.

Definition one_instance_not_enabled : string :=
  "one instance mode has been set but D-Bus control interface is not enabled. Enable it and restart vlc, or disable one instance mode.".

(** Lines 617-775, compiled in with [HAVE_DBUS_3]. *)
Definition init_single_instance (bc : build_config) (e : init_env) : M unit :=
  if HAVE_DBUS_3 bc then
    emit E_dbus_init ;;
    emit E_dbus_bus_get ;;
    if negb (dbus_bus_get_ok e) then
      emit (E_msg_Err "Failed to connect to the D-Bus session daemon: %s") ;;
      emit E_dbus_error_free
    else
      emit E_dbus_bus_request_name ;;
      (if dbus_request_name_error e then
         emit (E_msg_Err "Error requesting %s service: %s") ;;
         emit E_dbus_error_free
       else if negb (dbus_primary_owner e) then
         (* the name is already registered by another instance of vlc *)
         if config_Bool e "one-instance" then
           emit E_dbus_probe ;;
           if negb (dbus_probe_replied e) then
             emit E_dbus_error_free ;;
             emit (E_msg_Err one_instance_not_enabled)
           else
             emit (E_msg_Warn "Another vlc instance exists: will now exit") ;;
             forward_mrls e (optind e) (skipn (optind e) (ppsz_argv e)) ;;
             (* bye bye *)
             emit E_system_End ;;
             exit_ 0
         else
           emit (E_msg_Dbg "%s is already registered on the session bus")
       else
         emit E_dbus_register_root ;;
         when (negb (dbus_register_ok e)) (emit (E_msg_Err "Out of memory")) ;;
         emit (E_msg_Dbg "We are the primary owner of %s on the session bus")) ;;
      emit E_dbus_connection_unref
  else ret tt.

(** Lines 799-817: [libvlc_global.i_cpu &= ~capability] for each capability
    the configuration turns off. *)
Definition mask_capability (e : init_env) (key : string) (capability : Z) (cpu : Z) : Z :=
  if config_Bool e key then cpu else Z.land cpu (Z.lnot capability).

Definition cpu_overrides (bc : build_config) (e : init_env) (cpu : Z) : Z :=
  let cpu := mask_capability e "fpu" (CPU_CAPABILITY_FPU bc) cpu in
  let cpu := if ARCH_X86 bc then
               mask_capability e "sse2" (CPU_CAPABILITY_SSE2 bc)
                 (mask_capability e "sse" (CPU_CAPABILITY_SSE bc)
                    (mask_capability e "mmxext" (CPU_CAPABILITY_MMXEXT bc)
                       (mask_capability e "3dn" (CPU_CAPABILITY_3DNOW bc)
                          (mask_capability e "mmx" (CPU_CAPABILITY_MMX bc) cpu))))
             else cpu in
  if ARCH_PPC bc then mask_capability e "altivec" (CPU_CAPABILITY_ALTIVEC bc) cpu
  else cpu.

(** Lines 908-926: the interface list is cut at each colon. *)
Fixpoint split_modules (cur : option string) (s : string) : list string :=
  match s with
  | EmptyString => match cur with Some m => [m] | None => [] end
  | String c r =>
      let m := match cur with Some m => m | None => EmptyString end in
      if Ascii.eqb c ":" then m :: split_modules None r
      else split_modules (Some (m ++ String c EmptyString)%string) r
  end.

(** Lines 893-906: [extraintf] and [control] joined.  With both set,
    line 898 resizes the buffer to [strlen + strlen + 1] bytes and line 900
    prints ["%s:%s"], one byte more, into it from itself: the behaviour is
    undefined. *)
Definition extra_interfaces (e : init_env) : M (option string) :=
  let psz_modules := config_GetPsz e "extraintf" in
  let psz_control := config_GetPsz e "control" in
  if nonempty psz_modules && nonempty psz_control then stop Undefined
  else if nonempty psz_control then ret psz_control
  else ret psz_modules.

(** Lines 777-880: message options, capabilities, memcpy, playlist. *)
Definition init_playlist (bc : build_config) (e : init_env) : M unit :=
  emit (E_var_Create "verbose") ;;
  v <- (if config_Bool e "quiet"
        then emit (E_var_Set_verbose (-1)) ;; ret (-1)
        else ret (var_inherited_verbose e)) ;;
  emit (E_VerboseCallback v) ;;
  modify_vlc (fun p => VerboseCallback p v) ;;
  modify_vlc (fun p => set_b_color (b_color p && config_Bool e "color") p) ;;
  emit E_msg_Flush ;;
  modify_global (fun g => set_i_cpu (cpu_overrides bc e (i_cpu g)) g) ;;
  emit (E_msg_Dbg "CPU has capabilities %s") ;;
  (* Choose the best memcpy module *)
  emit (E_module_Need_memcpy (module_Need_memcpy_found e)) ;;
  modify_vlc (fun p =>
    let cpy := if module_Need_memcpy_found e then memcpy_module_pf_memcpy e
               else pf_memcpy p in
    let set := if module_Need_memcpy_found e then memcpy_module_pf_memset e
               else pf_memset p in
    set_memcpy (module_Need_memcpy_found e)
      (match cpy with None => Some "memcpy" | _ => cpy end)
      (match set with None => Some "memset" | _ => set end) p) ;;
  modify_vlc (set_stats_hotkeys (config_Bool e "stats")) ;;
  emit (E_var_Create "key-pressed") ;;
  (* Initialize playlist and get commandline files *)
  emit (E_playlist_ThreadCreate (playlist_ThreadCreate_ok e)) ;;
  modify_vlc (set_p_playlist (playlist_ThreadCreate_ok e)) ;;
  p <- get_vlc ;;
  (if negb (p_playlist p)
   then emit (E_msg_Err "playlist initialization failed") ;;
        when (p_memcpy_module p) (emit E_module_Unneed_memcpy) ;;
        emit E_module_EndBank ;;
        return_ VLC_EGENERIC
   else ret tt).

(** Lines 882-1004: service discovery, interfaces, inputs. *)
Definition init_interfaces (bc : build_config) (e : init_env) : M vlc_ret :=
  match config_GetPsz e "services-discovery" with
  | Some psz_modules =>
      when (nonempty (Some psz_modules))
        (emit (E_playlist_ServicesDiscoveryAdd psz_modules))
  | None => ret tt
  end ;;
  (* Load background interfaces *)
  psz_modules <- extra_interfaces e ;;
  emits (map (fun psz_module => E_VLC_AddIntf (psz_module ++ ",none")%string)
           (match psz_modules with
            | Some psz_modules => split_modules None psz_modules
            | None => []
            end)) ;;
  emit (E_VLC_AddIntf "hotkeys,none") ;;
  when (HAVE_X11_XLIB_H bc && (config_GetInt e "disable-screensaver" =? 1))
    (emit (E_VLC_AddIntf "screensaver,none")) ;;
  when (config_GetInt e "file-logging" =? 1) (emit (E_VLC_AddIntf "logger,none")) ;;
  (* libvlc_InternalAddIntf( 0, ... ): except under WIN32, line 1137 reads
     p_libvlc->p_libvlc_global of the null instance *)
  when (HAVE_SYSLOG_H bc && (config_GetInt e "syslog" =? 1))
    (emit E_AddIntf_logger_syslog ;;
     if WIN32 bc then ret tt else stop Undefined) ;;
  when (config_GetInt e "show-intf" =? 1) (emit (E_VLC_AddIntf "showintf,none")) ;;
  when (config_GetInt e "network-synchronisation" =? 1)
    (emit (E_VLC_AddIntf "netsync,none")) ;;
  emits (map E_var_Create
           ["drawable"; "drawable-view-top"; "drawable-view-left";
            "drawable-view-bottom"; "drawable-view-right"; "drawable-clip-top";
            "drawable-clip-left"; "drawable-clip-bottom"; "drawable-clip-right";
            "volume-change"]) ;;
  emit E_GetFilenames ;;
  emit (E_var_Create "open") ;;
  match var_Get_open e with
  | Some psz_string =>
      when (nonempty (Some psz_string)) (emit (E_VLC_AddTarget psz_string))
  | None => ret tt
  end ;;
  ret VLC_SUCCESS.

(** Lines 270-615, up to [system_Configure]. *)
Definition init_until_configure (bc : build_config) (e : init_env) : M unit :=
  i_ret <- init_bootstrap bc e ;;
  init_language bc e ;;
  init_modules bc e i_ret ;;
  emit E_system_Configure.

(** Lines 777-1004. *)
Definition init_instance (bc : build_config) (e : init_env) : M vlc_ret :=
  init_playlist bc e ;;
  init_interfaces bc e.

Definition init_body (bc : build_config) (e : init_env) : M vlc_ret :=
  init_until_configure bc e ;;
  init_single_instance bc e ;;
  init_instance bc e.

(** [libvlc_InternalInit]: how it leaves, the state it leaves and the calls
    it made, in order. *)
Definition libvlc_InternalInit (bc : build_config) (e : init_env)
    (p : libvlc_int_t) (g : libvlc_global_data_t)
  : outcome * istate * list event :=
  match init_body bc e {| p_libvlc := p; global := g |} with
  | (Next r, s, t) => (Returned r, s, t)
  | (Stop o, s, t) => (o, s, t)
  end.

(** ** [libvlc_InternalCleanup] (lines 1011-1063) *)

Definition has_type (ty : object_type) (o : vlc_object_t) : bool :=
  object_type_eqb (i_object_type o) ty.

(** Modelled from the spec: [vlc_object_find( p_libvlc, type, FIND_CHILD )]
    of misc/objects.c, which is not in this file.  The instance tracks the
    handles it owns in attachment order; the first one of the type is
    found. *)
Definition vlc_object_find (l : list vlc_object_t) (ty : object_type)
  : option vlc_object_t :=
  find (has_type ty) l.

Definition same_object (a b : vlc_object_t) : bool :=
  object_type_eqb (i_object_type a) (i_object_type b)
  && (i_object_id a =? i_object_id b).

(** Modelled from the spec: [vlc_object_detach] of misc/objects.c, which is
    not in this file: the object leaves the list of its parent. *)
Fixpoint vlc_object_detach (o : vlc_object_t) (l : list vlc_object_t)
  : list vlc_object_t :=
  match l with
  | [] => []
  | x :: r => if same_object o x then r else x :: vlc_object_detach o r
  end.

(** [while( (p = vlc_object_find( p_libvlc, type, FIND_CHILD )) ) { body }]:
    [fuel] bounds the number of passes. *)
Fixpoint destroy_all (fuel : nat) (ty : object_type)
    (body : vlc_object_t -> list event) (l : list vlc_object_t)
  : list vlc_object_t * list event :=
  match fuel with
  | O => (l, [])
  | S fuel' =>
      match vlc_object_find l ty with
      | None => (l, [])
      | Some o =>
          let '(l', t) := destroy_all fuel' ty body (vlc_object_detach o l) in
          (l', body o ++ t)
      end
  end.

Definition stop_interface (p_intf : vlc_object_t) : list event :=
  [E_intf_StopThread (i_object_id p_intf);
   E_vlc_object_detach (i_object_id p_intf);
   E_vlc_object_release (i_object_id p_intf);
   E_intf_Destroy (i_object_id p_intf)].

Definition free_vout (p_vout : vlc_object_t) : list event :=
  [E_vlc_object_detach (i_object_id p_vout);
   E_vlc_object_release (i_object_id p_vout);
   E_vout_Destroy (i_object_id p_vout)].

Definition free_aout (p_aout : vlc_object_t) : list event :=
  [E_vlc_object_detach (i_object_id p_aout);
   E_vlc_object_release (i_object_id p_aout);
   E_aout_Delete (i_object_id p_aout)].

Definition free_announce (p_announce : vlc_object_t) : list event :=
  [E_msg_Dbg "removing announce handler";
   E_vlc_object_detach (i_object_id p_announce);
   E_vlc_object_release (i_object_id p_announce);
   E_announce_HandlerDestroy (i_object_id p_announce)].

Definition libvlc_InternalCleanup (p : libvlc_int_t)
  : vlc_ret * libvlc_int_t * list event :=
  let l0 := children p in
  let n := List.length l0 in
  let '(l1, t1) := destroy_all n VLC_OBJECT_INTF stop_interface l0 in
  let '(l2, t2) := destroy_all n VLC_OBJECT_VOUT free_vout l1 in
  let '(l3, t3) := destroy_all n VLC_OBJECT_AOUT free_aout l2 in
  let '(l4, t4) := destroy_all n VLC_OBJECT_ANNOUNCE free_announce l3 in
  (VLC_SUCCESS, set_children l4 p,
   [E_msg_Dbg "removing all interfaces"] ++ t1 ++
   [E_msg_Dbg "removing playlist"; E_playlist_ThreadDestroy] ++
   [E_msg_Dbg "removing all video outputs"] ++ t2 ++
   [E_msg_Dbg "removing all audio outputs"] ++ t3 ++
   [E_stats_TimersDumpAll; E_stats_TimersClean] ++ t4).

(** ** [libvlc_InternalAddIntf] (lines 1128-1173) *)

Record addintf_env : Type := {
  config_GetPsz_intf : option string;      (* config_GetPsz( "intf" ) *)
  intf_Create_ret : option (Z * bool);     (* id and b_play of the interface *)
  intf_RunThread_ret : Z
}.

(** Lines 1136-1145: the module name after the daemon mode hack. *)
Definition daemon_mode_hack (bc : build_config) (g : libvlc_global_data_t)
    (ae : addintf_env) (psz_module : option string) (b_block : bool)
  : option string :=
  if WIN32 bc then psz_module
  else
    match psz_module with
    | None =>
        if b_daemon g && b_block
        then if nonempty (config_GetPsz_intf ae) then psz_module else Some "dummy"
        else psz_module
    | Some _ => psz_module
    end.

(** The name handed to [intf_Create], line 1148. *)
Definition intf_Create_name (psz_module : option string) : string :=
  match psz_module with
  | Some m => m
  | None => "$intf"
  end.

Definition libvlc_InternalAddIntf (bc : build_config) (ae : addintf_env)
    (p : libvlc_int_t) (g : libvlc_global_data_t)
    (psz_module : option string) (b_block b_play : bool)
  : vlc_ret * libvlc_int_t * list event :=
  let psz_module := daemon_mode_hack bc g ae psz_module b_block in
  let create := E_intf_Create (intf_Create_name psz_module) in
  match intf_Create_ret ae with
  | None =>
      (VLC_EGENERIC, p,
       [create; E_msg_Err "interface %s initialization failed"])
  | Some (id, intf_b_play) =>
      let t := create ::
               (if negb intf_b_play && b_play then [E_playlist_Play] else []) ++
               [E_intf_RunThread id] in
      if negb (intf_RunThread_ret ae =? 0)
      then (VLC_error (intf_RunThread_ret ae), p,
            t ++ [E_vlc_object_detach id; E_intf_Destroy id])
      else (VLC_SUCCESS,
            set_children
              (children p ++ [{| i_object_type := VLC_OBJECT_INTF; i_object_id := id |}]) p,
            t)
  end.

(** ** Schedules of [libvlc_InternalCreate] and [libvlc_InternalDestroy] *)

Inductive lifecycle_op : Type :=
| OpCreate (ce : create_env)
| OpDestroy (p : libvlc_int_t) (b_release : bool).

Fixpoint run_ops (bc : build_config) (ops : list lifecycle_op) (g : process)
  : process * list event :=
  match ops with
  | [] => (g, [])
  | OpCreate ce :: rest =>
      let '(_, g1, t1) := libvlc_InternalCreate bc ce g in
      let '(g2, t2) := run_ops bc rest g1 in
      (g2, t1 ++ t2)
  | OpDestroy p b_release :: rest =>
      let '(_, g1, t1) := libvlc_InternalDestroy p b_release g in
      let '(g2, t2) := run_ops bc rest g1 in
      (g2, t1 ++ t2)
  end.

(** Does this call of [libvlc_InternalCreate] give an instance? *)
Definition gives_instance (ce : create_env) : bool :=
  negb (vlc_threads_init_ret ce <? 0) &&
  match vlc_object_create_ret ce with Some _ => true | None => false end.

(** A schedule is matched from [live] instances when every destroy has an
    earlier create of its own and none is left at the end. *)
Fixpoint matched (live : nat) (ops : list lifecycle_op) : bool :=
  match ops with
  | [] => Nat.eqb live 0
  | OpCreate ce :: rest =>
      if gives_instance ce then matched (S live) rest else matched live rest
  | OpDestroy _ _ :: rest =>
      match live with
      | O => false
      | S live' => matched live' rest
      end
  end.

(** The destroys of a schedule that leave no live instance. *)
Fixpoint last_ones_out (live : nat) (ops : list lifecycle_op) : nat :=
  match ops with
  | [] => O
  | OpCreate ce :: rest =>
      if gives_instance ce then last_ones_out (S live) rest
      else last_ones_out live rest
  | OpDestroy _ _ :: rest =>
      match live with
      | 1%nat => S (last_ones_out O rest)
      | _ => last_ones_out (pred live) rest
      end
  end.

Definition is_system_End (e : event) : bool :=
  match e with E_system_End => true | _ => false end.

Definition is_LocaleDeinit (e : event) : bool :=
  match e with E_LocaleDeinit => true | _ => false end.


Definition count (f : event -> bool) (t : list event) : nat :=
  List.length (filter f t).

(** ** What [libvlc_InternalInit] holds while it runs

    The calls that take something which has to be given back, and the calls
    that give it back. *)

Inductive resource : Type :=
| ModuleBank        (* module_InitBank / module_EndBank *)
| HelpObject        (* vlc_object_create / vlc_object_destroy of the help module *)
| HelpConfig        (* config_Duplicate / config_Free *)
| HelpAttachment    (* vlc_object_attach / vlc_object_detach *)
| MemcpyModule.     (* module_Need / module_Unneed *)


Definition acquires (e : event) : option resource :=
  match e with
  | E_module_InitBank => Some ModuleBank
  | E_help_module_create true => Some HelpObject
  | E_config_Duplicate => Some HelpConfig
  | E_help_module_attach => Some HelpAttachment
  | E_module_Need_memcpy true => Some MemcpyModule
  | _ => None
  end.

Definition releases (e : event) : option resource :=
  match e with
  | E_module_EndBank => Some ModuleBank
  | E_help_module_destroy => Some HelpObject
  | E_config_Free => Some HelpConfig
  | E_help_module_detach => Some HelpAttachment
  | E_module_Unneed_memcpy => Some MemcpyModule
  | _ => None
  end.






(** ** Sample inputs *)

Definition linux_build : build_config :=
  {| WIN32 := false; APPLE := false; ENABLE_NLS_GETTEXT := true;
     HAVE_DBUS_3 := true; HAVE_DAEMON := true; HAVE_ISATTY := true;
     HAVE_X11_XLIB_H := true; HAVE_SYSLOG_H := true;
     ARCH_X86 := true; ARCH_PPC := false;
     CPU_CAPABILITY_FPU := 2147483648; CPU_CAPABILITY_MMX := 8;
     CPU_CAPABILITY_3DNOW := 16; CPU_CAPABILITY_MMXEXT := 32;
     CPU_CAPABILITY_SSE := 64; CPU_CAPABILITY_SSE2 := 128;
     CPU_CAPABILITY_ALTIVEC := 65536 |}.

Definition win32_build : build_config :=
  {| WIN32 := true; APPLE := false; ENABLE_NLS_GETTEXT := true;
     HAVE_DBUS_3 := false; HAVE_DAEMON := false; HAVE_ISATTY := false;
     HAVE_X11_XLIB_H := false; HAVE_SYSLOG_H := false;
     ARCH_X86 := true; ARCH_PPC := false;
     CPU_CAPABILITY_FPU := 2147483648; CPU_CAPABILITY_MMX := 8;
     CPU_CAPABILITY_3DNOW := 16; CPU_CAPABILITY_MMXEXT := 32;
     CPU_CAPABILITY_SSE := 64; CPU_CAPABILITY_SSE2 := 128;
     CPU_CAPABILITY_ALTIVEC := 65536 |}.

Definition sample_create (id : Z) (verbose : option string) : create_env :=
  {| vlc_threads_init_ret := 0; CPUCapabilities_ret := 255;
     vlc_object_create_ret := Some id; getenv_VLC_VERBOSE := verbose;
     isatty_stderr := true |}.

Definition sample_instance (id : Z) : libvlc_int_t :=
  {| instance_id := id; thread_id := 0; psz_object_name := "libvlc";
     i_verbose := -1; b_color := true; b_attached := true;
     psz_homedir := None; psz_userdir := None; psz_configfile := None;
     p_memcpy_module := false; pf_memcpy := None; pf_memset := None;
     b_stats := false; p_hotkeys := false; p_playlist := false;
     children := [] |}.

(** A call of [libvlc_InternalCreate] that gives no instance. *)
Definition no_instance (op : lifecycle_op) : bool :=
  match op with
  | OpCreate ce => negb (gives_instance ce)
  | OpDestroy _ _ => false
  end.

(** From the first instance to the last destroy the process always has a
    live instance. *)
Fixpoint overlapping (live : nat) (ops : list lifecycle_op) : bool :=
  match ops with
  | [] => true
  | OpCreate ce :: rest =>
      if gives_instance ce then overlapping (S live) rest else overlapping live rest
  | OpDestroy _ _ :: rest =>
      match live with
      | O => false
      | 1%nat => forallb no_instance rest
      | S live' => overlapping live' rest
      end
  end.

Definition two_rounds : list lifecycle_op :=
  [OpCreate (sample_create 1 None); OpDestroy (sample_instance 1) false;
   OpCreate (sample_create 2 None); OpDestroy (sample_instance 2) false].

Definition two_overlapping : list lifecycle_op :=
  [OpCreate (sample_create 1 None); OpCreate (sample_create 2 None);
   OpDestroy (sample_instance 1) false; OpDestroy (sample_instance 2) false].







Definition neutral (e : event) : bool :=
  match acquires e, releases e with
  | None, None => true
  | _, _ => false
  end.

(** Events that belong to the later steps: the playlist and the calls to
    another instance. *)
Definition before_playlist (e : event) : bool :=
  match e with
  | E_playlist_ThreadCreate _ | E_dbus_send _ _ | E_exit _ => false
  | _ => true
  end.

Definition is_playlist_ThreadCreate (e : event) : bool :=
  match e with E_playlist_ThreadCreate _ => true | _ => false end.

Definition is_dbus_send (e : event) : bool :=
  match e with E_dbus_send _ _ => true | _ => false end.

Definition is_module_InitBank (e : event) : bool :=
  match e with E_module_InitBank => true | _ => false end.

Definition is_msg_Err (e : event) : bool :=
  match e with E_msg_Err _ => true | _ => false end.

Definition is_libvlc_destroy (e : event) : bool :=
  match e with
  | E_vlc_object_destroy_libvlc | E_vlc_object_release_libvlc => true
  | _ => false
  end.

(** One acknowledged pass of the forwarding loop. *)
Definition forward_one (b_play : bool) (psz_mrl : string) : list event :=
  [E_msg_Dbg "Give %s to other vlc";
   E_dbus_message_new psz_mrl;
   E_dbus_send psz_mrl b_play;
   E_dbus_connection_flush;
   E_dbus_message_unref psz_mrl;
   E_dbus_pending_call_block psz_mrl].

(** The calls of lines 624-676 when another instance owns the name and
    answers the probe. *)
Definition other_instance_found : list event :=
  [E_dbus_init; E_dbus_bus_get; E_dbus_bus_request_name; E_dbus_probe;
   E_msg_Warn "Another vlc instance exists: will now exit"].

(** The calls of lines 475-494. *)
Definition language_reload (psz_language : string) : list event :=
  [E_config_LoadConfigFile (Some "main"); E_config_LoadCmdLine true;
   E_SetLanguage psz_language; E_msg_Dbg "translation test: code is %s";
   E_module_EndBank; E_module_InitBank;
   E_config_LoadConfigFile (Some "main"); E_config_LoadCmdLine true].

Definition sample_config_int (one_instance enqueue : bool) (key : string) : Z :=
  if String.eqb key "one-instance" then (if one_instance then 1 else 0)
  else if String.eqb key "playlist-enqueue" then (if enqueue then 1 else 0)
  else if String.eqb key "fpu" then 1
  else if String.eqb key "color" then 1
  else 0.

Definition sample_config_psz (config language : option string) (key : string)
  : option string :=
  if String.eqb key "config" then config
  else if String.eqb key "language" then language
  else None.

Definition sample_env (config language : option string)
    (late_fails probe : bool) (forward : nat -> forward_result) : init_env :=
  {| ppsz_argv := ["/usr/bin/vlc"; "a.mp4"; "b.mp4"];
     optind := 1;
     config_GetInt := sample_config_int true true;
     config_GetPsz := sample_config_psz config language;
     config_GetHomeDir := Some "/home/u";
     config_GetUserDir := Some "/home/u/.vlc";
     var_Get_open := None;
     var_inherited_verbose := 0;
     InitBank_cache_delete := true;
     InitBank_again_cache_delete := false;
     help_module_created := true;
     LoadCmdLine_early_fails := false;
     LoadCmdLine_late_fails := late_fails;
     daemon_ret := 0;
     fork_ret := 0;
     pidfile_opened := true;
     b_die_after_LoadPlugins := false;
     dbus_bus_get_ok := true;
     dbus_request_name_error := false;
     dbus_primary_owner := false;
     dbus_probe_replied := probe;
     dbus_forward := forward;
     dbus_register_ok := true;
     module_Need_memcpy_found := true;
     memcpy_module_pf_memcpy := Some "fast_memcpy";
     memcpy_module_pf_memset := None;
     playlist_ThreadCreate_ok := true |}.

Definition sample_state : istate :=
  {| p_libvlc := sample_instance 1;
     global := {| b_ready := true; i_cpu := 255; p_module_bank := None;
                  b_daemon := false |} |}.

(** The objects the cleanup leaves attached. *)
Definition survives_cleanup (o : vlc_object_t) : bool :=
  match i_object_type o with
  | VLC_OBJECT_OTHER => true
  | _ => false
  end.

Definition sample_children : list vlc_object_t :=
  [{| i_object_type := VLC_OBJECT_VOUT; i_object_id := 10 |};
   {| i_object_type := VLC_OBJECT_INTF; i_object_id := 11 |};
   {| i_object_type := VLC_OBJECT_ANNOUNCE; i_object_id := 12 |};
   {| i_object_type := VLC_OBJECT_AOUT; i_object_id := 13 |};
   {| i_object_type := VLC_OBJECT_INTF; i_object_id := 14 |};
   {| i_object_type := VLC_OBJECT_OTHER; i_object_id := 15 |}].

Definition sample_addintf (intf : option string) : addintf_env :=
  {| config_GetPsz_intf := intf; intf_Create_ret := Some (20, false);
     intf_RunThread_ret := 0 |}.







(** Every call [m] makes satisfies [P], and the state it leaves is related
    by [R] to the state it found. *)
Definition respects (R : istate -> istate -> Prop) (P : event -> bool)
    {A} (m : M A) : Prop :=
  forall s,
    forallb P (snd (m s)) = true /\ R s (snd (fst (m s))).

Definition same_playlist (s s' : istate) : Prop :=
  p_playlist (p_libvlc s') = p_playlist (p_libvlc s).

Definition same_daemon_flag (s s' : istate) : Prop :=
  b_daemon (global s') = b_daemon (global s).

Definition any_event (e : event) : bool := true.

(** ** Further parts of the file *)

(** [vlc_current_object] (lines 140-148).  [vlc_object_get] belongs to
    misc/objects.c and is passed in. *)
Definition vlc_current_object (vlc_object_get : Z -> option Z) (g : process)
    (i_object : Z) : option Z :=
  if negb (i_object =? 0) then vlc_object_get i_object else p_static_vlc g.

(** Does the string hold the character? *)
Fixpoint has_char (c : ascii) (s : string) : bool :=
  match s with
  | EmptyString => false
  | String x r => Ascii.eqb x c || has_char c r
  end.

(** The string without one colon at its end. *)
Fixpoint without_last_colon (s : string) : string :=
  match s with
  | EmptyString => EmptyString
  | String c r =>
      match r with
      | EmptyString => if Ascii.eqb c ":" then EmptyString else s
      | _ => String c (without_last_colon r)
      end
  end.

(** Every bit of [a] is a bit of [b]. *)
Definition bits_within (a b : Z) : Prop := Z.land a b = a.

(** The sample environment with the configuration handed in. *)
Definition sample_env_config (int : string -> Z) (psz : string -> option string)
  : init_env :=
  {| ppsz_argv := ["/usr/bin/vlc"; "a.mp4"; "b.mp4"];
     optind := 1;
     config_GetInt := int;
     config_GetPsz := psz;
     config_GetHomeDir := Some "/home/u";
     config_GetUserDir := None;
     var_Get_open := None;
     var_inherited_verbose := 5;
     InitBank_cache_delete := false;
     InitBank_again_cache_delete := false;
     help_module_created := true;
     LoadCmdLine_early_fails := false;
     LoadCmdLine_late_fails := false;
     daemon_ret := 0;
     fork_ret := 0;
     pidfile_opened := true;
     b_die_after_LoadPlugins := false;
     dbus_bus_get_ok := true;
     dbus_request_name_error := false;
     dbus_primary_owner := false;
     dbus_probe_replied := true;
     dbus_forward := fun _ => Acknowledged;
     dbus_register_ok := true;
     module_Need_memcpy_found := false;
     memcpy_module_pf_memcpy := None;
     memcpy_module_pf_memset := None;
     playlist_ThreadCreate_ok := true |}.

Definition only_option (name : string) (key : string) : Z :=
  if String.eqb key name then 1 else 0.

(** Can [init_single_instance] reach the forwarding loop? *)
Definition may_forward (bc : build_config) (e : init_env) : bool :=
  HAVE_DBUS_3 bc && dbus_bus_get_ok e && negb (dbus_request_name_error e)
  && negb (dbus_primary_owner e) && config_Bool e "one-instance"
  && dbus_probe_replied e.

Definition is_module_load (e : event) : bool :=
  match e with
  | E_module_LoadBuiltins | E_module_LoadPlugins => true
  | _ => false
  end.

(** The step leaves the instance and, but for the module bank it may set
    up again, [libvlc_global] alone. *)
Definition untouched (s s' : istate) : Prop :=
  p_libvlc s' = p_libvlc s
  /\ b_daemon (global s') = b_daemon (global s)
  /\ b_ready (global s') = b_ready (global s)
  /\ i_cpu (global s') = i_cpu (global s)
  /\ (p_module_bank (global s) <> None -> p_module_bank (global s') <> None).

(** Does [daemon_mode] stop the initialisation? *)
Definition daemon_stops (bc : build_config) (e : init_env) : bool :=
  negb (WIN32 bc) && config_Bool e "daemon"
  && (if HAVE_DAEMON bc then negb (daemon_ret e =? 0)
      else negb (fork_ret e =? 0)).

(** The verbosity [init_playlist] leaves, from the one it finds. *)
Definition wired_verbosity (e : init_env) (i_verbose0 : Z) : Z :=
  if config_Bool e "quiet" then -1
  else if -1 <=? var_inherited_verbose e then Z.min (var_inherited_verbose e) 2
  else i_verbose0.

Definition is_exit (e : event) : bool :=
  match e with E_exit _ => true | _ => false end.

(** Nothing handed to another instance, no end of the process. *)
Definition stays_home (e : event) : bool :=
  negb (is_dbus_send e || is_exit e).



(** ** [GetFilenames] (lines 1246-1289) *)

(** One call [VLC_AddTarget( id, psz_target, ppsz_options, i_options,
    PLAYLIST_INSERT, 0 )]: the target and the [i_options] strings that
    start at [ppsz_options] (none when the pointer is NULL). *)
Record add_target : Type := {
  psz_target : string;
  ppsz_options : list string
}.

(** [*psz == ':'] *)
Definition starts_with_colon (psz : string) : bool :=
  match psz with
  | String c _ => Ascii.eqb c ":"
  | EmptyString => false
  end.

(** [ppsz_argv[ i ]] *)
Definition argv_at (ppsz_argv : list string) (i : Z) : string :=
  nth (Z.to_nat i) ppsz_argv EmptyString.

(** Lines 1258-1262: [while( *ppsz_argv[ i_opt ] == ':' && i_opt > optind )]
    counts the options and steps back; the new [i_opt] and [i_options]. *)
Fixpoint count_options (fuel : nat) (ppsz_argv : list string)
    (optind i_opt i_options : Z) : Z * Z :=
  match fuel with
  | O => (i_opt, i_options)
  | S fuel' =>
      if starts_with_colon (argv_at ppsz_argv i_opt) && (optind <? i_opt)
      then count_options fuel' ppsz_argv optind (i_opt - 1) (i_options + 1)
      else (i_opt, i_options)
  end.

(** [i_options ? &ppsz_argv[i_opt + 1] : NULL], [i_options] strings long. *)
Definition options_at (ppsz_argv : list string) (i_opt i_options : Z)
  : list string :=
  firstn (Z.to_nat i_options) (skipn (Z.to_nat (i_opt + 1)) ppsz_argv).

(** Lines 1252-1286: [for( ...; i_opt >= optind; i_opt-- )], the calls made
    from [i_opt] down. *)
Fixpoint GetFilenames_from (fuel : nat) (conv : string -> string)
    (ppsz_argv : list string) (optind i_opt : Z) : list add_target :=
  match fuel with
  | O => []
  | S fuel' =>
      if i_opt <? optind then []
      else
        let '(i_opt, i_options) :=
          count_options fuel ppsz_argv optind i_opt 0 in
        {| psz_target := conv (argv_at ppsz_argv i_opt);
           ppsz_options := options_at ppsz_argv i_opt i_options |}
        :: GetFilenames_from fuel' conv ppsz_argv optind (i_opt - 1)
  end.

(** Lines 1268-1285: the target goes through [FromLocale] but on a WIN32
    build where [GetVersion() < 0x80000000]. *)
Definition target_conversion (bc : build_config) (GetVersion : Z)
    (FromLocale : string -> string) : string -> string :=
  if WIN32 bc && (GetVersion <? 2147483648) then (fun psz => psz)
  else FromLocale.

Definition GetFilenames (bc : build_config) (GetVersion : Z)
    (FromLocale : string -> string) (ppsz_argv : list string) (optind : Z)
  : vlc_ret * list add_target :=
  let i_argc := Z.of_nat (List.length ppsz_argv) in
  (VLC_SUCCESS,
   GetFilenames_from (Z.to_nat i_argc)
     (target_conversion bc GetVersion FromLocale) ppsz_argv optind (i_argc - 1)).

(** The arguments one call stands for: the input, then its options. *)
Definition arguments_of (c : add_target) : list string :=
  psz_target c :: ppsz_options c.

(** [n] arguments from index [a]. *)
Definition seg (l : list string) (a n : Z) : list string :=
  firstn (Z.to_nat n) (skipn (Z.to_nat a) l).

(** ** [ConsoleWidth] (lines 1747-1779) *)

(** The first [n] characters of a buffer, and the rest. *)
Fixpoint take (n : nat) (s : string) : string :=
  match n, s with
  | S n', String c r => String c (take n' r)
  | _, _ => EmptyString
  end.

Fixpoint drop (n : nat) (s : string) : string :=
  match n, s with
  | S n', String _ r => drop n' r
  | _, _ => s
  end.

(** The C string a buffer holds: its characters before the first NUL. *)
Fixpoint until_nul (s : string) : string :=
  match s with
  | String c r => if Ascii.eqb c zero then EmptyString else String c (until_nul r)
  | EmptyString => EmptyString
  end.

(** [strchr( psz, ' ' ) + 1]: what follows the first space, if there is
    one. *)
Fixpoint after_space (psz : string) : option string :=
  match psz with
  | String c r => if Ascii.eqb c " " then Some r else after_space r
  | EmptyString => None
  end.

(** [popen_output] is what the pipe of [stty size] delivers ([None] when
    [popen] fails) and [stack] what the 20 bytes of [buf] hold before
    [fread], which the function does not initialise. *)
Definition ConsoleWidth (bc : build_config) (popen_output : option string)
    (stack : string) : Z :=
  let i_width := 80 in
  if WIN32 bc then i_width
  else
    match popen_output with
    | None => i_width
    | Some output =>
        let i_ret := Nat.min 20 (String.length output) in
        if (0 <? i_ret)%nat
        then
          let buf := (take i_ret output ++ drop i_ret (take 20 stack))%string in
          (* buf[19] = '\0' *)
          match after_space (until_nul (take 19 buf)) with
          | Some psz_parser =>
              let i_ret := atoi psz_parser in
              if 80 <=? i_ret then i_ret else i_width
          | None => i_width
          end
        else i_width
    end.

(** ** The text of an option in [Usage] (lines 1342-1356, 1550-1598) *)

Definition LINE_START : Z := 8.
Definition PADDING_SPACES : Z := 25.

(** Line 1356: [i_width = ConsoleWidth() - (PADDING_SPACES+LINE_START+1)]. *)
Definition Usage_i_width (bc : build_config) (popen_output : option string)
    (stack : string) : Z :=
  ConsoleWidth bc popen_output stack - (PADDING_SPACES + LINE_START + 1).

(** [strchr( psz, ' ' ) - psz] *)
Fixpoint strchr_space (psz : list ascii) : option Z :=
  match psz with
  | [] => None
  | c :: r =>
      if Ascii.eqb c " " then Some 0
      else match strchr_space r with
           | Some k => Some (k + 1)
           | None => None
           end
  end.

(** Lines 1565-1575, the [do ... while( psz_parser - psz_text <= i_width )]:
    [psz_word] and [psz_parser] when it ends, as offsets from [psz_text]. *)
Fixpoint eat_words (fuel : nat) (psz_text : list ascii)
    (i_end i_width psz_parser : Z) : Z * Z :=
  match fuel with
  | O => (psz_parser, psz_parser)
  | S fuel' =>
      let psz_word := psz_parser in
      let psz_parser :=
        match strchr_space (skipn (Z.to_nat psz_word) psz_text) with
        | Some k => psz_word + k + 1
        | None => i_end
        end in
      if psz_parser <=? i_width
      then eat_words fuel' psz_text i_end i_width psz_parser
      else (psz_word, psz_parser)
  end.

(** Lines 1550-1598, [while( *psz_text )]: the lines printed, each followed
    by a line feed and, but for the last, by the indentation [psz_spaces].
    [size_modulus] is the number of values of [size_t]; [None] when [fuel]
    passes do not end the loop. *)
Fixpoint wrap_text (fuel : nat) (size_modulus i_width : Z)
    (psz_text : list ascii) : option (list (list ascii)) :=
  match fuel with
  | O => None
  | S fuel' =>
      match psz_text with
      | [] => Some []
      | _ :: _ =>
          let i_end := Z.of_nat (List.length psz_text) in
          if i_end <=? i_width mod size_modulus then Some [psz_text]
          else
            let '(psz_word, psz_parser) :=
              eat_words (S (List.length psz_text)) psz_text i_end i_width 0 in
            if (psz_word =? 0)
               || ((psz_word <? Z.quot (80 * i_width) 100)
                   && (Z.quot (40 * i_width) 100 <? psz_parser - psz_word))
            then
              match wrap_text fuel' size_modulus i_width
                      (skipn (Z.to_nat i_width) psz_text) with
              | Some lines => Some (firstn (Z.to_nat i_width) psz_text :: lines)
              | None => None
              end
            else
              match wrap_text fuel' size_modulus i_width
                      (skipn (Z.to_nat psz_word) psz_text) with
              | Some lines =>
                  Some (firstn (Z.to_nat (psz_word - 1)) psz_text :: lines)
              | None => None
              end
      end
  end.

(** The text is the lines one after the other, with nothing or one space
    between two of them. *)
Fixpoint rejoins (lines : list (list ascii)) (text : list ascii) : Prop :=
  match lines with
  | [] => text = []
  | line :: rest =>
      match rest with
      | [] => text = line
      | _ :: _ =>
          exists text',
            (text = line ++ text' \/ text = line ++ " "%char :: text')
            /\ rejoins rest text'
      end
  end.

(** The characters of a string are decimal digits. *)
Fixpoint all_digits (s : string) : bool :=
  match s with
  | String c r =>
      match digit_value c with Some _ => all_digits r | None => false end
  | EmptyString => true
  end.

(** No character of a string is a space or NUL. *)
Fixpoint one_word (s : string) : bool :=
  match s with
  | String c r => negb (Ascii.eqb c " ") && negb (Ascii.eqb c zero) && one_word r
  | EmptyString => true
  end.

(** An answer of [stty size]: 24 rows, 132 columns. *)
Definition stty_24_132 : string :=
  ("24 132" ++ String "010" EmptyString)%string.

(** ** The head of an option line in [Usage] (lines 1502-1544) *)

(** A [size_t] value assigned to a [signed int]: the low 32 bits, read as
    two's complement (the width of [size_t], 32 or 64 bits, makes no
    difference). *)
Definition int_of_size_t (x : Z) : Z :=
  let y := x mod 2 ^ 32 in
  if y <? 2 ^ 31 then y else y - 2 ^ 32.

Fixpoint spaces (n : nat) : string :=
  match n with
  | O => EmptyString
  | S n' => String " " (spaces n')
  end.

Definition strlen (psz : string) : Z := Z.of_nat (String.length psz).

(** What [utf8_fprintf( stdout, psz_format, ... )] of lines 1532-1542
    prints for an option: [i_short] is the short option if any, [b_no] is
    [p_item->i_type == CONFIG_ITEM_BOOL && !b_help_module]. *)
Definition option_head (i_short : option ascii)
    (psz_name psz_bra psz_type psz_ket : string) (b_no : bool) : string :=
  let psz_short :=
    match i_short with
    | Some c => String "-" (String c (String "," EmptyString))
    | None => "   "
    end in
  let i := int_of_size_t (PADDING_SPACES - strlen psz_name - strlen psz_bra
                          - strlen psz_type - strlen psz_ket - 1) in
  let psz_prefix := ", --no-" in
  let i := if b_no
           then int_of_size_t (i - (strlen psz_name + strlen psz_prefix))
           else i in
  let psz_spaces :=
    if i <? 0
    then String "010" (spaces (Z.to_nat (PADDING_SPACES + LINE_START - 1)))
    else spaces (Z.to_nat i) in
  ("  " ++ psz_short ++ " --" ++ psz_name
   ++ (if b_no then psz_prefix ++ psz_name else EmptyString)
   ++ psz_bra ++ psz_type ++ psz_ket ++ psz_spaces ++ " ")%string.

(** Is the behaviour of lines 882-1004 defined?  Not with [extraintf] and
    [control] both set (lines 898-900), and not with the [syslog] logger
    on a build that is not WIN32 (lines 953-958 and 1137). *)
Definition interfaces_defined (bc : build_config) (e : init_env) : bool :=
  negb (nonempty (config_GetPsz e "extraintf")
        && nonempty (config_GetPsz e "control"))
  && negb (HAVE_SYSLOG_H bc && (config_GetInt e "syslog" =? 1)
           && negb (WIN32 bc)).

(** Is [daemon( 1, 0 )] called (lines 399-401)? *)
Definition calls_daemon (bc : build_config) (e : init_env) : bool :=
  negb (WIN32 bc) && config_Bool e "daemon" && HAVE_DAEMON bc.

(** [m] neither returns early nor ends the process: it goes on, with a
    value that satisfies [Q], unless its behaviour is undefined. *)
Definition goes_on {A} (Q : A -> Prop) (m : M A) : Prop :=
  forall s,
    match m s with
    | (Next a, _, _) => Q a
    | (Stop Undefined, _, _) => True
    | (Stop _, _, _) => False
    end.

(** [m] does not go on: it stops, whatever the state. *)
Definition blocked {A} (m : M A) : Prop :=
  forall s, match m s with (Next _, _, _) => False | _ => True end.

(** The calls of a pass of the forwarding loop that fails, by the call
    that fails (lines 685-739): the message is made; for want of it, or
    when an argument cannot be appended, nothing is sent; the send is
    tried and fails, or gives no pending call. *)
Definition forward_failed (how : forward_result) (b_play : bool)
    (psz_mrl : string) : list event :=
  match how with
  | MessageNewFails =>
      [E_msg_Dbg "Give %s to other vlc"; E_dbus_message_new psz_mrl;
       E_msg_Err "D-Bus problem"]
  | AppendMrlFails | AppendPlayFails =>
      [E_msg_Dbg "Give %s to other vlc"; E_dbus_message_new psz_mrl;
       E_msg_Err "Out of memory"; E_dbus_message_unref psz_mrl]
  | SendFails | PendingNull =>
      [E_msg_Dbg "Give %s to other vlc"; E_dbus_message_new psz_mrl;
       E_dbus_send psz_mrl b_play;
       E_msg_Err "D-Bus problem"; E_dbus_message_unref psz_mrl]
  | Acknowledged => []
  end.

(** Is the send tried in a pass that fails so? *)
Definition send_tried (how : forward_result) : bool :=
  match how with
  | SendFails | PendingNull => true
  | _ => false
  end.

(** * Properties *)

(** ** Instance count and process-wide teardown *)

Lemma count_app (f : event -> bool) (a b : list event) :
  count f (a ++ b) = (count f a + count f b)%nat.
Proof. unfold count. now rewrite filter_app, length_app. Qed.

Lemma uint_incr_small (n : nat) :
  Z.of_nat n + 1 < UINT_MODULUS -> uint_incr (Z.of_nat n) = Z.of_nat (S n).
Proof.
  intros H. unfold uint_incr. rewrite Z.mod_small; lia.
Qed.

Lemma uint_decr_small (n : nat) :
  Z.of_nat (S n) < UINT_MODULUS -> uint_decr (Z.of_nat (S n)) = Z.of_nat n.
Proof.
  intros H. unfold uint_decr. rewrite Z.mod_small; lia.
Qed.

(** [libvlc_InternalCreate] changes the count by one exactly when it gives
    an instance, and never runs the teardown. *)
Lemma create_count (bc : build_config) (ce : create_env) (g : process) (live : nat) :
  i_instances g = Z.of_nat live ->
  Z.of_nat live + 1 < UINT_MODULUS ->
  let r := libvlc_InternalCreate bc ce g in
  i_instances (snd (fst r)) =
    Z.of_nat (if gives_instance ce then S live else live)
  /\ count is_system_End (snd r) = 0%nat
  /\ count is_LocaleDeinit (snd r) = 0%nat.
Proof.
  intros Hg Hlt. unfold libvlc_InternalCreate, gives_instance, create_locked.
  destruct (vlc_threads_init_ret ce <? 0); cbn [negb andb].
  - cbn. auto.
  - destruct (b_ready (libvlc_global g)),  (vlc_object_create_ret ce);
      cbn [fst snd i_instances]; rewrite Hg, uint_incr_small by lia;
      rewrite ?uint_decr_small by lia; repeat split; reflexivity.
Qed.

(** [libvlc_InternalDestroy] takes one from the count and runs the teardown
    exactly when none is left. *)
Lemma destroy_count (p : libvlc_int_t) (b_release : bool) (g : process) (live : nat) :
  i_instances g = Z.of_nat (S live) ->
  Z.of_nat (S live) < UINT_MODULUS ->
  let r := libvlc_InternalDestroy p b_release g in
  i_instances (snd (fst r)) = Z.of_nat live
  /\ count is_system_End (snd r) = (if Nat.eqb live 0 then 1 else 0)%nat
  /\ count is_LocaleDeinit (snd r) = (if Nat.eqb live 0 then 1 else 0)%nat.
Proof.
  intros Hg Hlt. unfold libvlc_InternalDestroy, destroy_locked.
  rewrite Hg, uint_decr_small by lia.
  destruct live as [|live].
  - destruct (p_memcpy_module p), b_release; cbn; repeat split; reflexivity.
  - replace (Z.of_nat (S live) =? 0) with false by (symmetry; apply Z.eqb_neq; lia).
    destruct (p_memcpy_module p), b_release; cbn -[Z.of_nat];
      repeat split; reflexivity.
Qed.

Lemma run_ops_count (bc : build_config) (ops : list lifecycle_op) :
  forall (live : nat) (g : process),
    i_instances g = Z.of_nat live ->
    Z.of_nat live + Z.of_nat (List.length ops) < UINT_MODULUS ->
    matched live ops = true ->
    i_instances (fst (run_ops bc ops g)) = 0
    /\ count is_system_End (snd (run_ops bc ops g)) = last_ones_out live ops
    /\ count is_LocaleDeinit (snd (run_ops bc ops g)) = last_ones_out live ops.
Proof.
  induction ops as [|op rest IH]; intros live g Hg Hlt Hm.
  - cbn in *. apply Nat.eqb_eq in Hm. subst live. rewrite Hg. auto.
  - cbn [List.length] in Hlt. destruct op as [ce|p b_release].
    + cbn [run_ops matched last_ones_out] in *.
      destruct (create_count bc ce g live Hg ltac:(lia)) as (Hc & He & Hd).
      destruct (libvlc_InternalCreate bc ce g) as [[o g1] t1].
      cbn [fst snd] in Hc, He, Hd.
      destruct (gives_instance ce);
        (destruct (IH _ g1 Hc ltac:(lia) Hm) as (H1 & H2 & H3);
         destruct (run_ops bc rest g1) as [g2 t2]; cbn [fst snd] in *;
         rewrite !count_app, He, Hd, H2, H3; auto).
    + cbn [run_ops matched last_ones_out] in *.
      destruct live as [|live]; [discriminate|].
      destruct (destroy_count p b_release g live Hg ltac:(lia)) as (Hc & He & Hd).
      destruct (libvlc_InternalDestroy p b_release g) as [[o g1] t1].
      cbn [fst snd] in Hc, He, Hd.
      destruct (IH _ g1 Hc ltac:(lia) Hm) as (H1 & H2 & H3).
      destruct (run_ops bc rest g1) as [g2 t2]. cbn [fst snd] in *.
      rewrite !count_app, He, Hd, H2, H3.
      destruct live; cbn; auto.
Qed.

Lemma quiet_last_ones_out (ops : list lifecycle_op) :
  forallb no_instance ops = true -> last_ones_out 0 ops = 0%nat.
Proof.
  induction ops as [|[ce|p b] rest IH]; cbn; intros H; auto.
  - apply andb_prop in H. destruct H as [H1 H2].
    destruct (gives_instance ce); [discriminate|auto].
  - discriminate.
Qed.

Lemma overlapping_once (ops : list lifecycle_op) :
  forall live : nat,
    matched (S live) ops = true -> overlapping (S live) ops = true ->
    last_ones_out (S live) ops = 1%nat.
Proof.
  induction ops as [|[ce|p b] rest IH]; intros live Hm Ho.
  - discriminate.
  - cbn in *. destruct (gives_instance ce); auto.
  - destruct live as [|live]; cbn in *.
    + now rewrite quiet_last_ones_out.
    + auto.
Qed.

Lemma some_instance_teardown (ops : list lifecycle_op) :
  matched 0 ops = true ->
  (exists ce, In (OpCreate ce) ops /\ gives_instance ce = true) ->
  (1 <= last_ones_out 0 ops)%nat
  /\ (overlapping 0 ops = true -> last_ones_out 0 ops = 1%nat).
Proof.
  assert (G : forall ops live, matched (S live) ops = true ->
                               (1 <= last_ones_out (S live) ops)%nat).
  { clear. induction ops as [|[ce|p b] rest IH]; intros live Hm.
    - discriminate.
    - cbn in *. destruct (gives_instance ce); auto.
    - destruct live as [|live]; cbn in *; [lia|auto]. }
  induction ops as [|[ce|p b] rest IH]; intros Hm (ce' & Hin & Hg).
  - destruct Hin.
  - cbn [matched last_ones_out overlapping] in *.
    destruct (gives_instance ce) eqn:E.
    + split; [now apply G|]. intros Ho. now apply overlapping_once.
    + destruct Hin as [Heq|Hin]; [inversion Heq; congruence|].
      apply IH; eauto.
  - discriminate.
Qed.

(** C1 (amended).  A matched schedule of [libvlc_InternalCreate] and
    [libvlc_InternalDestroy] calls that starts with no instance leaves
    [i_instances] at 0.  [system_End] and [LocaleDeinit] run once at each
    destroy that leaves no instance: at least once when an instance was
    created, and once in all when the instances overlap. *)
Theorem matched_schedule_teardown (bc : build_config) (ops : list lifecycle_op)
    (g : process) :
  i_instances g = 0 ->
  Z.of_nat (List.length ops) < UINT_MODULUS ->
  matched 0 ops = true ->
  i_instances (fst (run_ops bc ops g)) = 0
  /\ count is_system_End (snd (run_ops bc ops g)) = last_ones_out 0 ops
  /\ count is_LocaleDeinit (snd (run_ops bc ops g)) = last_ones_out 0 ops
  /\ ((exists ce, In (OpCreate ce) ops /\ gives_instance ce = true) ->
      (1 <= last_ones_out 0 ops)%nat
      /\ (overlapping 0 ops = true -> last_ones_out 0 ops = 1%nat)).
Proof.
  intros Hg Hlen Hm.
  destruct (run_ops_count bc ops 0 g Hg ltac:(lia) Hm) as (H1 & H2 & H3).
  repeat split; auto; now apply some_instance_teardown.
Qed.

Lemma matched_schedule_teardown_witness :
  i_instances (fst (run_ops linux_build two_overlapping process_start)) = 0
  /\ count is_system_End (snd (run_ops linux_build two_overlapping process_start)) = 1%nat.
Proof.
  destruct (matched_schedule_teardown linux_build two_overlapping process_start)
    as (H1 & H2 & _).
  - reflexivity.
  - vm_compute. reflexivity.
  - reflexivity.
  - split; [exact H1|]. rewrite H2. reflexivity.
Defined.

(** C1 as stated fails: two instances created and destroyed one after the
    other are two matched pairs, and the teardown runs twice. *)
Lemma two_rounds_teardown_twice :
  matched 0 two_rounds = true
  /\ i_instances (fst (run_ops linux_build two_rounds process_start)) = 0
  /\ count is_system_End (snd (run_ops linux_build two_rounds process_start)) = 2%nat
  /\ count is_LocaleDeinit (snd (run_ops linux_build two_rounds process_start)) = 2%nat.
Proof. vm_compute. repeat split; reflexivity. Qed.

(** ** The last destroy and the ready flag *)




(** ** Verbosity *)

Lemma VerboseCallback_i_verbose (p : libvlc_int_t) (v : Z) :
  i_verbose (VerboseCallback p v) = if -1 <=? v then Z.min v 2 else i_verbose p.
Proof. unfold VerboseCallback. now destruct (-1 <=? v). Qed.

(** C8 (amended).  [libvlc_InternalCreate] sets [i_verbose] to
    [atoi( VLC_VERBOSE )] when the variable is set and to -1 otherwise;
    [VerboseCallback] stores [min( new, 2 )] for a new value of at least -1
    and leaves the instance alone below -1, so it keeps a verbosity within
    -1..2 within -1..2. *)
Theorem verbosity_create_and_callback (bc : build_config) (ce : create_env)
    (g g' : process) (p : libvlc_int_t) (t : list event) (new_val : Z) :
  libvlc_InternalCreate bc ce g = (Some p, g', t) ->
  i_verbose p = match getenv_VLC_VERBOSE ce with
                | Some psz_env => atoi psz_env
                | None => -1
                end
  /\ (-1 <= new_val ->
      i_verbose (VerboseCallback p new_val) = Z.min new_val 2
      /\ -1 <= i_verbose (VerboseCallback p new_val) <= 2)
  /\ (new_val < -1 -> VerboseCallback p new_val = p)
  /\ (-1 <= i_verbose p <= 2 -> -1 <= i_verbose (VerboseCallback p new_val) <= 2).
Proof.
  intros H. unfold libvlc_InternalCreate in H.
  destruct (vlc_threads_init_ret ce <? 0); [discriminate|].
  destruct (create_locked ce g) as [g1 t1].
  destruct (vlc_object_create_ret ce); [|discriminate].
  injection H as Hp _ _. subst p. cbn [i_verbose].
  split; [reflexivity|].
  repeat split; rewrite ?VerboseCallback_i_verbose; cbn [i_verbose];
    try (destruct (Z.leb_spec (-1) new_val); cbn [i_verbose]; lia).
  unfold VerboseCallback. destruct (Z.leb_spec (-1) new_val); [lia|reflexivity].
Qed.

Lemma verbosity_create_and_callback_witness :
  exists p g' t,
    libvlc_InternalCreate linux_build (sample_create 1 (Some "1")) process_start
    = (Some p, g', t)
    /\ i_verbose p = 1
    /\ i_verbose (VerboseCallback p 7) = 2.
Proof.
  eexists _, _, _. split; [reflexivity|].
  destruct (verbosity_create_and_callback linux_build (sample_create 1 (Some "1"))
              process_start _ _ _ 7 eq_refl) as (H1 & H2 & _).
  split; [exact H1|]. apply H2. lia.
Defined.

(** C8 as stated fails: with [VLC_VERBOSE=5] in the environment the new
    instance has verbosity 5. *)
Lemma verbosity_out_of_range :
  exists p g' t,
    libvlc_InternalCreate linux_build (sample_create 1 (Some "5")) process_start
    = (Some p, g', t)
    /\ i_verbose p = 5
    /\ ~ (-1 <= i_verbose p <= 2).
Proof.
  eexists _, _, _. split; [reflexivity|]. split; [reflexivity|].
  intros [_ H]. vm_compute in H. apply H. reflexivity.
Qed.

(** ** The configuration file name *)

(** The buffer of line 374, [strlen( userdir ) + strlen( configfile )]
    bytes, holds the new name and its terminator exactly. *)
Lemma resolve_configfile_fits (user rest : string) :
  (String.length (user ++ "/" ++ rest) + 1
   = String.length user + String.length ("~/" ++ rest))%nat.
Proof.
  induction user as [|c user IH]; cbn in *; lia.
Qed.

Lemma resolve_configfile_other (user : string) (v : option string) :
  (forall rest, v <> Some ("~/" ++ rest)%string) ->
  resolve_configfile user v = v.
Proof.
  intros H. destruct v as [[|c [|d s]]|]; try reflexivity.
  - destruct c as [[] [] [] [] [] [] [] []]; reflexivity.
  - destruct c as [[] [] [] [] [] [] [] []]; try reflexivity.
    destruct d as [[] [] [] [] [] [] [] []]; try reflexivity.
    exfalso. apply (H s). reflexivity.
Qed.

(** C4.  With the user directory resolved to [user], a configuration file
    name [~/rest] becomes [user/rest], and a name that does not begin with
    [~/] (or no name at all) is stored as it is. *)
Theorem config_file_tilde (e : init_env) (s : istate) (user : string) :
  match config_GetUserDir e with
  | Some u => Some u
  | None => config_GetHomeDir e
  end = Some user ->
  exists s',
    config_file_stuff e s = (Next tt, s', [])
    /\ psz_userdir (p_libvlc s') = Some user
    /\ (forall rest, config_GetPsz e "config" = Some ("~/" ++ rest)%string ->
        psz_configfile (p_libvlc s') = Some (user ++ "/" ++ rest)%string)
    /\ ((forall rest, config_GetPsz e "config" <> Some ("~/" ++ rest)%string) ->
        psz_configfile (p_libvlc s') = config_GetPsz e "config").
Proof.
  intros Hu. unfold config_file_stuff. rewrite Hu.
  eexists. split; [reflexivity|]. cbn [p_libvlc psz_userdir psz_configfile set_config_paths].
  split; [reflexivity|]. split.
  - intros rest ->. reflexivity.
  - apply resolve_configfile_other.
Qed.

Lemma config_file_tilde_witness :
  exists s',
    config_file_stuff (sample_env (Some "~/foo/bar") None false true
                         (fun _ => Acknowledged)) sample_state
    = (Next tt, s', [])
    /\ psz_configfile (p_libvlc s') = Some "/home/u/.vlc/foo/bar".
Proof.
  destruct (config_file_tilde
              (sample_env (Some "~/foo/bar") None false true (fun _ => Acknowledged))
              sample_state "/home/u/.vlc" eq_refl) as (s' & H1 & _ & H2 & _).
  exists s'. split; [exact H1|]. exact (H2 "foo/bar" eq_refl).
Defined.

(** ** Cleanup *)

Lemma same_object_refl (o : vlc_object_t) : same_object o o = true.
Proof.
  unfold same_object. rewrite Z.eqb_refl.
  now destruct (i_object_type o).
Qed.

Lemma object_type_eqb_eq (a b : object_type) :
  object_type_eqb a b = true <-> a = b.
Proof. destruct a, b; cbn; split; congruence. Qed.

(** The object found is the first of its type; detaching it takes it, and
    nothing else, from the list. *)
Lemma find_detach (ty : object_type) (l : list vlc_object_t) (o : vlc_object_t) :
  vlc_object_find l ty = Some o ->
  filter (has_type ty) l = o :: filter (has_type ty) (vlc_object_detach o l)
  /\ forall f : vlc_object_t -> bool,
       (forall x, has_type ty x = true -> f x = false) ->
       filter f (vlc_object_detach o l) = filter f l.
Proof.
  unfold vlc_object_find.
  induction l as [|x r IH]; cbn [find filter vlc_object_detach]; [discriminate|].
  destruct (has_type ty x) eqn:Ex.
  - intros [= ->]. rewrite same_object_refl. split; [reflexivity|].
    intros f Hf. now rewrite (Hf o Ex).
  - intros Hfind. destruct (IH Hfind) as [IH1 IH2].
    assert (Eo : has_type ty o = true) by (apply find_some in Hfind; tauto).
    assert (Es : same_object o x = false).
    { unfold same_object, has_type in *. apply object_type_eqb_eq in Eo.
      destruct (object_type_eqb (i_object_type o) (i_object_type x)) eqn:E; auto.
      apply object_type_eqb_eq in E. rewrite <- E, Eo in Ex.
      now rewrite (proj2 (object_type_eqb_eq ty ty) eq_refl) in Ex. }
    rewrite Es. cbn [filter]. rewrite Ex. split; [exact IH1|].
    intros f Hf. now rewrite (IH2 f Hf).
Qed.

(** With fuel for every object of the type the loop ends because nothing of
    the type is left, having handled them in attachment order. *)
Lemma destroy_all_spec (ty : object_type) (body : vlc_object_t -> list event) :
  forall (fuel : nat) (l : list vlc_object_t),
    (List.length (filter (has_type ty) l) <= fuel)%nat ->
    destroy_all fuel ty body l
    = (filter (fun o => negb (has_type ty o)) l,
       flat_map body (filter (has_type ty) l)).
Proof.
  assert (Hnone : forall l, vlc_object_find l ty = None ->
                            filter (has_type ty) l = []
                            /\ filter (fun o => negb (has_type ty o)) l = l).
  { unfold vlc_object_find. induction l as [|x r IH]; cbn; [auto|].
    destruct (has_type ty x); [discriminate|]. intros H.
    destruct (IH H) as [-> ->]. auto. }
  induction fuel as [|fuel IH]; intros l Hlen; cbn [destroy_all].
  - destruct (vlc_object_find l ty) as [o|] eqn:Ef.
    + destruct (find_detach ty l o Ef) as [H1 _]. rewrite H1 in Hlen. cbn in Hlen. lia.
    + destruct (Hnone l Ef) as [-> ->]. reflexivity.
  - destruct (vlc_object_find l ty) as [o|] eqn:Ef.
    + destruct (find_detach ty l o Ef) as [H1 H2].
      rewrite IH by (rewrite H1 in Hlen; cbn in Hlen; lia).
      rewrite H1. cbn [flat_map]. f_equal.
      apply H2. intros x Hx. now rewrite Hx.
    + destruct (Hnone l Ef) as [-> ->]. reflexivity.
Qed.

Lemma filter_filter_objects (f g : vlc_object_t -> bool) (l : list vlc_object_t) :
  filter f (filter g l) = filter (fun o => g o && f o) l.
Proof.
  induction l as [|x r IH]; cbn; [reflexivity|].
  destruct (g x); cbn; [destruct (f x)|]; now rewrite IH.
Qed.

Lemma filter_length_le (f : vlc_object_t -> bool) (l : list vlc_object_t) :
  (List.length (filter f l) <= List.length l)%nat.
Proof.
  induction l as [|x r IH]; cbn; [lia|]. destruct (f x); cbn; lia.
Qed.

Lemma not_destroy_flat_map (body : vlc_object_t -> list event) (l : list vlc_object_t) :
  (forall o, forallb (fun e => negb (is_libvlc_destroy e)) (body o) = true) ->
  forallb (fun e => negb (is_libvlc_destroy e)) (flat_map body l) = true.
Proof.
  intros H. induction l as [|x r IH]; cbn; [reflexivity|].
  now rewrite forallb_app, H, IH.
Qed.

Lemma filter_types (f g h : vlc_object_t -> bool) (l : list vlc_object_t) :
  (forall o, g o && f o = h o) -> filter f (filter g l) = filter h l.
Proof.
  intros H. rewrite filter_filter_objects. now apply filter_ext.
Qed.

Ltac by_object_type :=
  let ty := fresh "ty" in
  let id := fresh "id" in
  intros [ty id]; cbv; destruct ty; reflexivity.

(** C9.  [libvlc_InternalCleanup] stops, detaches, releases and destroys
    every interface, then ends the playlist thread, then detaches, releases
    and destroys every video output, then every audio output, then every
    announce handler, each kind in attachment order and each object once;
    it returns [VLC_SUCCESS] with the instance, which it neither releases
    nor destroys and which keeps every field but the detached objects. *)
Theorem cleanup_order (p : libvlc_int_t) :
  libvlc_InternalCleanup p
  = (VLC_SUCCESS,
     set_children (filter survives_cleanup (children p)) p,
     [E_msg_Dbg "removing all interfaces"] ++
     flat_map (fun p_intf =>
                 [E_intf_StopThread (i_object_id p_intf);
                  E_vlc_object_detach (i_object_id p_intf);
                  E_vlc_object_release (i_object_id p_intf);
                  E_intf_Destroy (i_object_id p_intf)])
       (filter (has_type VLC_OBJECT_INTF) (children p)) ++
     [E_msg_Dbg "removing playlist"; E_playlist_ThreadDestroy] ++
     [E_msg_Dbg "removing all video outputs"] ++
     flat_map (fun p_vout =>
                 [E_vlc_object_detach (i_object_id p_vout);
                  E_vlc_object_release (i_object_id p_vout);
                  E_vout_Destroy (i_object_id p_vout)])
       (filter (has_type VLC_OBJECT_VOUT) (children p)) ++
     [E_msg_Dbg "removing all audio outputs"] ++
     flat_map (fun p_aout =>
                 [E_vlc_object_detach (i_object_id p_aout);
                  E_vlc_object_release (i_object_id p_aout);
                  E_aout_Delete (i_object_id p_aout)])
       (filter (has_type VLC_OBJECT_AOUT) (children p)) ++
     [E_stats_TimersDumpAll; E_stats_TimersClean] ++
     flat_map (fun p_announce =>
                 [E_msg_Dbg "removing announce handler";
                  E_vlc_object_detach (i_object_id p_announce);
                  E_vlc_object_release (i_object_id p_announce);
                  E_announce_HandlerDestroy (i_object_id p_announce)])
       (filter (has_type VLC_OBJECT_ANNOUNCE) (children p)))
  /\ forallb (fun e => negb (is_libvlc_destroy e))
       (snd (libvlc_InternalCleanup p)) = true.
Proof.
  assert (E : libvlc_InternalCleanup p
  = (VLC_SUCCESS,
     set_children (filter survives_cleanup (children p)) p,
     [E_msg_Dbg "removing all interfaces"] ++
     flat_map stop_interface (filter (has_type VLC_OBJECT_INTF) (children p)) ++
     [E_msg_Dbg "removing playlist"; E_playlist_ThreadDestroy] ++
     [E_msg_Dbg "removing all video outputs"] ++
     flat_map free_vout (filter (has_type VLC_OBJECT_VOUT) (children p)) ++
     [E_msg_Dbg "removing all audio outputs"] ++
     flat_map free_aout (filter (has_type VLC_OBJECT_AOUT) (children p)) ++
     [E_stats_TimersDumpAll; E_stats_TimersClean] ++
     flat_map free_announce (filter (has_type VLC_OBJECT_ANNOUNCE) (children p)))).
  { unfold libvlc_InternalCleanup. cbv zeta.
    set (l := children p).
    set (no_intf := fun o => negb (has_type VLC_OBJECT_INTF o)).
    set (no_vout := fun o => no_intf o && negb (has_type VLC_OBJECT_VOUT o)).
    set (no_aout := fun o => no_vout o && negb (has_type VLC_OBJECT_AOUT o)).
    rewrite destroy_all_spec by apply filter_length_le.
    fold no_intf.
    rewrite destroy_all_spec
      by (etransitivity; [apply filter_length_le|apply filter_length_le]).
    rewrite (filter_types (has_type VLC_OBJECT_VOUT) no_intf (has_type VLC_OBJECT_VOUT))
      by by_object_type.
    rewrite (filter_types (fun o => negb (has_type VLC_OBJECT_VOUT o)) no_intf no_vout)
      by reflexivity.
    rewrite destroy_all_spec
      by (etransitivity; [apply filter_length_le|apply filter_length_le]).
    rewrite (filter_types (has_type VLC_OBJECT_AOUT) no_vout (has_type VLC_OBJECT_AOUT))
      by by_object_type.
    rewrite (filter_types (fun o => negb (has_type VLC_OBJECT_AOUT o)) no_vout no_aout)
      by reflexivity.
    rewrite destroy_all_spec
      by (etransitivity; [apply filter_length_le|apply filter_length_le]).
    rewrite (filter_types (has_type VLC_OBJECT_ANNOUNCE) no_aout
               (has_type VLC_OBJECT_ANNOUNCE)) by by_object_type.
    rewrite (filter_types (fun o => negb (has_type VLC_OBJECT_ANNOUNCE o)) no_aout
               survives_cleanup) by by_object_type.
    reflexivity. }
  split; [rewrite E; reflexivity|]. rewrite E. cbn [snd].
  rewrite !forallb_app.
  rewrite !not_destroy_flat_map by reflexivity. reflexivity.
Qed.

Example cleanup_sample :
  snd (libvlc_InternalCleanup (set_children sample_children (sample_instance 1)))
  = [E_msg_Dbg "removing all interfaces";
     E_intf_StopThread 11; E_vlc_object_detach 11; E_vlc_object_release 11;
     E_intf_Destroy 11;
     E_intf_StopThread 14; E_vlc_object_detach 14; E_vlc_object_release 14;
     E_intf_Destroy 14;
     E_msg_Dbg "removing playlist"; E_playlist_ThreadDestroy;
     E_msg_Dbg "removing all video outputs";
     E_vlc_object_detach 10; E_vlc_object_release 10; E_vout_Destroy 10;
     E_msg_Dbg "removing all audio outputs";
     E_vlc_object_detach 13; E_vlc_object_release 13; E_aout_Delete 13;
     E_stats_TimersDumpAll; E_stats_TimersClean;
     E_msg_Dbg "removing announce handler";
     E_vlc_object_detach 12; E_vlc_object_release 12;
     E_announce_HandlerDestroy 12].
Proof. reflexivity. Qed.

(** ** The interface of daemon mode *)

(** C10.  In a process whose daemon flag is set only where daemon mode is
    compiled in (not under [WIN32]), [libvlc_InternalAddIntf] hands
    ["dummy"] to [intf_Create] when the flag is set, blocking is asked for,
    no module is named and the [intf] option is unset or empty; otherwise it
    hands over the module named, or ["$intf"] when none is. *)
Theorem daemon_dummy_interface (bc : build_config) (ae : addintf_env)
    (p : libvlc_int_t) (g : libvlc_global_data_t)
    (psz_module : option string) (b_block b_play : bool) :
  (WIN32 bc = true -> b_daemon g = false) ->
  exists rest,
    snd (libvlc_InternalAddIntf bc ae p g psz_module b_block b_play)
    = E_intf_Create
        (match psz_module with
         | Some m => m
         | None =>
             if b_daemon g && b_block
             then match config_GetPsz_intf ae with
                  | None | Some EmptyString => "dummy"
                  | Some (String _ _) => "$intf"
                  end
             else "$intf"
         end) :: rest.
Proof.
  intros Hw. unfold libvlc_InternalAddIntf, daemon_mode_hack.
  destruct (WIN32 bc) eqn:W.
  - rewrite (Hw eq_refl). cbn [andb].
    destruct psz_module, (intf_Create_ret ae) as [[id pl]|];
      try destruct (negb (intf_RunThread_ret ae =? 0)); eexists; reflexivity.
  - destruct psz_module, (b_daemon g), b_block,
      (config_GetPsz_intf ae) as [[|c0 s0]|], (intf_Create_ret ae) as [[id pl]|];
      try destruct (negb (intf_RunThread_ret ae =? 0)); eexists; reflexivity.
Qed.

Lemma daemon_dummy_interface_witness :
  exists rest,
    snd (libvlc_InternalAddIntf linux_build (sample_addintf None)
           (sample_instance 1) (set_b_daemon true libvlc_global_zero)
           None true false)
    = E_intf_Create "dummy" :: rest.
Proof.
  destruct (daemon_dummy_interface linux_build (sample_addintf None)
              (sample_instance 1) (set_b_daemon true libvlc_global_zero)
              None true false) as (rest & H).
  - discriminate.
  - exists rest. exact H.
Defined.

(** ** Taking and giving back in [libvlc_InternalInit] *)








(** Running a step: only the plumbing is unfolded, the answers of the
    environment stay as they are until a case is made on them. *)
Ltac run :=
  cbv beta iota zeta delta
    [bind ret emit emits stop return_ exit_ get_vlc get_global modify_vlc
     modify_global when module_InitBank set_bank_cache_delete
     get_bank_cache_delete config_file_stuff daemon_mode
     p_libvlc global p_module_bank set_p_module_bank set_b_daemon set_i_cpu
     b_ready i_cpu b_daemon b_cache_delete fst snd app negb andb orb
     p_playlist p_memcpy_module set_p_playlist set_memcpy set_stats_hotkeys
     set_b_color set_i_verbose set_config_paths set_psz_object_name
     VerboseCallback instance_id thread_id psz_object_name i_verbose b_color
     b_attached psz_homedir psz_userdir psz_configfile pf_memcpy pf_memset
     b_stats p_hotkeys children].

Ltac atomic c :=
  lazymatch c with
  | context [match _ with _ => _ end] => fail
  | _ => idtac
  end.

Ltac case_on_answer :=
  match goal with
  | |- context [match ?c with _ => _ end] => atomic c; destruct c eqn:?
  end.

Ltac explore := run; repeat (case_on_answer; run).






(** *** Steps that take and give back nothing *)













(** [init_interfaces] always runs to its end. *)
Lemma bind_next {A B} (m : M A) (k : A -> M B) (Q : B -> Prop) :
  (forall s, exists s' t a, m s = (Next a, s', t)) ->
  (forall a s, exists s' t b, k a s = (Next b, s', t) /\ Q b) ->
  forall s, exists s' t b, bind m k s = (Next b, s', t) /\ Q b.
Proof.
  intros Hm Hk s. unfold bind. destruct (Hm s) as (s1 & t1 & a & ->).
  destruct (Hk a s1) as (s2 & t2 & b & -> & HQ). eauto.
Qed.

Lemma when_next (c : bool) (e : event) (s : istate) :
  exists s' t a, when c (emit e) s = (Next a, s', t).
Proof. destruct c; cbv [when emit ret]; repeat eexists. Qed.

Lemma interfaces_success (bc : build_config) (e : init_env) (s : istate) :
  interfaces_defined bc e = true ->
  exists s' t r, init_interfaces bc e s = (Next r, s', t) /\ r = VLC_SUCCESS.
Proof.
  intros Hdef. unfold interfaces_defined in Hdef.
  apply andb_prop in Hdef. destruct Hdef as [Hjoin Hlog].
  apply negb_true_iff in Hjoin. apply negb_true_iff in Hlog.
  revert s. unfold init_interfaces, extra_interfaces. rewrite Hjoin.
  repeat (apply bind_next;
          [first [ solve [intros s; apply when_next]
                 | solve [intros s; cbv [emit emits]; repeat eexists]
                 | solve [intros s; destruct (nonempty (config_GetPsz e "control"));
                          cbv [ret]; repeat eexists]
                 | solve [intros s;
                          destruct (HAVE_SYSLOG_H bc && (config_GetInt e "syslog" =? 1)),
                            (WIN32 bc); try discriminate;
                          cbv [when bind emit ret]; repeat eexists]
                 | solve [intros s; destruct (config_GetPsz e "services-discovery");
                          [apply when_next | cbv [ret]; repeat eexists]]
                 | solve [intros s; destruct (var_Get_open e);
                          [apply when_next | cbv [ret]; repeat eexists]] ]
          | intros ? ]).
  intros s. cbv [ret]. repeat eexists.
Qed.

Lemma goes_on_bind {A B} (Q : B -> Prop) (m : M A) (k : A -> M B) :
  goes_on (fun _ => True) m -> (forall a, goes_on Q (k a)) ->
  goes_on Q (bind m k).
Proof.
  intros Hm Hk s. unfold bind. specialize (Hm s).
  destruct (m s) as [[[a|o] s1] t1]; [|exact Hm].
  specialize (Hk a s1). destruct (k a s1) as [[[b|o] s2] t2]; exact Hk.
Qed.

Lemma goes_on_unit (m : M unit) : (forall s, exists s' t, m s = (Next tt, s', t)) ->
  goes_on (fun _ => True) m.
Proof. intros H s. destruct (H s) as (s' & t & ->). exact I. Qed.

(** [init_interfaces] does not return early and does not end the process:
    it comes to its end, unless its behaviour is undefined. *)
Lemma interfaces_goes_on (bc : build_config) (e : init_env) :
  goes_on (fun r => r = VLC_SUCCESS) (init_interfaces bc e).
Proof.
  unfold init_interfaces, extra_interfaces, when.
  repeat first
    [ apply goes_on_bind; [|intros ?]
    | match goal with
      | |- goes_on _ (if ?c then _ else _) => destruct c
      | |- goes_on _ (match ?c with _ => _ end) => destruct c
      end
    | solve [intros ?; cbv [ret emit emits stop]; auto] ].
Qed.







(** The late command line failure of the sample run, spelled out. *)
Example late_failure_unwind :
  snd (libvlc_InternalInit linux_build
         (sample_env None None true true (fun _ => Acknowledged))
         (sample_instance 1) libvlc_global_zero)
  = [E_system_Init; E_SetLanguage EmptyString; E_LocaleInit;
     E_msg_Dbg "translation test: code is %s"; E_module_InitBank;
     E_help_module_create true; E_config_Duplicate; E_help_module_attach;
     E_config_LoadCmdLine true; E_help_module_detach; E_module_LoadBuiltins;
     E_module_LoadPlugins;
     E_msg_Dbg "module bank initialized, found %i modules";
     E_help_module_attach; E_help_module_detach; E_InitDeviceValues;
     E_config_LoadConfigFile None; E_help_module_attach;
     E_config_LoadCmdLine false]
    ++ [E_help_module_detach; E_config_Free; E_help_module_destroy;
        E_module_EndBank].
Proof. vm_compute. reflexivity. Qed.

(** ** What the steps leave alone *)

Section Respects.
Variable R : istate -> istate -> Prop.
Variable P : event -> bool.
Hypothesis R_refl : forall s, R s s.
Hypothesis R_trans : forall a b c, R a b -> R b c -> R a c.

Lemma respects_ret {A} (a : A) : respects R P (ret a).
Proof. intros s. cbn. auto. Qed.

Lemma respects_stop {A} (o : outcome) : respects R P (@stop A o).
Proof. intros s. cbn. auto. Qed.

Lemma respects_emit (e : event) : P e = true -> respects R P (emit e).
Proof. intros H s. cbn. rewrite H. auto. Qed.

Lemma respects_emits (t : list event) :
  forallb P t = true -> respects R P (emits t).
Proof. intros H s. cbn. auto. Qed.

Lemma respects_bind {A B} (m : M A) (k : A -> M B) :
  respects R P m -> (forall a, respects R P (k a)) -> respects R P (bind m k).
Proof.
  intros Hm Hk s. unfold bind. destruct (Hm s) as [H1 H2].
  destruct (m s) as [[[a|o] s1] t1]; cbn [fst snd] in *; [|auto].
  destruct (Hk a s1) as [H3 H4].
  destruct (k a s1) as [[r s2] t2]. cbn [fst snd] in *.
  rewrite forallb_app, H1, H3. eauto.
Qed.

Lemma respects_forward_mrls (e : init_env) (inputs : list string) :
  (forall e0, neutral e0 = true -> P e0 = true) ->
  forall i_input, respects R P (forward_mrls e i_input inputs).
Proof.
  intros HP.
  induction inputs as [|psz_mrl rest IH]; intros i_input; cbn [forward_mrls].
  - apply respects_ret.
  - destruct (dbus_forward e i_input); unfold exit_;
      repeat first [ apply IH
                   | apply respects_stop
                   | apply respects_emit; apply HP; reflexivity
                   | apply respects_bind; [|intros ?] ].
Qed.
End Respects.

Lemma same_playlist_refl (s : istate) : same_playlist s s.
Proof. reflexivity. Qed.

Lemma same_playlist_trans (a b c : istate) :
  same_playlist a b -> same_playlist b c -> same_playlist a c.
Proof. unfold same_playlist. congruence. Qed.

Lemma same_daemon_flag_refl (s : istate) : same_daemon_flag s s.
Proof. reflexivity. Qed.

Lemma same_daemon_flag_trans (a b c : istate) :
  same_daemon_flag a b -> same_daemon_flag b c -> same_daemon_flag a c.
Proof. unfold same_daemon_flag. congruence. Qed.

Ltac respected :=
  intros s; explore; split; reflexivity.

(** Up to [system_Configure] no playlist is created and nothing is sent to
    another instance. *)
Lemma until_configure_early (bc : build_config) (e : init_env) :
  respects same_playlist before_playlist (init_until_configure bc e).
Proof.
  unfold init_until_configure.
  apply (respects_bind _ _ same_playlist_trans).
  { unfold init_bootstrap, same_playlist. respected. }
  intros i_ret. apply (respects_bind _ _ same_playlist_trans).
  { unfold init_language, same_playlist. respected. }
  intros _. apply (respects_bind _ _ same_playlist_trans).
  { unfold init_modules, same_playlist. respected. }
  intros _. apply (respects_emit _ _ same_playlist_refl). reflexivity.
Qed.

(** Where daemon mode is compiled out, the daemon flag is never written. *)
Lemma init_body_daemon_flag (bc : build_config) (e : init_env) :
  WIN32 bc = true ->
  respects same_daemon_flag any_event (init_body bc e).
Proof.
  intros W. unfold init_body.
  assert (B : forall {A B} (m : M A) (k : A -> M B),
             respects same_daemon_flag any_event m ->
             (forall a, respects same_daemon_flag any_event (k a)) ->
             respects same_daemon_flag any_event (bind m k))
    by (intros; now apply (respects_bind _ _ same_daemon_flag_trans)).
  apply B; [|intros _; apply B; [|intros _]].
  - unfold init_until_configure.
    apply B; [|intros i_ret; apply B; [|intros _; apply B; [|intros _]]].
    + unfold init_bootstrap, same_daemon_flag. intros s.
      unfold daemon_mode. rewrite W. explore; split; reflexivity.
    + unfold init_language, same_daemon_flag. respected.
    + unfold init_modules, same_daemon_flag. respected.
    + now apply (respects_emit _ _ same_daemon_flag_refl).
  - unfold init_single_instance, when.
    repeat first
      [ apply (respects_forward_mrls _ _ same_daemon_flag_refl
                 same_daemon_flag_trans); reflexivity
      | apply (respects_ret _ _ same_daemon_flag_refl)
      | apply respects_stop; apply same_daemon_flag_refl
      | apply (respects_emit _ _ same_daemon_flag_refl); reflexivity
      | match goal with
        | |- respects _ _ (if ?c then _ else _) => destruct c
        | |- respects _ _ (bind _ _) => apply B; [|intros ?]
        | |- respects _ _ (exit_ _) => unfold exit_
        end ].
  - unfold init_instance. apply B; [|intros _].
    + unfold init_playlist, same_daemon_flag. respected.
    + unfold init_interfaces, extra_interfaces, when.
      repeat first
        [ apply (respects_ret _ _ same_daemon_flag_refl)
        | apply respects_stop; apply same_daemon_flag_refl
        | apply (respects_emit _ _ same_daemon_flag_refl); reflexivity
        | apply (respects_emits _ _ same_daemon_flag_refl);
          apply forallb_forall; reflexivity
        | match goal with
          | |- respects _ _ (if ?c then _ else _) => destruct c
          | |- respects _ _ (match ?c with _ => _ end) => destruct c
          | |- respects _ _ (bind _ _) => apply B; [|intros ?]
          end ].
Qed.

(** Under [WIN32] [libvlc_InternalInit] leaves the daemon flag as it found
    it, so a flag that starts cleared stays cleared. *)
Lemma win32_never_daemon (bc : build_config) (e : init_env)
    (p : libvlc_int_t) (g : libvlc_global_data_t) :
  WIN32 bc = true ->
  b_daemon (global (snd (fst (libvlc_InternalInit bc e p g)))) = b_daemon g.
Proof.
  intros W. unfold libvlc_InternalInit.
  destruct (init_body_daemon_flag bc e W {| p_libvlc := p; global := g |}) as [_ H].
  destruct (init_body bc e _) as [[[r|o] s] t]; exact H.
Qed.

(** ** The language of the configuration *)

Lemma custom_language_other (l : string) :
  l <> EmptyString -> l <> "auto" -> custom_language (Some l) = Some l.
Proof.
  intros H1 H2. unfold custom_language, nonempty.
  destruct l as [|c l]; [now destruct H1|].
  apply String.eqb_neq in H2. now rewrite H2.
Qed.

(** Past its first part, [libvlc_InternalInit] has a module bank. *)
Lemma bootstrap_bank (bc : build_config) (e : init_env) (s s1 : istate)
    (i_ret : vlc_ret) (t1 : list event) :
  init_bootstrap bc e s = (Next i_ret, s1, t1) ->
  exists bank, p_module_bank (global s1) = Some bank.
Proof.
  intros H.
  assert (G : match init_bootstrap bc e s with
              | (Next _, s', _) => exists bank, p_module_bank (global s') = Some bank
              | _ => True
              end).
  { unfold init_bootstrap. explore; try exact I; eexists; reflexivity. }
  now rewrite H in G.
Qed.

(** C7 (amended).  Where the language step is compiled in (NLS with gettext
    under [WIN32] or [__APPLE__]) and the configured language is neither
    empty nor ["auto"], the step ends the module bank and runs
    [module_InitBank], [config_LoadConfigFile( "main" )] and
    [config_LoadCmdLine] once more, exactly once, and [b_cache_delete] is
    afterwards what it was before the bank was ended.  Where the step is not
    compiled in, nothing is run again. *)
Theorem language_reload_once (bc : build_config) (e : init_env) (s s1 : istate)
    (i_ret : vlc_ret) (t1 : list event) (l : string) :
  init_bootstrap bc e s = (Next i_ret, s1, t1) ->
  config_GetPsz e "language" = Some l ->
  l <> EmptyString ->
  l <> "auto" ->
  (language_reload_built bc = true ->
   exists s2 before after,
     p_module_bank (global s1) = Some before
     /\ init_language bc e s1 = (Next tt, s2, language_reload l)
     /\ count is_module_InitBank (language_reload l) = 1%nat
     /\ p_module_bank (global s2) = Some after
     /\ b_cache_delete after = b_cache_delete before
     /\ p_libvlc s2 = p_libvlc s1)
  /\ (language_reload_built bc = false ->
      init_language bc e s1 = (Next tt, s1, [])).
Proof.
  intros Hb Hl H1 H2.
  destruct (bootstrap_bank bc e s s1 i_ret t1 Hb) as (bank & Hbank).
  unfold init_language. rewrite Hl, (custom_language_other l H1 H2).
  split; intros ->.
  - destruct s1 as [p1 [ready cpu mb daemon]]. cbn in Hbank. subst mb. run.
    eexists _, bank, _. repeat split; reflexivity.
  - reflexivity.
Qed.

Lemma language_reload_once_witness :
  exists s1 s2 t1 before after,
    init_bootstrap win32_build
      (sample_env None (Some "fr") false false (fun _ => Acknowledged)) sample_state
    = (Next VLC_EEXIT, s1, t1)
    /\ init_language win32_build
         (sample_env None (Some "fr") false false (fun _ => Acknowledged)) s1
       = (Next tt, s2, language_reload "fr")
    /\ p_module_bank (global s1) = Some before
    /\ p_module_bank (global s2) = Some after
    /\ b_cache_delete after = b_cache_delete before.
Proof.
  destruct (language_reload_once win32_build
              (sample_env None (Some "fr") false false (fun _ => Acknowledged))
              sample_state _ _ _ "fr" eq_refl eq_refl)
    as [H _]; [discriminate|discriminate|].
  destruct (H eq_refl) as (s2 & before & after & Hb & Hi & _ & Ha & Hf & _).
  eexists _, s2, _, before, after.
  split; [reflexivity|]. auto.
Defined.

(** With the language step compiled in, the sample run sets the module
    bank up twice: at line 325 and once more at line 491. *)
Example reload_on_win32 :
  let r := libvlc_InternalInit win32_build
             (sample_env None (Some "fr") false false (fun _ => Acknowledged))
             (sample_instance 1) libvlc_global_zero in
  fst (fst r) = Returned VLC_SUCCESS
  /\ count is_module_InitBank (snd r) = 2%nat.
Proof. vm_compute. split; reflexivity. Qed.

(** C7 as stated fails: in a build without the language step a configured
    language ["fr"] changes nothing, the module bank is set up once. *)
Lemma no_reload_on_linux :
  let r := libvlc_InternalInit linux_build
             (sample_env None (Some "fr") false false (fun _ => Acknowledged))
             (sample_instance 1) libvlc_global_zero in
  custom_language (Some "fr") = Some "fr"
  /\ fst (fst r) = Returned VLC_SUCCESS
  /\ count is_module_InitBank (snd r) = 1%nat.
Proof. vm_compute. repeat split; reflexivity. Qed.

(** ** Another instance owns the name *)

Lemma init_after_configure (bc : build_config) (e : init_env)
    (p : libvlc_int_t) (g : libvlc_global_data_t) (s1 : istate) (t1 : list event) :
  init_until_configure bc e {| p_libvlc := p; global := g |} = (Next tt, s1, t1) ->
  libvlc_InternalInit bc e p g
  = match init_single_instance bc e s1 with
    | (Next _, s2, t2) =>
        match init_instance bc e s2 with
        | (Next r, s3, t3) => (Returned r, s3, t1 ++ t2 ++ t3)
        | (Stop o, s3, t3) => (o, s3, t1 ++ t2 ++ t3)
        end
    | (Stop o, s2, t2) => (o, s2, t1 ++ t2)
    end.
Proof.
  intros H. unfold libvlc_InternalInit, init_body, bind. rewrite H.
  destruct (init_single_instance bc e s1) as [[[[]|o] s2] t2]; [|reflexivity].
  destruct (init_instance bc e s2) as [[[r|o] s3] t3]; reflexivity.
Qed.

Lemma forward_all_acknowledged (e : init_env) (inputs : list string) :
  forall (i_input : nat) (s : istate),
    (forall k, (k < List.length inputs)%nat ->
               dbus_forward e (i_input + k) = Acknowledged) ->
    forward_mrls e i_input inputs s
    = (Next tt, s,
       flat_map (forward_one (negb (config_Bool e "playlist-enqueue"))) inputs).
Proof.
  induction inputs as [|psz_mrl rest IH]; intros i_input s H; [reflexivity|].
  cbn [forward_mrls flat_map].
  pose proof (H 0%nat ltac:(cbn; lia)) as H0. rewrite Nat.add_0_r in H0.
  rewrite H0. unfold bind at 1 2 3 4 5 6. cbn [emit].
  rewrite IH; [reflexivity|].
  intros k Hk. replace (S i_input + k)%nat with (i_input + S k)%nat by lia.
  apply H. cbn. lia.
Qed.

(** The first input that is not acknowledged ends the process: a message is
    printed, [system_End] runs, [exit( 0 )] is called, and the inputs after
    it are not looked at. *)
Lemma forward_fails_at (e : init_env) (inputs : list string) :
  forall (i_input : nat) (s : istate) (k : nat) (psz_mrl : string),
    nth_error inputs k = Some psz_mrl ->
    (forall j, (j < k)%nat -> dbus_forward e (i_input + j) = Acknowledged) ->
    dbus_forward e (i_input + k) <> Acknowledged ->
    forward_mrls e i_input inputs s
    = (Stop (Exited 0), s,
       flat_map (forward_one (negb (config_Bool e "playlist-enqueue")))
         (firstn k inputs)
       ++ forward_failed (dbus_forward e (i_input + k))
            (negb (config_Bool e "playlist-enqueue")) psz_mrl
       ++ [E_system_End; E_exit 0]).
Proof.
  induction inputs as [|psz_first rest IH]; intros i_input s k psz_mrl Hk Hack Hfail;
    [destruct k; discriminate|].
  destruct k as [|k].
  - injection Hk as ->. rewrite Nat.add_0_r in *.
    cbn [forward_mrls firstn flat_map app].
    destruct (dbus_forward e i_input); try (now destruct Hfail);
      run; reflexivity.
  - pose proof (Hack 0%nat ltac:(lia)) as H0. rewrite Nat.add_0_r in H0.
    cbn [nth_error] in Hk.
    cbn [forward_mrls firstn flat_map]. rewrite H0.
    unfold bind at 1 2 3 4 5 6. cbn [emit].
    rewrite (IH (S i_input) s k psz_mrl Hk).
    + replace (S i_input + k)%nat with (i_input + S k)%nat by lia.
      unfold forward_one at 1. cbn [app]. rewrite <- !app_assoc. reflexivity.
    + intros j Hj. replace (S i_input + j)%nat with (i_input + S j)%nat by lia.
      apply Hack. lia.
    + now replace (S i_input + k)%nat with (i_input + S k)%nat by lia.
Qed.

Lemma before_playlist_filters (t : list event) :
  forallb before_playlist t = true ->
  filter is_dbus_send t = [] /\ filter is_playlist_ThreadCreate t = [].
Proof.
  induction t as [|x t IH]; cbn; [auto|]. intros H.
  apply andb_prop in H. destruct H as [Hx Ht]. destruct (IH Ht) as [-> ->].
  destruct x; cbn in *; auto; discriminate.
Qed.

Lemma forward_one_sends (b_play : bool) (inputs : list string) :
  filter is_dbus_send (flat_map (forward_one b_play) inputs)
  = map (fun psz_mrl => E_dbus_send psz_mrl b_play) inputs
  /\ filter is_playlist_ThreadCreate (flat_map (forward_one b_play) inputs) = [].
Proof.
  induction inputs as [|x l [IH1 IH2]]; cbn; [auto|]. now rewrite IH1, IH2.
Qed.

(** C5.  When [libvlc_InternalInit] reaches the single instance check, the
    name is owned by another instance that answers the probe, and
    [one-instance] is set, it sends the inputs from [optind] on in their
    order, one [AddMRL] call each, waiting for the reply of each before it
    goes on to the next, [b_play] being the negation of [playlist-enqueue];
    then it runs [system_End] and exits with status 0.  No playlist is
    created. *)
Theorem forward_and_exit (bc : build_config) (e : init_env)
    (p : libvlc_int_t) (g : libvlc_global_data_t) (s1 : istate) (t1 : list event) :
  HAVE_DBUS_3 bc = true ->
  init_until_configure bc e {| p_libvlc := p; global := g |} = (Next tt, s1, t1) ->
  dbus_bus_get_ok e = true ->
  dbus_request_name_error e = false ->
  dbus_primary_owner e = false ->
  config_Bool e "one-instance" = true ->
  dbus_probe_replied e = true ->
  (forall i, (optind e <= i < List.length (ppsz_argv e))%nat ->
             dbus_forward e i = Acknowledged) ->
  let inputs := skipn (optind e) (ppsz_argv e) in
  let b_play := negb (config_Bool e "playlist-enqueue") in
  let r := libvlc_InternalInit bc e p g in
  r = (Exited 0, s1,
       t1 ++ other_instance_found ++ flat_map (forward_one b_play) inputs
       ++ [E_system_End; E_exit 0])
  /\ filter is_dbus_send (snd r)
     = map (fun psz_mrl => E_dbus_send psz_mrl b_play) inputs
  /\ count is_playlist_ThreadCreate (snd r) = 0%nat
  /\ p_playlist (p_libvlc s1) = p_playlist p.
Proof.
  intros Hd Hu Hget Herr Hprim Hone Hprobe Hack inputs b_play r.
  assert (E : r = (Exited 0, s1,
       t1 ++ other_instance_found ++ flat_map (forward_one b_play) inputs
       ++ [E_system_End; E_exit 0])).
  { unfold r. rewrite (init_after_configure bc e p g s1 t1 Hu).
    unfold init_single_instance.
    rewrite Hd, Hget, Herr, Hprim, Hone, Hprobe. cbn [negb].
    unfold bind at 1 2 3 4 5 6 7 8. cbn [emit].
    rewrite forward_all_acknowledged.
    - reflexivity.
    - intros k Hk. apply Hack. rewrite length_skipn in Hk. lia. }
  destruct (until_configure_early bc e {| p_libvlc := p; global := g |}) as [Hq Hp].
  rewrite Hu in Hq, Hp. cbn [fst snd] in Hq, Hp. unfold same_playlist in Hp.
  destruct (before_playlist_filters t1 Hq) as [Hs Hc].
  destruct (forward_one_sends b_play inputs) as [Fs Fc].
  split; [exact E|]. rewrite E. cbn [snd]. unfold count.
  rewrite !filter_app, Hs, Hc, Fs, Fc. cbn. rewrite app_nil_r. auto.
Qed.

Lemma forward_and_exit_witness :
  let r := libvlc_InternalInit linux_build
             (sample_env None None false true (fun _ => Acknowledged))
             (sample_instance 1) libvlc_global_zero in
  fst (fst r) = Exited 0
  /\ filter is_dbus_send (snd r)
     = [E_dbus_send "a.mp4" false; E_dbus_send "b.mp4" false]
  /\ count is_playlist_ThreadCreate (snd r) = 0%nat.
Proof.
  destruct (forward_and_exit linux_build
              (sample_env None None false true (fun _ => Acknowledged))
              (sample_instance 1) libvlc_global_zero _ _
              eq_refl eq_refl eq_refl eq_refl eq_refl eq_refl eq_refl
              (fun i _ => eq_refl))
    as (E & Hs & Hc & _).
  cbv zeta. rewrite Hs, Hc, E. repeat split; reflexivity.
Defined.

(** * Further properties *)

(** ** Creation and destruction *)



(** X2.  A call of [libvlc_InternalCreate] that gives no instance, because
    the thread system does not start or because the object cannot be
    allocated, leaves the instance count, [libvlc_global]'s daemon flag and
    [p_static_vlc] as they were and runs no teardown. *)
Theorem failed_create_changes_nothing (bc : build_config) (ce : create_env)
    (g : process) :
  gives_instance ce = false ->
  0 <= i_instances g < UINT_MODULUS ->
  let r := libvlc_InternalCreate bc ce g in
  fst (fst r) = None
  /\ i_instances (snd (fst r)) = i_instances g
  /\ p_static_vlc (snd (fst r)) = p_static_vlc g
  /\ b_daemon (libvlc_global (snd (fst r))) = b_daemon (libvlc_global g)
  /\ count is_system_End (snd r) = 0%nat.
Proof.
  intros Hg Hn. unfold gives_instance in Hg.
  unfold libvlc_InternalCreate, create_locked.
  destruct (vlc_threads_init_ret ce <? 0); [cbn; auto|].
  destruct (vlc_object_create_ret ce); [discriminate|].
  assert (E : uint_decr (uint_incr (i_instances g)) = i_instances g).
  { unfold uint_decr, uint_incr, UINT_MODULUS in *.
    destruct (Z.eq_dec (i_instances g) (2 ^ 32 - 1)) as [->|Hne]; [reflexivity|].
    rewrite (Z.mod_small (i_instances g + 1)) by lia.
    rewrite Z.mod_small by lia. lia. }
  destruct (b_ready (libvlc_global g)); cbn; rewrite E; auto.
Qed.

Lemma failed_create_changes_nothing_witness :
  let ce := {| vlc_threads_init_ret := 0; CPUCapabilities_ret := 3;
               vlc_object_create_ret := None; getenv_VLC_VERBOSE := None;
               isatty_stderr := false |} in
  let g := snd (fst (libvlc_InternalCreate linux_build (sample_create 1 None)
                       process_start)) in
  fst (fst (libvlc_InternalCreate linux_build ce g)) = None
  /\ i_instances (snd (fst (libvlc_InternalCreate linux_build ce g))) = 1.
Proof.
  intros ce g.
  destruct (failed_create_changes_nothing linux_build ce g) as (H1 & H2 & _).
  - reflexivity.
  - vm_compute. split; [discriminate|reflexivity].
  - split; [exact H1|]. rewrite H2. reflexivity.
Defined.

(** X3.  [libvlc_InternalDestroy] called when no instance is counted takes
    the unsigned count round to [2^32 - 1] and runs no teardown. *)
Theorem destroy_without_create_wraps (p : libvlc_int_t) (b_release : bool)
    (g : process) :
  i_instances g = 0 ->
  let r := libvlc_InternalDestroy p b_release g in
  i_instances (snd (fst r)) = 4294967295
  /\ count is_system_End (snd r) = 0%nat
  /\ count is_LocaleDeinit (snd r) = 0%nat.
Proof.
  intros H. unfold libvlc_InternalDestroy, destroy_locked. rewrite H.
  destruct (p_memcpy_module p), b_release; vm_compute; auto.
Qed.

Lemma destroy_without_create_wraps_witness :
  i_instances (snd (fst (libvlc_InternalDestroy (sample_instance 1) true
                           process_start))) = 4294967295.
Proof.
  destruct (destroy_without_create_wraps (sample_instance 1) true process_start
              eq_refl) as [H _].
  exact H.
Defined.

(** X4.  After [libvlc_InternalCreate] has given an instance,
    [vlc_current_object( 0 )] is that instance, and it still is after
    [libvlc_InternalDestroy] has destroyed it: the destroy never resets
    [p_static_vlc]. *)
Theorem current_object_outlives_destroy (bc : build_config) (ce : create_env)
    (g g' : process) (p : libvlc_int_t) (t : list event)
    (vlc_object_get : Z -> option Z) (b_release : bool) :
  libvlc_InternalCreate bc ce g = (Some p, g', t) ->
  vlc_current_object vlc_object_get g' 0 = Some (instance_id p)
  /\ vlc_current_object vlc_object_get
       (snd (fst (libvlc_InternalDestroy p b_release g'))) 0
     = Some (instance_id p).
Proof.
  intros H. unfold libvlc_InternalCreate in H.
  destruct (vlc_threads_init_ret ce <? 0); [discriminate|].
  destruct (create_locked ce g) as [g1 t1].
  destruct (vlc_object_create_ret ce); [|discriminate].
  injection H as <- <- _. split; reflexivity.
Qed.

Lemma current_object_outlives_destroy_witness :
  exists p g' t,
    libvlc_InternalCreate linux_build (sample_create 7 None) process_start
    = (Some p, g', t)
    /\ vlc_current_object (fun _ => None)
         (snd (fst (libvlc_InternalDestroy p false g'))) 0 = Some 7.
Proof.
  eexists _, _, _. split; [reflexivity|].
  destruct (current_object_outlives_destroy linux_build (sample_create 7 None)
              process_start _ _ _ (fun _ => None) false eq_refl) as [_ H].
  exact H.
Defined.

(** ** Names and lists *)

(** X5.  The buffer allocated at line 374 for the rewritten configuration
    file name, [strlen( userdir ) + strlen( configfile )] bytes, is exactly
    as long as the new name with its terminator, for every user directory
    and every name that begins with [~/]. *)
Theorem configfile_buffer_exact (user configfile rest : string) :
  configfile = ("~/" ++ rest)%string ->
  exists new,
    resolve_configfile user (Some configfile) = Some new
    /\ (String.length new + 1 = String.length user + String.length configfile)%nat.
Proof.
  intros ->. exists (user ++ "/" ++ rest)%string. split; [reflexivity|].
  apply resolve_configfile_fits.
Qed.

Lemma configfile_buffer_exact_witness :
  exists new,
    resolve_configfile "/home/u/.vlc" (Some "~/vlcrc") = Some new
    /\ String.length new = 18%nat.
Proof.
  destruct (configfile_buffer_exact "/home/u/.vlc" "~/vlcrc" "vlcrc" eq_refl)
    as (new & H & L).
  exists new. split; [exact H|]. cbn in L. lia.
Defined.

Lemma append_assoc (a b c : string) :
  ((a ++ b) ++ c = a ++ (b ++ c))%string.
Proof. induction a as [|x a IH]; cbn; [reflexivity|]. now rewrite IH. Qed.

Lemma append_empty (a : string) : (a ++ EmptyString)%string = a.
Proof. induction a as [|x a IH]; cbn; [reflexivity|]. now rewrite IH. Qed.

Lemma after_last_slash_cases (s : string) :
  forall name,
    (after_last_slash name s = name /\ has_char "/" s = false)
    \/ (exists dir, s = (dir ++ "/" ++ after_last_slash name s)%string
                    /\ has_char "/" (after_last_slash name s) = false).
Proof.
  induction s as [|c s IH]; intros name; cbn [after_last_slash has_char].
  - left. auto.
  - destruct (Ascii.eqb_spec c "/") as [->|Hc].
    + right. destruct (IH s) as [[E H]|(dir & E & H)].
      * exists EmptyString. rewrite E. auto.
      * exists (String "/" dir). split; [|exact H].
        change (String "/" s
                = String "/" (dir ++ "/" ++ after_last_slash s s)%string).
        f_equal. exact E.
    + destruct (IH name) as [[E H]|(dir & E & H)].
      * left. rewrite E. cbn. auto.
      * right. exists (String c dir). split; [|exact H].
        change (String c s
                = String c (dir ++ "/" ++ after_last_slash name s)%string).
        f_equal. exact E.
Qed.

(** X6.  The object name [libvlc_InternalInit] takes from [argv[0]] holds
    no slash, and [argv[0]] is that name after a directory part which is
    empty or ends with a slash; without arguments the name is ["vlc"]. *)
Theorem object_name_is_basename (argv0 : string) (rest : list string) :
  has_char "/" (object_name_of (argv0 :: rest)) = false
  /\ (exists dir,
         argv0 = (dir ++ object_name_of (argv0 :: rest))%string
         /\ (dir = EmptyString \/ exists d, dir = (d ++ "/")%string))
  /\ object_name_of [] = "vlc".
Proof.
  cbn [object_name_of].
  destruct (after_last_slash_cases argv0 argv0) as [[E H]|(dir & E & H)].
  - rewrite E. split; [exact H|]. split; [|reflexivity].
    exists EmptyString. auto.
  - split; [exact H|]. split; [|reflexivity].
    exists (dir ++ "/")%string. split; [|eauto].
    rewrite append_assoc. exact E.
Qed.

Example object_name_samples :
  object_name_of ["/usr/bin/vlc"; "a.mp4"] = "vlc"
  /\ object_name_of ["vlc"] = "vlc"
  /\ object_name_of ["./"] = EmptyString.
Proof. repeat split; reflexivity. Qed.

Lemma split_modules_started (s : string) :
  forall m, split_modules (Some m) s <> [].
Proof.
  induction s as [|c s IH]; intros m; cbn; [discriminate|].
  destruct (Ascii.eqb c ":"); [discriminate|apply IH].
Qed.

Lemma split_modules_nil (s : string) :
  split_modules None s = [] -> s = EmptyString.
Proof.
  destruct s as [|c s]; [reflexivity|]. cbn.
  destruct (Ascii.eqb c ":"); [discriminate|].
  intros H. now apply split_modules_started in H.
Qed.

Lemma without_last_colon_cons (c : ascii) (s : string) :
  s <> EmptyString ->
  without_last_colon (String c s) = String c (without_last_colon s).
Proof. destruct s; [congruence|reflexivity]. Qed.

Lemma split_modules_join (s : string) :
  forall cur,
    String.concat ":" (split_modules cur s)
    = ((match cur with Some m => m | None => EmptyString end)
       ++ without_last_colon s)%string.
Proof.
  induction s as [|c s IH]; intros cur.
  - destruct cur as [m|]; cbn; [now rewrite append_empty|reflexivity].
  - cbn [split_modules].
    set (m0 := match cur with Some m => m | None => EmptyString end).
    destruct (Ascii.eqb_spec c ":") as [->|Hc].
    + specialize (IH None). cbn [append] in IH.
      destruct s as [|d s].
      * cbn. now rewrite append_empty.
      * destruct (split_modules None (String d s)) as [|y l] eqn:Es;
          [apply split_modules_nil in Es; discriminate|].
        rewrite without_last_colon_cons by discriminate.
        cbn [String.concat]. cbn [String.concat] in IH. rewrite IH. reflexivity.
    + apply Ascii.eqb_neq in Hc. rewrite IH. destruct s as [|d s].
      * cbn [without_last_colon]. rewrite Hc. now rewrite append_empty.
      * rewrite (without_last_colon_cons c) by discriminate.
        now rewrite append_assoc.
Qed.

Lemma has_char_append (c : ascii) (a b : string) :
  has_char c (a ++ b) = has_char c a || has_char c b.
Proof.
  induction a as [|x a IH]; cbn; [reflexivity|]. now rewrite IH, orb_assoc.
Qed.

Lemma split_modules_no_colon (s : string) :
  forall cur,
    match cur with Some m => has_char ":" m = false | None => True end ->
    Forall (fun m => has_char ":" m = false) (split_modules cur s).
Proof.
  induction s as [|c s IH]; intros cur Hcur; cbn [split_modules].
  - destruct cur; constructor; auto.
  - destruct (Ascii.eqb c ":") eqn:Ec.
    + constructor; [destruct cur; auto|]. now apply IH.
    + apply IH. rewrite has_char_append. cbn. rewrite Ec.
      destruct cur as [m|]; [now rewrite Hcur|reflexivity].
Qed.

(** X7.  The interface list of lines 908-926 is cut at every colon: no
    name it yields holds a colon, and the names joined by colons are the
    list again, but for one colon at its very end, which yields no name. *)
Theorem interface_list_round_trip (psz_modules : string) :
  String.concat ":" (split_modules None psz_modules)
  = without_last_colon psz_modules
  /\ Forall (fun m => has_char ":" m = false) (split_modules None psz_modules).
Proof.
  split; [apply (split_modules_join psz_modules None)|].
  now apply split_modules_no_colon.
Qed.

Example interface_list_samples :
  split_modules None "rc:http" = ["rc"; "http"]
  /\ split_modules None "rc:" = ["rc"]
  /\ split_modules None ":rc" = [EmptyString; "rc"]
  /\ split_modules None "rc::http" = ["rc"; EmptyString; "http"]
  /\ split_modules None EmptyString = [].
Proof. repeat split; reflexivity. Qed.

(** ** Capabilities *)

Lemma bits_within_refl (a : Z) : bits_within a a.
Proof. apply Z.land_diag. Qed.

Lemma bits_within_trans (a b c : Z) :
  bits_within a b -> bits_within b c -> bits_within a c.
Proof.
  unfold bits_within. intros H1 H2.
  rewrite <- H1 at 1. rewrite <- Z.land_assoc, H2. exact H1.
Qed.

Lemma mask_capability_within (e : init_env) (key : string) (capability cpu : Z) :
  bits_within (mask_capability e key capability cpu) cpu.
Proof.
  unfold mask_capability, bits_within. destruct (config_Bool e key).
  - apply Z.land_diag.
  - rewrite (Z.land_comm cpu), <- Z.land_assoc, Z.land_diag. reflexivity.
Qed.

Lemma cpu_overrides_within_fpu (bc : build_config) (e : init_env) (cpu : Z) :
  bits_within (cpu_overrides bc e cpu)
    (mask_capability e "fpu" (CPU_CAPABILITY_FPU bc) cpu).
Proof.
  unfold cpu_overrides.
  set (c1 := mask_capability e "fpu" (CPU_CAPABILITY_FPU bc) cpu).
  destruct (ARCH_X86 bc), (ARCH_PPC bc);
    repeat first [ apply bits_within_refl
                 | apply mask_capability_within
                 | eapply bits_within_trans; [apply mask_capability_within|] ].
Qed.

(** X8.  The capability options of lines 799-817 only take capabilities
    away: every bit of the new [i_cpu] is a bit of the old one; with [fpu]
    off no bit of [CPU_CAPABILITY_FPU] is left; with every option on,
    [i_cpu] is unchanged. *)
Theorem capabilities_only_removed (bc : build_config) (e : init_env) (cpu : Z) :
  bits_within (cpu_overrides bc e cpu) cpu
  /\ (config_Bool e "fpu" = false ->
      Z.land (cpu_overrides bc e cpu) (CPU_CAPABILITY_FPU bc) = 0)
  /\ ((forall key, config_Bool e key = true) -> cpu_overrides bc e cpu = cpu).
Proof.
  split; [|split].
  - eapply bits_within_trans; [apply cpu_overrides_within_fpu|].
    apply mask_capability_within.
  - intros Hf. pose proof (cpu_overrides_within_fpu bc e cpu) as H.
    unfold bits_within, mask_capability in H. rewrite Hf in H.
    rewrite <- H, <- !Z.land_assoc.
    rewrite (Z.land_comm (Z.lnot _)), Z.land_lnot_diag, !Z.land_0_r. reflexivity.
  - intros Hall. unfold cpu_overrides, mask_capability. rewrite !Hall.
    destruct (ARCH_X86 bc), (ARCH_PPC bc); reflexivity.
Qed.

Lemma capabilities_only_removed_witness :
  Z.land (cpu_overrides linux_build
            (sample_env_config (fun _ => 0) (fun _ => None)) 4294967295)
         2147483648 = 0.
Proof.
  destruct (capabilities_only_removed linux_build
              (sample_env_config (fun _ => 0) (fun _ => None)) 4294967295)
    as (_ & H & _).
  exact (H eq_refl).
Defined.

(** ** The steps of [libvlc_InternalInit], one by one *)

Ltac use_answers :=
  repeat match goal with
         | H : ?x = _ |- context [?x] => rewrite H
         end.

Ltac fork_sign :=
  match goal with
  | H : (fork_ret ?e <? 0) = true |- _ =>
      apply Z.ltb_lt in H;
      destruct (Z.eqb_spec (fork_ret e) 0); [lia|]
  end.

(** What the first part (lines 289-467) does, by the way it ends. *)
Lemma bootstrap_facts (bc : build_config) (e : init_env) (s : istate) :
  forallb (fun x => negb (is_module_load x)) (snd (init_bootstrap bc e s)) = true
  /\ match fst (init_bootstrap bc e s) with
     | (Next i_ret, s') =>
         i_ret = VLC_EEXIT
         /\ help_module_created e = true
         /\ LoadCmdLine_early_fails e = false
         /\ config_Bool e "help" = false
         /\ config_Bool e "version" = false
         /\ daemon_stops bc e = false
         /\ psz_userdir (p_libvlc s') <> None
         /\ i_verbose (p_libvlc s') = config_GetInt e "verbose"
         /\ psz_object_name (p_libvlc s') = object_name_of (ppsz_argv e)
         /\ p_module_bank (global s') <> None
         /\ b_daemon (global s')
            = (if negb (WIN32 bc) && config_Bool e "daemon" then true
               else b_daemon (global s))
         /\ b_ready (global s') = b_ready (global s)
         /\ i_cpu (global s') = i_cpu (global s)
         /\ p_playlist (p_libvlc s') = p_playlist (p_libvlc s)
         /\ b_color (p_libvlc s') = b_color (p_libvlc s)
         /\ pf_memcpy (p_libvlc s') = pf_memcpy (p_libvlc s)
         /\ pf_memset (p_libvlc s') = pf_memset (p_libvlc s)
     | (Stop (Returned r), s') =>
         b_daemon (global s')
         = (if negb (WIN32 bc) && config_Bool e "daemon"
               && help_module_created e && negb (LoadCmdLine_early_fails e)
               && (HAVE_DAEMON bc || (fork_ret e =? 0))
            then true else b_daemon (global s))
         /\ match r with
            | VLC_EGENERIC =>
                negb (help_module_created e) || LoadCmdLine_early_fails e = true
            | VLC_EEXIT =>
                daemon_stops bc e = true
                /\ config_Bool e "help" = false
                /\ config_Bool e "version" = false
            | VLC_EEXITSUCCESS =>
                config_Bool e "help" || config_Bool e "version"
                || daemon_stops bc e = true
            | _ => False
            end
     | (Stop (Exited _), _) => False
     | (Stop Undefined, _) =>
         config_GetUserDir e = None /\ config_GetHomeDir e = None
     end.
Proof.
  destruct s as [p g]. unfold init_bootstrap. explore;
    (split; [reflexivity|]); cbv [daemon_stops]; use_answers;
    cbn [negb andb orb]; try fork_sign; use_answers;
    repeat split; try reflexivity; try discriminate; auto.
Qed.

(** The language step (lines 469-498) goes on whenever there is a module
    bank, and leaves one. *)
Lemma language_facts (bc : build_config) (e : init_env) (s : istate) :
  p_module_bank (global s) <> None ->
  exists s' t, init_language bc e s = (Next tt, s', t) /\ untouched s s'.
Proof.
  destruct s as [p [ready cpu [bank|] daemon]]; cbn; [intros _|congruence].
  unfold init_language, untouched. explore; eexists _, _;
    (split; [reflexivity|]); cbn; repeat split; auto; discriminate.
Qed.

(** The module step (lines 500-610) changes no state; it stops for a help
    request, a dying instance or a command line it cannot load. *)
Lemma modules_facts (bc : build_config) (e : init_env) (s : istate) :
  match fst (init_modules bc e VLC_EEXIT s) with
  | (Next _, s') =>
      s' = s
      /\ LoadCmdLine_late_fails e = false
      /\ b_die_after_LoadPlugins e = false
      /\ config_GetPsz e "module" = None
      /\ config_Bool e "longhelp" = false
      /\ config_Bool e "list" = false
  | (Stop (Returned r), s') =>
      s' = s
      /\ match r with
         | VLC_EGENERIC => LoadCmdLine_late_fails e = true
         | VLC_EEXIT => b_die_after_LoadPlugins e = true
         | VLC_EEXITSUCCESS =>
             match config_GetPsz e "module" with
             | Some _ => true
             | None => config_Bool e "longhelp" || config_Bool e "list"
             end = true
         | _ => False
         end
  | _ => False
  end.
Proof.
  unfold init_modules. explore; use_answers; repeat split; auto.
Qed.

Lemma forward_mrls_facts (e : init_env) (inputs : list string) :
  forall (i_input : nat) (s : istate),
    match fst (forward_mrls e i_input inputs s) with
    | (Next _, s') => s' = s
    | (Stop (Exited status), s') => s' = s /\ status = 0
    | _ => False
    end.
Proof.
  induction inputs as [|psz_mrl rest IH]; intros i_input s;
    cbn [forward_mrls]; [reflexivity|].
  specialize (IH (S i_input) s).
  destruct (dbus_forward e i_input); run; auto.
  destruct (forward_mrls e (S i_input) rest s) as [[[[]|o] s'] t]; exact IH.
Qed.

(** The single instance check (lines 617-775) changes no state; it goes on
    without having sent anything, or ends the process with status 0, and
    that only past an answered probe. *)
Lemma single_instance_facts (bc : build_config) (e : init_env) (s : istate) :
  match init_single_instance bc e s with
  | (Next _, s', t) => s' = s /\ forallb before_playlist t = true
  | (Stop (Exited status), s', _) =>
      s' = s /\ status = 0 /\ may_forward bc e = true
  | _ => False
  end.
Proof.
  unfold init_single_instance, may_forward.
  destruct (HAVE_DBUS_3 bc), (dbus_bus_get_ok e), (dbus_request_name_error e),
    (dbus_primary_owner e), (config_Bool e "one-instance"),
    (dbus_probe_replied e), (dbus_register_ok e); run; auto.
  all: pose proof (forward_mrls_facts e (skipn (optind e) (ppsz_argv e))
                     (optind e) s) as F;
    destruct (forward_mrls e (optind e) (skipn (optind e) (ppsz_argv e)) s)
      as [[[[]|[r|status|]] s'] t]; cbn [fst] in F; try contradiction;
    [subst s'; auto | destruct F as [-> ->]; auto].
Qed.

(** The playlist step (lines 777-880). *)
Lemma playlist_facts (bc : build_config) (e : init_env) (s : istate) :
  forallb before_playlist
    (filter (fun x => negb (is_playlist_ThreadCreate x))
       (snd (init_playlist bc e s))) = true
  /\ match fst (init_playlist bc e s) with
     | (Next _, s') =>
         playlist_ThreadCreate_ok e = true
         /\ p_playlist (p_libvlc s') = true
         /\ p_hotkeys (p_libvlc s') = true
         /\ pf_memcpy (p_libvlc s') <> None
         /\ pf_memset (p_libvlc s') <> None
         /\ i_verbose (p_libvlc s') = wired_verbosity e (i_verbose (p_libvlc s))
         /\ b_color (p_libvlc s') = b_color (p_libvlc s) && config_Bool e "color"
         /\ psz_userdir (p_libvlc s') = psz_userdir (p_libvlc s)
         /\ psz_object_name (p_libvlc s') = psz_object_name (p_libvlc s)
         /\ p_module_bank (global s') = p_module_bank (global s)
         /\ b_daemon (global s') = b_daemon (global s)
         /\ i_cpu (global s') = cpu_overrides bc e (i_cpu (global s))
     | (Stop (Returned r), s') =>
         r = VLC_EGENERIC /\ playlist_ThreadCreate_ok e = false
         /\ b_daemon (global s') = b_daemon (global s)
     | _ => False
     end.
Proof.
  destruct s as [p g]. unfold init_playlist, wired_verbosity. explore;
    (split; [reflexivity|]); use_answers;
    repeat split; try reflexivity; try discriminate; auto.
Qed.

(** The last step (lines 882-1004). *)
Lemma bind_same {A B} (P : event -> bool) (m : M A) (k : A -> M B) (Q : B -> Prop) :
  (forall s, exists t a, m s = (Next a, s, t) /\ forallb P t = true) ->
  (forall a s, exists t b, k a s = (Next b, s, t) /\ forallb P t = true /\ Q b) ->
  forall s, exists t b, bind m k s = (Next b, s, t) /\ forallb P t = true /\ Q b.
Proof.
  intros Hm Hk s. unfold bind. destruct (Hm s) as (t1 & a & -> & H1).
  destruct (Hk a s) as (t2 & b & -> & H2 & HQ).
  eexists _, b. split; [reflexivity|]. rewrite forallb_app, H1, H2. auto.
Qed.

Lemma AddIntf_before_playlist (l : list string) :
  forallb before_playlist
    (map (fun psz_module => E_VLC_AddIntf (psz_module ++ ",none")%string) l) = true.
Proof. induction l as [|x l IH]; cbn; auto. Qed.

Lemma blocked_bind_l {A B} (m : M A) (k : A -> M B) :
  blocked m -> blocked (bind m k).
Proof.
  intros Hm s. unfold bind. specialize (Hm s).
  destruct (m s) as [[[a|o] s1] t1]; [contradiction|exact I].
Qed.

Lemma blocked_bind_r {A B} (m : M A) (k : A -> M B) :
  (forall a, blocked (k a)) -> blocked (bind m k).
Proof.
  intros Hk s. unfold bind. destruct (m s) as [[[a|o] s1] t1]; [|exact I].
  specialize (Hk a s1). destruct (k a s1) as [[[b|o] s2] t2];
    [contradiction|exact I].
Qed.

Lemma blocked_stop {A} (o : outcome) : blocked (@stop A o).
Proof. intros s. exact I. Qed.

(** Where its behaviour is not defined, [init_interfaces] does not come to
    its end. *)
Lemma interfaces_blocked (bc : build_config) (e : init_env) :
  interfaces_defined bc e = false -> blocked (init_interfaces bc e).
Proof.
  unfold interfaces_defined, init_interfaces, extra_interfaces. intros H.
  apply blocked_bind_r. intros _.
  destruct (nonempty (config_GetPsz e "extraintf")
            && nonempty (config_GetPsz e "control"));
    [apply blocked_bind_l, blocked_stop|].
  cbn [negb andb] in H. apply negb_false_iff in H.
  apply andb_prop in H. destruct H as [Hlog Hwin].
  apply negb_true_iff in Hwin. rewrite Hlog, Hwin. unfold when.
  do 5 (apply blocked_bind_r; intros ?).
  apply blocked_bind_l, blocked_bind_r. intros _. apply blocked_stop.
Qed.

(** It changes no state and makes none of the calls of the later steps. *)
Lemma interfaces_respects (bc : build_config) (e : init_env) :
  respects (fun s s' => s' = s) before_playlist (init_interfaces bc e).
Proof.
  assert (Hr : forall s : istate, s = s) by reflexivity.
  assert (Ht : forall a b c : istate, b = a -> c = b -> c = a) by congruence.
  unfold init_interfaces, extra_interfaces, when.
  repeat first
    [ apply (respects_ret _ _ Hr)
    | apply respects_stop; apply Hr
    | apply (respects_emit _ _ Hr); reflexivity
    | apply (respects_emits _ _ Hr);
      first [reflexivity | apply AddIntf_before_playlist]
    | match goal with
      | |- respects _ _ (if ?c then _ else _) => destruct c
      | |- respects _ _ (match ?c with _ => _ end) => destruct c
      | |- respects _ _ (bind _ _) =>
          apply (respects_bind _ _ Ht); [|intros ?]
      end ].
Qed.

Lemma interfaces_facts (bc : build_config) (e : init_env) (s : istate) :
  exists t,
    init_interfaces bc e s
    = (if interfaces_defined bc e then Next VLC_SUCCESS else Stop Undefined,
       s, t)
    /\ forallb before_playlist t = true.
Proof.
  destruct (interfaces_respects bc e s) as [Ht Hs].
  pose proof (interfaces_goes_on bc e s) as Hg.
  destruct (interfaces_defined bc e) eqn:Ed.
  - destruct (interfaces_success bc e s Ed) as (s' & t & r & E & ->).
    rewrite E in Ht, Hs. cbn [fst snd] in Ht, Hs. subst s'. eauto.
  - pose proof (interfaces_blocked bc e Ed s) as Hb.
    destruct (init_interfaces bc e s) as [[[r|[r|status|]] s'] t];
      try contradiction.
    cbn [fst snd] in Ht, Hs. subst s'. eauto.
Qed.

(** ** The ways through [libvlc_InternalInit] *)

(** [libvlc_InternalInit] ends in its first part, or in the module step, or
    by handing its inputs over, or for want of a playlist, or in its last
    step: well, or where the behaviour of that step is not defined. *)
Lemma init_ways (bc : build_config) (e : init_env)
    (p : libvlc_int_t) (g : libvlc_global_data_t) :
  let s0 := {| p_libvlc := p; global := g |} in
  let r := libvlc_InternalInit bc e p g in
  (exists o s1 t1,
      init_bootstrap bc e s0 = (Stop o, s1, t1) /\ r = (o, s1, t1))
  \/ exists s1 t1 s2 t2,
       init_bootstrap bc e s0 = (Next VLC_EEXIT, s1, t1)
       /\ init_language bc e s1 = (Next tt, s2, t2)
       /\ untouched s1 s2
       /\ ((exists c t3,
               init_modules bc e VLC_EEXIT s2 = (Stop (Returned c), s2, t3)
               /\ r = (Returned c, s2, t1 ++ t2 ++ t3))
           \/ exists t3,
                init_modules bc e VLC_EEXIT s2 = (Next tt, s2, t3)
                /\ ((exists t4,
                        init_single_instance bc e s2 = (Stop (Exited 0), s2, t4)
                        /\ may_forward bc e = true
                        /\ r = (Exited 0, s2,
                                (t1 ++ t2 ++ t3 ++ [E_system_Configure]) ++ t4))
                    \/ exists t4,
                         init_single_instance bc e s2 = (Next tt, s2, t4)
                         /\ forallb before_playlist t4 = true
                         /\ ((exists s5 t5,
                                 init_playlist bc e s2
                                 = (Stop (Returned VLC_EGENERIC), s5, t5)
                                 /\ r = (Returned VLC_EGENERIC, s5,
                                         (t1 ++ t2 ++ t3 ++ [E_system_Configure])
                                         ++ t4 ++ t5))
                             \/ exists s5 t5 t6,
                                  init_playlist bc e s2 = (Next tt, s5, t5)
                                  /\ init_interfaces bc e s5
                                     = (if interfaces_defined bc e
                                        then Next VLC_SUCCESS
                                        else Stop Undefined, s5, t6)
                                  /\ forallb before_playlist t6 = true
                                  /\ r = (if interfaces_defined bc e
                                          then Returned VLC_SUCCESS
                                          else Undefined, s5,
                                          (t1 ++ t2 ++ t3 ++ [E_system_Configure])
                                          ++ t4 ++ t5 ++ t6)))).
Proof.
  intros s0 r. subst r.
  unfold libvlc_InternalInit, init_body, init_until_configure, init_instance, bind.
  fold s0.
  destruct (bootstrap_facts bc e s0) as [_ B].
  destruct (init_bootstrap bc e s0) as [[[i_ret|o] s1] t1]; cbn [fst] in B;
    [|left; eauto].
  right. destruct B as (-> & _ & _ & _ & _ & _ & _ & _ & _ & Hbank & _).
  destruct (language_facts bc e s1 Hbank) as (s2 & t2 & El & Hu).
  rewrite El. exists s1, t1, s2, t2.
  repeat (split; [reflexivity || exact El || exact Hu|]).
  pose proof (modules_facts bc e s2) as Fm.
  destruct (init_modules bc e VLC_EEXIT s2) as [[[[]|[c| |]] s3] t3];
    cbn [fst] in Fm; try contradiction.
  2: { destruct Fm as [-> _]. left. eauto. }
  destruct Fm as [-> _]. right. exists t3. split; [reflexivity|]. cbn [emit].
  pose proof (single_instance_facts bc e s2) as Fs.
  destruct (init_single_instance bc e s2) as [[[[]|[c|status|]] s4] t4];
    try contradiction.
  2: { destruct Fs as (-> & -> & Hf). left. exists t4. auto. }
  destruct Fs as [-> Ht4]. right. exists t4. repeat (split; [reflexivity || exact Ht4|]).
  destruct (playlist_facts bc e s2) as [_ Fp].
  destruct (init_playlist bc e s2) as [[[[]|[c| |]] s5] t5]; cbn [fst] in Fp;
    try contradiction.
  2: { destruct Fp as (-> & _). left. eauto. }
  right. destruct (interfaces_facts bc e s5) as (t6 & Ei & Ht6).
  rewrite Ei. exists s5, t5, t6.
  destruct (interfaces_defined bc e); auto.
Qed.

Lemma before_playlist_stays_home (t : list event) :
  forallb before_playlist (filter (fun x => negb (is_playlist_ThreadCreate x)) t)
  = true ->
  forallb stays_home t = true.
Proof.
  induction t as [|x t IH]; cbn; [reflexivity|].
  destruct x; cbn; intros H; try (apply andb_prop in H; destruct H as [H1 H2]);
    try discriminate; auto.
Qed.

Lemma before_playlist_home (t : list event) :
  forallb before_playlist t = true -> forallb stays_home t = true.
Proof.
  induction t as [|x t IH]; cbn; [reflexivity|].
  intros H. apply andb_prop in H. destruct H as [H1 H2].
  rewrite (IH H2). destruct x; cbn in *; auto; discriminate.
Qed.

(** The calls made up to [system_Configure], on each way. *)
Lemma early_calls_home (bc : build_config) (e : init_env) (s0 : istate) :
  forallb stays_home (snd (init_until_configure bc e s0)) = true.
Proof.
  apply before_playlist_home. apply until_configure_early.
Qed.

(** ** When the other instance cannot be used *)

Lemma playlist_creates (bc : build_config) (e : init_env) (s : istate) :
  existsb is_playlist_ThreadCreate (snd (init_playlist bc e s)) = true.
Proof. unfold init_playlist. explore; reflexivity. Qed.

Lemma forward_failed_reported (how : forward_result) (b_play : bool)
    (psz_mrl : string) :
  how <> Acknowledged ->
  existsb is_msg_Err (forward_failed how b_play psz_mrl) = true.
Proof. destruct how; try reflexivity. congruence. Qed.

Lemma forward_failed_sends (how : forward_result) (b_play : bool)
    (psz_mrl : string) :
  filter is_dbus_send (forward_failed how b_play psz_mrl)
  = if send_tried how then [E_dbus_send psz_mrl b_play] else [].
Proof. destruct how; reflexivity. Qed.

(** C2 (amended).  When the name is owned by another instance and
    [one-instance] is set: if the probe gets no reply, an error message is
    printed and the process does not exit: [libvlc_InternalInit] sends
    nothing, calls no [exit], goes on to create the playlist of the local
    instance, and returns to its caller wherever the behaviour of its last
    step is defined; if an input cannot be handed over, an error message is
    printed, [system_End] runs and the process exits at once (with status
    0): the inputs before it have been sent and waited for, the calls for
    it are those up to the one that fails, and no call is made for an
    input after it. *)
Theorem other_instance_unusable (bc : build_config) (e : init_env)
    (p : libvlc_int_t) (g : libvlc_global_data_t) (s1 : istate) (t1 : list event) :
  HAVE_DBUS_3 bc = true ->
  init_until_configure bc e {| p_libvlc := p; global := g |} = (Next tt, s1, t1) ->
  dbus_bus_get_ok e = true ->
  dbus_request_name_error e = false ->
  dbus_primary_owner e = false ->
  config_Bool e "one-instance" = true ->
  let inputs := skipn (optind e) (ppsz_argv e) in
  let b_play := negb (config_Bool e "playlist-enqueue") in
  let r := libvlc_InternalInit bc e p g in
  (dbus_probe_replied e = false ->
   (exists t2,
       snd r
       = t1 ++ [E_dbus_init; E_dbus_bus_get; E_dbus_bus_request_name;
                E_dbus_probe; E_dbus_error_free;
                E_msg_Err one_instance_not_enabled;
                E_dbus_connection_unref] ++ t2
       /\ existsb is_playlist_ThreadCreate t2 = true)
   /\ forallb (fun x => negb (is_dbus_send x || is_exit x)) (snd r) = true
   /\ (forall status, fst (fst r) <> Exited status)
   /\ (interfaces_defined bc e = true ->
       fst (fst r) = Returned VLC_SUCCESS
       \/ fst (fst r) = Returned VLC_EGENERIC))
  /\ (dbus_probe_replied e = true ->
      forall k psz_mrl,
        nth_error inputs k = Some psz_mrl ->
        (forall j, (j < k)%nat -> dbus_forward e (optind e + j) = Acknowledged) ->
        dbus_forward e (optind e + k) <> Acknowledged ->
        r = (Exited 0, s1,
             t1 ++ [E_dbus_init; E_dbus_bus_get; E_dbus_bus_request_name;
                    E_dbus_probe;
                    E_msg_Warn "Another vlc instance exists: will now exit"]
             ++ flat_map
                  (fun psz_sent =>
                     [E_msg_Dbg "Give %s to other vlc";
                      E_dbus_message_new psz_sent;
                      E_dbus_send psz_sent b_play;
                      E_dbus_connection_flush;
                      E_dbus_message_unref psz_sent;
                      E_dbus_pending_call_block psz_sent])
                  (firstn k inputs)
             ++ forward_failed (dbus_forward e (optind e + k)) b_play psz_mrl
             ++ [E_system_End; E_exit 0])
        /\ existsb is_msg_Err
             (forward_failed (dbus_forward e (optind e + k)) b_play psz_mrl)
           = true
        /\ filter is_dbus_send (snd r)
           = map (fun psz_sent => E_dbus_send psz_sent b_play) (firstn k inputs)
             ++ (if send_tried (dbus_forward e (optind e + k))
                 then [E_dbus_send psz_mrl b_play] else [])
        /\ count is_playlist_ThreadCreate (snd r) = 0%nat).
Proof.
  intros Hd Hu Hget Herr Hprim Hone inputs b_play r. subst r.
  pose proof (early_calls_home bc e {| p_libvlc := p; global := g |}) as Hh.
  destruct (until_configure_early bc e {| p_libvlc := p; global := g |})
    as [Hq _].
  rewrite Hu in Hh, Hq. cbn [snd] in Hh, Hq.
  rewrite (init_after_configure bc e p g s1 t1 Hu).
  unfold init_single_instance. rewrite Hd, Hget, Herr, Hprim, Hone. cbn [negb].
  split; intros Hprobe; rewrite Hprobe; cbn [negb].
  - cbv beta iota delta [bind emit]. cbn [app].
    unfold init_instance, bind.
    destruct (playlist_facts bc e s1) as [H5 Fp].
    pose proof (playlist_creates bc e s1) as Hc.
    destruct (init_playlist bc e s1) as [[[[]|[c|status|]] s5] t5];
      cbn [fst snd] in H5, Fp, Hc; try contradiction.
    + destruct (interfaces_facts bc e s5) as (t6 & -> & H6).
      assert (Hhome : forallb (fun x => negb (is_dbus_send x || is_exit x))
                        (t1 ++ [E_dbus_init; E_dbus_bus_get;
                                E_dbus_bus_request_name; E_dbus_probe;
                                E_dbus_error_free;
                                E_msg_Err one_instance_not_enabled;
                                E_dbus_connection_unref] ++ t5 ++ t6) = true).
      { rewrite !forallb_app. fold stays_home.
        rewrite Hh, (before_playlist_stays_home _ H5),
          (before_playlist_home _ H6). reflexivity. }
      destruct (interfaces_defined bc e); cbn [fst snd]; cbn [app] in *.
      * split; [exists (t5 ++ t6); split;
                [reflexivity|rewrite existsb_app, Hc; reflexivity]|].
        split; [exact Hhome|]. split; [discriminate|]. auto.
      * split; [exists (t5 ++ t6); split;
                [reflexivity|rewrite existsb_app, Hc; reflexivity]|].
        split; [exact Hhome|]. split; [discriminate|]. discriminate.
    + destruct Fp as (-> & _). cbn [fst snd]. cbn [app].
      split; [exists t5; split; [reflexivity|exact Hc]|].
      split; [|split; [discriminate|auto]].
      rewrite forallb_app. fold stays_home. rewrite Hh. cbn [forallb app].
      rewrite (before_playlist_stays_home _ H5). reflexivity.
  - intros k psz_mrl Hk Hack Hfail.
    cbv beta iota delta [bind emit]. fold inputs.
    rewrite (forward_fails_at e inputs (optind e) s1 k psz_mrl Hk Hack Hfail).
    fold b_play. cbn [app].
    split; [reflexivity|].
    split; [apply forward_failed_reported; exact Hfail|].
    destruct (before_playlist_filters t1 Hq) as [Hs Hc].
    destruct (forward_one_sends b_play (firstn k inputs)) as [Fs Fc].
    cbn [snd]. unfold count.
    rewrite !filter_app, Hs, Hc. cbn [filter is_dbus_send
      is_playlist_ThreadCreate app].
    rewrite !filter_app, Fs, Fc, forward_failed_sends.
    split.
    + cbn [filter is_dbus_send app]. rewrite app_nil_r. reflexivity.
    + destruct (dbus_forward e (optind e + k)); reflexivity.
Qed.

Lemma other_instance_unusable_witness :
  let r := libvlc_InternalInit linux_build
             (sample_env None None false true
                (fun i => if Nat.eqb i 2 then SendFails else Acknowledged))
             (sample_instance 1) libvlc_global_zero in
  fst (fst r) = Exited 0
  /\ filter is_dbus_send (snd r)
     = [E_dbus_send "a.mp4" false; E_dbus_send "b.mp4" false].
Proof.
  destruct (other_instance_unusable linux_build
              (sample_env None None false true
                 (fun i => if Nat.eqb i 2 then SendFails else Acknowledged))
              (sample_instance 1) libvlc_global_zero _ _
              eq_refl eq_refl eq_refl eq_refl eq_refl eq_refl) as [_ H].
  destruct (H eq_refl 1%nat "b.mp4" eq_refl) as (E & _ & Hs & _).
  - intros [|j] Hj; [reflexivity|lia].
  - discriminate.
  - cbv zeta. rewrite Hs, E. split; reflexivity.
Defined.

(** C2 as stated fails: when the probe gets no reply the process does not
    exit, [libvlc_InternalInit] returns [VLC_SUCCESS]; when a send fails the
    process exits with status 0. *)
Lemma unusable_instance_no_failure_status :
  let silent := libvlc_InternalInit linux_build
                  (sample_env None None false false (fun _ => Acknowledged))
                  (sample_instance 1) libvlc_global_zero in
  let failed := libvlc_InternalInit linux_build
                  (sample_env None None false true (fun _ => SendFails))
                  (sample_instance 1) libvlc_global_zero in
  existsb is_msg_Err (snd silent) = true
  /\ fst (fst silent) = Returned VLC_SUCCESS
  /\ existsb is_msg_Err (snd failed) = true
  /\ fst (fst failed) = Exited 0.
Proof. vm_compute. repeat split; reflexivity. Qed.

(** ** The ways [libvlc_InternalInit] ends *)





(** Two ways into undefined behaviour in the last step. *)
Example init_undefined_samples :
  fst (fst (libvlc_InternalInit linux_build
              (sample_env_config (only_option "syslog") (fun _ => None))
              (sample_instance 1) libvlc_global_zero))
  = Undefined
  /\ fst (fst (libvlc_InternalInit linux_build
                 (sample_env_config (fun _ => 0)
                    (fun key => if String.eqb key "extraintf" then Some "rc"
                                else if String.eqb key "control" then Some "http"
                                else None))
                 (sample_instance 1) libvlc_global_zero))
     = Undefined.
Proof. vm_compute. split; reflexivity. Qed.

Example init_endings_sample :
  fst (fst (libvlc_InternalInit linux_build
              (sample_env_config (only_option "list") (fun _ => None))
              (sample_instance 1) libvlc_global_zero))
  = Returned VLC_EEXITSUCCESS.
Proof. vm_compute. reflexivity. Qed.

(** X11.  Where the forwarding loop cannot be reached (it takes D-Bus
    compiled in, the session bus reached, the name request answered without
    error and without ownership, [one-instance] set and the probe
    answered), [daemon( 1, 0 )] is not called, a user or home directory is
    known and the behaviour of the last step is defined,
    [libvlc_InternalInit] returns to its caller, and on its way it sends no
    item to another instance and never calls [exit]. *)
Theorem no_forward_no_exit (bc : build_config) (e : init_env)
    (p : libvlc_int_t) (g : libvlc_global_data_t) :
  may_forward bc e = false ->
  calls_daemon bc e = false ->
  interfaces_defined bc e = true ->
  (config_GetUserDir e <> None \/ config_GetHomeDir e <> None) ->
  (exists r, fst (fst (libvlc_InternalInit bc e p g)) = Returned r)
  /\ forallb stays_home (snd (libvlc_InternalInit bc e p g)) = true.
Proof.
  intros Hm _ Hdef Hdir.
  pose proof (early_calls_home bc e {| p_libvlc := p; global := g |}) as Hh.
  pose proof (bootstrap_facts bc e {| p_libvlc := p; global := g |}) as [_ B].
  unfold init_until_configure, bind in Hh.
  destruct (init_ways bc e p g) as [(o & s1 & t1 & Eb & ->)|H].
  - rewrite Eb in Hh, B. cbn [fst snd] in *. split; [|exact Hh].
    destruct o as [r|status|]; [eauto|contradiction|tauto].
  - destruct H as (s1 & t1 & s2 & t2 & Eb & El & _ & H).
    rewrite Eb, El in Hh.
    destruct H as [(c & t3 & Em & ->)|(t3 & Em & H)]; rewrite Em in Hh;
      cbn [fst snd] in *; [split; [eauto|exact Hh]|].
    cbv beta iota delta [emit] in Hh. cbn [snd] in Hh.
    destruct H as [(t4 & _ & Hf & _)|(t4 & _ & H4 & H)]; [congruence|].
    destruct (playlist_facts bc e s2) as [H5 _].
    destruct H as [(s5 & t5 & Ep & ->)|(s5 & t5 & t6 & Ep & _ & H6 & ->)];
      rewrite Ep in H5; rewrite ?Hdef; cbn [fst snd] in *;
      (split; [eauto|]);
      rewrite forallb_app, Hh; repeat rewrite forallb_app;
      rewrite (before_playlist_home _ H4);
      rewrite (before_playlist_stays_home _ H5);
      try rewrite (before_playlist_home _ H6); reflexivity.
Qed.

Lemma no_forward_no_exit_witness :
  exists r,
    fst (fst (libvlc_InternalInit linux_build
                (sample_env_config (fun _ => 0) (fun _ => None))
                (sample_instance 1) libvlc_global_zero)) = Returned r.
Proof.
  apply (no_forward_no_exit linux_build
           (sample_env_config (fun _ => 0) (fun _ => None))
           (sample_instance 1) libvlc_global_zero).
  - vm_compute. reflexivity.
  - vm_compute. reflexivity.
  - vm_compute. reflexivity.
  - right. discriminate.
Defined.

(** X12.  When [libvlc_InternalInit] returns [VLC_SUCCESS] the instance is
    complete: it has its playlist, its hotkey table, both memory copy
    functions, a user directory and a module bank, it is named after the
    last component of [argv[0]], and the CPU capabilities are the detected
    ones after the [fpu], [mmx], ... overrides. *)
Theorem success_leaves_complete_instance (bc : build_config) (e : init_env)
    (p : libvlc_int_t) (g : libvlc_global_data_t)
    (s' : istate) (t : list event) :
  libvlc_InternalInit bc e p g = (Returned VLC_SUCCESS, s', t) ->
  p_playlist (p_libvlc s') = true
  /\ p_hotkeys (p_libvlc s') = true
  /\ pf_memcpy (p_libvlc s') <> None
  /\ pf_memset (p_libvlc s') <> None
  /\ psz_userdir (p_libvlc s') <> None
  /\ psz_object_name (p_libvlc s') = object_name_of (ppsz_argv e)
  /\ p_module_bank (global s') <> None
  /\ i_cpu (global s') = cpu_overrides bc e (i_cpu g).
Proof.
  intros E.
  pose proof (bootstrap_facts bc e {| p_libvlc := p; global := g |}) as [_ B].
  destruct (init_ways bc e p g) as [(o & s1 & t1 & Eb & Er)|H].
  - rewrite Eb in B. rewrite Er in E. injection E as -> _ _.
    cbn [fst] in B. destruct B as [_ []].
  - destruct H as (s1 & t1 & s2 & t2 & Eb & El & Hu & H).
    rewrite Eb in B. cbn [fst] in B.
    destruct B as (_ & _ & _ & _ & _ & _ & Bu & _ & Bn & Bb & _ & _ & Bc & _).
    destruct Hu as (Up & _ & _ & Uc & Ub).
    pose proof (modules_facts bc e s2) as Fm.
    destruct (playlist_facts bc e s2) as [_ Fp].
    destruct H as [(c & t3 & Em & Er)|(t3 & Em & H)].
    { rewrite Em in Fm. rewrite Er in E. injection E as -> _ _.
      cbn [fst] in Fm. destruct Fm as [_ []]. }
    destruct H as [(t4 & _ & _ & Er)|(t4 & _ & _ & H)];
      [rewrite Er in E; discriminate|].
    destruct H as [(s5 & t5 & _ & Er)|(s5 & t5 & t6 & Ep & _ & _ & Er)];
      rewrite Er in E; [discriminate|].
    injection E as _ <- _. rewrite Ep in Fp. cbn [fst] in Fp.
    destruct Fp as (_ & P1 & P2 & P3 & P4 & _ & _ & P5 & P6 & P7 & _ & P8).
    rewrite P5, P6, P7, P8, Up, Uc, Bc. cbn [global i_cpu].
    repeat split; auto.
Qed.

Lemma success_leaves_complete_instance_witness :
  exists s' t,
    libvlc_InternalInit linux_build
      (sample_env_config (fun _ => 0) (fun _ => None))
      (sample_instance 1) libvlc_global_zero
    = (Returned VLC_SUCCESS, s', t)
    /\ p_playlist (p_libvlc s') = true
    /\ psz_object_name (p_libvlc s') = "vlc".
Proof.
  eexists _, _. split; [vm_compute; reflexivity|].
  destruct (success_leaves_complete_instance linux_build
              (sample_env_config (fun _ => 0) (fun _ => None))
              (sample_instance 1) libvlc_global_zero _ _ eq_refl)
    as (H1 & _ & _ & _ & _ & H6 & _).
  split; [exact H1|exact H6].
Defined.

(** X13.  After a successful [libvlc_InternalInit] the verbosity of the
    instance is -1 under [quiet]; else, when the [verbose] variable
    inherits a value of -1 or more, that value capped at 2 (the callback
    wired to the variable has run once); else the [verbose] option as
    read from the configuration, whatever its value. *)
Theorem success_verbosity (bc : build_config) (e : init_env)
    (p : libvlc_int_t) (g : libvlc_global_data_t)
    (s' : istate) (t : list event) :
  libvlc_InternalInit bc e p g = (Returned VLC_SUCCESS, s', t) ->
  i_verbose (p_libvlc s') = wired_verbosity e (config_GetInt e "verbose")
  /\ (config_Bool e "quiet" = true \/ -1 <= var_inherited_verbose e ->
      -1 <= i_verbose (p_libvlc s') <= 2).
Proof.
  intros E.
  assert (Hv : i_verbose (p_libvlc s')
               = wired_verbosity e (config_GetInt e "verbose")).
  { pose proof (bootstrap_facts bc e {| p_libvlc := p; global := g |}) as [_ B].
    destruct (init_ways bc e p g) as [(o & s1 & t1 & Eb & Er)|H].
    - rewrite Eb in B. rewrite Er in E. injection E as -> _ _.
      cbn [fst] in B. destruct B as [_ []].
    - destruct H as (s1 & t1 & s2 & t2 & Eb & El & Hu & H).
      rewrite Eb in B. cbn [fst] in B.
      destruct B as (_ & _ & _ & _ & _ & _ & _ & Bv & _).
      destruct Hu as (Up & _).
      pose proof (modules_facts bc e s2) as Fm.
      destruct (playlist_facts bc e s2) as [_ Fp].
      destruct H as [(c & t3 & Em & Er)|(t3 & Em & H)].
      { rewrite Em in Fm. rewrite Er in E. injection E as -> _ _.
        cbn [fst] in Fm. destruct Fm as [_ []]. }
      destruct H as [(t4 & _ & _ & Er)|(t4 & _ & _ & H)];
        [rewrite Er in E; discriminate|].
      destruct H as [(s5 & t5 & _ & Er)|(s5 & t5 & t6 & Ep & _ & _ & Er)];
        rewrite Er in E; [discriminate|].
      injection E as _ <- _. rewrite Ep in Fp. cbn [fst] in Fp.
      destruct Fp as (_ & _ & _ & _ & _ & P & _).
      rewrite P, Up, Bv. reflexivity. }
  split; [exact Hv|]. rewrite Hv. unfold wired_verbosity.
  intros [-> | H]; [lia|].
  destruct (config_Bool e "quiet"); [lia|].
  apply Z.leb_le in H. rewrite H. lia.
Qed.

Lemma success_verbosity_witness :
  exists s' t,
    libvlc_InternalInit linux_build
      (sample_env_config (fun _ => 0) (fun _ => None))
      (sample_instance 1) libvlc_global_zero
    = (Returned VLC_SUCCESS, s', t)
    /\ i_verbose (p_libvlc s') = 2.
Proof.
  eexists _, _. split; [vm_compute; reflexivity|].
  exact (proj1 (success_verbosity linux_build
                  (sample_env_config (fun _ => 0) (fun _ => None))
                  (sample_instance 1) libvlc_global_zero _ _ eq_refl)).
Defined.

(** X14.  [libvlc_InternalInit] changes the daemon flag of [libvlc_global]
    only under the [daemon] option on a build that is not WIN32: without
    them the flag is, on every way out that is defined, the one it found. *)
Theorem daemon_flag_needs_option (bc : build_config) (e : init_env)
    (p : libvlc_int_t) (g : libvlc_global_data_t) :
  WIN32 bc = true \/ config_Bool e "daemon" = false ->
  fst (fst (libvlc_InternalInit bc e p g)) <> Undefined ->
  b_daemon (global (snd (fst (libvlc_InternalInit bc e p g)))) = b_daemon g.
Proof.
  intros Hd.
  assert (Hc : negb (WIN32 bc) && config_Bool e "daemon" = false)
    by (destruct Hd as [-> | ->]; [reflexivity|apply andb_false_r]).
  pose proof (bootstrap_facts bc e {| p_libvlc := p; global := g |}) as [_ B].
  destruct (init_ways bc e p g) as [(o & s1 & t1 & Eb & ->)|H].
  - rewrite Eb in B. cbn [fst snd] in *. intros Ho.
    destruct o as [r|status|]; [|contradiction|congruence].
    destruct B as [B _]. rewrite Hc in B. exact B.
  - intros _. destruct H as (s1 & t1 & s2 & t2 & Eb & El & Hu & H).
    rewrite Eb in B. cbn [fst] in B.
    destruct B as (_ & _ & _ & _ & _ & _ & _ & _ & _ & _ & Bd & _).
    rewrite Hc in Bd. cbn [global b_daemon] in Bd.
    destruct Hu as (_ & Ud & _).
    destruct (playlist_facts bc e s2) as [_ Fp].
    destruct H as [(c & t3 & Em & ->)|(t3 & Em & H)];
      [cbn [fst snd]; congruence|].
    destruct H as [(t4 & _ & _ & ->)|(t4 & _ & _ & H)];
      [cbn [fst snd]; congruence|].
    destruct H as [(s5 & t5 & Ep & ->)|(s5 & t5 & t6 & Ep & _ & _ & ->)];
      rewrite Ep in Fp; cbn [fst snd] in *.
    + destruct Fp as (_ & _ & Fp). congruence.
    + destruct Fp as (_ & _ & _ & _ & _ & _ & _ & _ & _ & _ & Fp & _).
      congruence.
Qed.

Lemma daemon_flag_needs_option_witness :
  b_daemon (global (snd (fst (libvlc_InternalInit win32_build
     (sample_env_config (only_option "daemon") (fun _ => None))
     (sample_instance 1) libvlc_global_zero)))) = false.
Proof.
  exact (daemon_flag_needs_option win32_build
           (sample_env_config (only_option "daemon") (fun _ => None))
           (sample_instance 1) libvlc_global_zero
           (or_introl eq_refl) ltac:(vm_compute; discriminate)).
Defined.

(** ** Interfaces and the cleanup *)

(** What the cleanup leaves and the calls it makes, by kind of object. *)
Lemma cleanup_result (p : libvlc_int_t) :
  libvlc_InternalCleanup p
  = (VLC_SUCCESS,
     set_children (filter survives_cleanup (children p)) p,
     [E_msg_Dbg "removing all interfaces"] ++
     flat_map stop_interface (filter (has_type VLC_OBJECT_INTF) (children p)) ++
     [E_msg_Dbg "removing playlist"; E_playlist_ThreadDestroy] ++
     [E_msg_Dbg "removing all video outputs"] ++
     flat_map free_vout (filter (has_type VLC_OBJECT_VOUT) (children p)) ++
     [E_msg_Dbg "removing all audio outputs"] ++
     flat_map free_aout (filter (has_type VLC_OBJECT_AOUT) (children p)) ++
     [E_stats_TimersDumpAll; E_stats_TimersClean] ++
     flat_map free_announce (filter (has_type VLC_OBJECT_ANNOUNCE) (children p))).
Proof.
  unfold libvlc_InternalCleanup. cbv zeta.
  set (l := children p).
  set (no_intf := fun o => negb (has_type VLC_OBJECT_INTF o)).
  set (no_vout := fun o => no_intf o && negb (has_type VLC_OBJECT_VOUT o)).
  set (no_aout := fun o => no_vout o && negb (has_type VLC_OBJECT_AOUT o)).
  rewrite destroy_all_spec by apply filter_length_le.
  fold no_intf.
  rewrite destroy_all_spec
    by (etransitivity; [apply filter_length_le|apply filter_length_le]).
  rewrite (filter_types (has_type VLC_OBJECT_VOUT) no_intf (has_type VLC_OBJECT_VOUT))
    by by_object_type.
  rewrite (filter_types (fun o => negb (has_type VLC_OBJECT_VOUT o)) no_intf no_vout)
    by reflexivity.
  rewrite destroy_all_spec
    by (etransitivity; [apply filter_length_le|apply filter_length_le]).
  rewrite (filter_types (has_type VLC_OBJECT_AOUT) no_vout (has_type VLC_OBJECT_AOUT))
    by by_object_type.
  rewrite (filter_types (fun o => negb (has_type VLC_OBJECT_AOUT o)) no_vout no_aout)
    by reflexivity.
  rewrite destroy_all_spec
    by (etransitivity; [apply filter_length_le|apply filter_length_le]).
  rewrite (filter_types (has_type VLC_OBJECT_ANNOUNCE) no_aout
             (has_type VLC_OBJECT_ANNOUNCE)) by by_object_type.
  rewrite (filter_types (fun o => negb (has_type VLC_OBJECT_ANNOUNCE o)) no_aout
             survives_cleanup) by by_object_type.
  reflexivity.
Qed.

Lemma set_children_twice (l l' : list vlc_object_t) (p : libvlc_int_t) :
  set_children l (set_children l' p) = set_children l p.
Proof. reflexivity. Qed.

Lemma survivors_of_no_type (ty : object_type) (l : list vlc_object_t) :
  ty <> VLC_OBJECT_OTHER ->
  filter (has_type ty) (filter survives_cleanup l) = [].
Proof.
  intros Hty. rewrite filter_filter_objects.
  induction l as [|[t id] r IH]; cbn; [reflexivity|].
  rewrite IH. destruct t, ty; cbn; try reflexivity; congruence.
Qed.

(** X15.  A second [libvlc_InternalCleanup] of an instance finds nothing
    to remove: it stops, detaches and destroys no object, makes only the
    calls that do not depend on the objects attached (the messages, the end
    of the playlist thread, the dump of the timers), and leaves the
    instance as the first cleanup left it. *)
Theorem second_cleanup_finds_nothing (p : libvlc_int_t) :
  let p1 := snd (fst (libvlc_InternalCleanup p)) in
  libvlc_InternalCleanup p1
  = (VLC_SUCCESS, p1,
     [E_msg_Dbg "removing all interfaces";
      E_msg_Dbg "removing playlist"; E_playlist_ThreadDestroy;
      E_msg_Dbg "removing all video outputs";
      E_msg_Dbg "removing all audio outputs";
      E_stats_TimersDumpAll; E_stats_TimersClean]).
Proof.
  cbv zeta. rewrite (cleanup_result p). cbn [fst snd].
  rewrite cleanup_result.
  change (children (set_children ?l p)) with l.
  rewrite !survivors_of_no_type by discriminate.
  rewrite set_children_twice. f_equal. f_equal. f_equal.
  rewrite filter_filter_objects. apply filter_ext.
  intros o. apply andb_diag.
Qed.

(** X16.  An interface that [libvlc_InternalAddIntf] has started (return
    [VLC_SUCCESS]) is stopped and destroyed by the next
    [libvlc_InternalCleanup], which leaves the instance as a cleanup
    without that interface would have. *)
Theorem added_interface_is_cleaned_up (bc : build_config) (ae : addintf_env)
    (p p' : libvlc_int_t) (g : libvlc_global_data_t)
    (psz_module : option string) (b_block b_play : bool) (t : list event) :
  libvlc_InternalAddIntf bc ae p g psz_module b_block b_play
  = (VLC_SUCCESS, p', t) ->
  exists id,
    In (E_intf_RunThread id) t
    /\ In (E_intf_StopThread id) (snd (libvlc_InternalCleanup p'))
    /\ In (E_intf_Destroy id) (snd (libvlc_InternalCleanup p'))
    /\ snd (fst (libvlc_InternalCleanup p'))
       = snd (fst (libvlc_InternalCleanup p)).
Proof.
  unfold libvlc_InternalAddIntf.
  destruct (intf_Create_ret ae) as [[id pl]|]; [|discriminate].
  destruct (negb (intf_RunThread_ret ae =? 0)); [discriminate|].
  intros E. injection E as <- <-. exists id. split.
  { right. apply in_or_app. right. left. reflexivity. }
  rewrite !cleanup_result. cbn [fst snd].
  change (children (set_children ?l p)) with l.
  rewrite set_children_twice, !filter_app. cbn [filter has_type survives_cleanup
    i_object_type object_type_eqb app].
  rewrite !app_nil_r. split; [|split; [|reflexivity]].
  - right. apply in_or_app. left. rewrite flat_map_app. apply in_or_app.
    right. left. reflexivity.
  - right. apply in_or_app. left. rewrite flat_map_app. apply in_or_app.
    right. cbn. auto.
Qed.

Lemma added_interface_is_cleaned_up_witness :
  exists id,
    In (E_intf_StopThread id)
      (snd (libvlc_InternalCleanup
              (snd (fst (libvlc_InternalAddIntf linux_build (sample_addintf None)
                           (sample_instance 1) libvlc_global_zero
                           None false false))))).
Proof.
  destruct (added_interface_is_cleaned_up linux_build (sample_addintf None)
              (sample_instance 1) _ libvlc_global_zero None false false _
              eq_refl) as (id & _ & H & _).
  exists id. exact H.
Defined.

(** X17.  When [libvlc_InternalAddIntf] does not return [VLC_SUCCESS] it
    leaves nothing behind: the instance is as before, and an interface
    that was created has been detached and destroyed as the last two
    calls.  The code returned is [VLC_EGENERIC] when no interface could be
    created and otherwise the non-zero code of [intf_RunThread]. *)
Theorem failed_addintf_leaves_nothing (bc : build_config) (ae : addintf_env)
    (p p' : libvlc_int_t) (g : libvlc_global_data_t)
    (psz_module : option string) (b_block b_play : bool)
    (r : vlc_ret) (t : list event) :
  libvlc_InternalAddIntf bc ae p g psz_module b_block b_play = (r, p', t) ->
  r <> VLC_SUCCESS ->
  p' = p
  /\ match intf_Create_ret ae with
     | None =>
         r = VLC_EGENERIC
         /\ forall id, ~ In (E_intf_RunThread id) t
     | Some (id, _) =>
         r = VLC_error (intf_RunThread_ret ae)
         /\ intf_RunThread_ret ae <> 0
         /\ exists t0, t = t0 ++ [E_vlc_object_detach id; E_intf_Destroy id]
     end.
Proof.
  unfold libvlc_InternalAddIntf.
  destruct (intf_Create_ret ae) as [[id pl]|].
  - destruct (intf_RunThread_ret ae =? 0) eqn:Ez; cbn [negb];
      intros E; injection E as <- <- <-; [congruence|].
    intros _. apply Z.eqb_neq in Ez. repeat split; auto.
    eexists (_ :: _). reflexivity.
  - intros E. injection E as <- <- <-. intros _. repeat split.
    intros id [H|[H|[]]]; discriminate.
Qed.

Lemma failed_addintf_leaves_nothing_witness :
  snd (fst (libvlc_InternalAddIntf linux_build
              {| config_GetPsz_intf := None; intf_Create_ret := Some (20, false);
                 intf_RunThread_ret := -3 |}
              (sample_instance 1) libvlc_global_zero None false true))
  = sample_instance 1.
Proof.
  exact (proj1 (failed_addintf_leaves_nothing linux_build
                  {| config_GetPsz_intf := None;
                     intf_Create_ret := Some (20, false);
                     intf_RunThread_ret := -3 |}
                  (sample_instance 1) _ libvlc_global_zero None false true _ _
                  eq_refl ltac:(discriminate))).
Defined.

(** ** The inputs of the command line *)

Lemma firstn_plus (A : Type) (n m : nat) (l : list A) :
  firstn (n + m) l = firstn n l ++ firstn m (skipn n l).
Proof.
  revert l. induction n as [|n IH]; intros l; [reflexivity|].
  destruct l as [|x r]; cbn; [now rewrite firstn_nil|]. now rewrite IH.
Qed.

Lemma skipn_plus (A : Type) (n m : nat) (l : list A) :
  skipn (n + m) l = skipn m (skipn n l).
Proof.
  revert l. induction n as [|n IH]; intros l; [reflexivity|].
  destruct l as [|x r]; cbn; [now rewrite skipn_nil|]. apply IH.
Qed.

Lemma seg_split (l : list string) (a n m : Z) :
  0 <= a -> 0 <= n -> 0 <= m ->
  seg l a (n + m) = seg l a n ++ seg l (a + n) m.
Proof.
  intros Ha Hn Hm. unfold seg.
  rewrite !Z2Nat.inj_add by lia. rewrite firstn_plus, skipn_plus. reflexivity.
Qed.

Lemma skipn_nth (n : nat) (l : list string) :
  (n < List.length l)%nat ->
  skipn n l = nth n l EmptyString :: skipn (S n) l.
Proof.
  revert l. induction n as [|n IH]; intros [|x r] H; cbn in *; try lia;
    [reflexivity|]. apply IH. lia.
Qed.

Lemma seg_one (l : list string) (a : Z) :
  0 <= a < Z.of_nat (List.length l) ->
  seg l a 1 = [argv_at l a].
Proof.
  intros H. unfold seg, argv_at.
  rewrite (skipn_nth (Z.to_nat a)) by lia. reflexivity.
Qed.

Lemma seg_all (l : list string) (a : Z) :
  0 <= a ->
  seg l a (Z.of_nat (List.length l) - a) = skipn (Z.to_nat a) l.
Proof.
  intros H. unfold seg. apply firstn_all2. rewrite length_skipn. lia.
Qed.

Lemma seg_none (l : list string) (a n : Z) : n <= 0 -> seg l a n = [].
Proof.
  intros H. unfold seg. replace (Z.to_nat n) with 0%nat by lia. reflexivity.
Qed.

(** Every string of a range that starts with a colon is one of [seg]. *)
Lemma seg_colons (l : list string) (n : nat) :
  forall a : Z,
    0 <= a ->
    (forall k, a <= k < a + Z.of_nat n -> starts_with_colon (argv_at l k) = true) ->
    forallb starts_with_colon (seg l a (Z.of_nat n)) = true.
Proof.
  induction n as [|n IH]; intros a Ha H.
  - reflexivity.
  - destruct (Z_lt_le_dec a (Z.of_nat (List.length l))) as [Hin|Hout].
    + replace (Z.of_nat (S n)) with (1 + Z.of_nat n) by lia.
      rewrite seg_split by lia. rewrite seg_one by lia.
      cbn [app forallb]. rewrite H by lia. rewrite IH; [reflexivity|lia|].
      intros k Hk. apply H. lia.
    + unfold seg. rewrite skipn_all2 by lia. now rewrite firstn_nil.
Qed.

(** Where the inner loop stops, and what it has counted. *)
Lemma count_options_spec (ppsz_argv : list string) (optind : Z) :
  forall (fuel : nat) (i_opt i_options : Z),
    optind <= i_opt ->
    i_opt - optind < Z.of_nat fuel ->
    exists j,
      count_options fuel ppsz_argv optind i_opt i_options
      = (j, i_options + (i_opt - j))
      /\ optind <= j <= i_opt
      /\ (forall k, j < k <= i_opt ->
                    starts_with_colon (argv_at ppsz_argv k) = true)
      /\ (j = optind \/ starts_with_colon (argv_at ppsz_argv j) = false).
Proof.
  induction fuel as [|fuel IH]; intros i_opt i_options Hle Hfuel; [lia|].
  cbn [count_options].
  destruct (starts_with_colon (argv_at ppsz_argv i_opt)) eqn:Ec;
    [destruct (optind <? i_opt) eqn:El|]; cbn [andb].
  - apply Z.ltb_lt in El.
    destruct (IH (i_opt - 1) (i_options + 1)) as (j & E & Hj & Hc & Hs);
      [lia|lia|].
    exists j. rewrite E.
    split; [f_equal; lia|]. split; [lia|]. split; [|exact Hs].
    intros k Hk. destruct (Z.eq_dec k i_opt) as [-> |]; [exact Ec|].
    apply Hc. lia.
  - apply Z.ltb_ge in El. exists i_opt.
    split; [f_equal; lia|]. split; [lia|]. split; [intros; lia|left; lia].
  - exists i_opt.
    split; [f_equal; lia|]. split; [lia|]. split; [intros; lia|right; exact Ec].
Qed.

Section GetFilenames_facts.
Variable conv : string -> string.
Variable ppsz_argv : list string.
Variable optind : Z.
Hypothesis optind_ge_0 : 0 <= optind.

(** The calls made from [i_opt] down stand for the arguments from [optind]
    to [i_opt], each used once. *)
Lemma GetFilenames_from_arguments :
  (forall psz, In psz ppsz_argv -> conv psz = psz) ->
  forall (fuel : nat) (i_opt : Z),
    optind - 1 <= i_opt < Z.of_nat (List.length ppsz_argv) ->
    i_opt + 1 - optind <= Z.of_nat fuel ->
    flat_map arguments_of (rev (GetFilenames_from fuel conv ppsz_argv optind i_opt))
    = seg ppsz_argv optind (i_opt + 1 - optind).
Proof.
  intros Hconv.
  induction fuel as [|fuel IH]; intros i_opt Hi Hfuel.
  - cbn. symmetry. apply seg_none. lia.
  - cbn [GetFilenames_from].
    destruct (i_opt <? optind) eqn:El.
    + apply Z.ltb_lt in El. cbn. symmetry. apply seg_none. lia.
    + apply Z.ltb_ge in El.
      destruct (count_options_spec ppsz_argv optind (S fuel) i_opt 0)
        as (j & E & Hj & _); [lia|lia|].
      rewrite E. cbn [rev]. rewrite flat_map_app. cbn [flat_map].
      rewrite IH by lia. unfold arguments_of at 1.
      cbn [psz_target ppsz_options]. rewrite app_nil_r.
      rewrite Hconv by (apply nth_In; lia).
      replace (i_opt + 1 - optind) with ((j - optind) + (1 + (i_opt - j))) by lia.
      rewrite (seg_split ppsz_argv optind) by lia.
      replace (j - 1 + 1 - optind) with (j - optind) by lia. f_equal.
      replace (optind + (j - optind)) with j by lia.
      rewrite seg_split by lia. rewrite seg_one by lia.
      unfold options_at, seg. replace (0 + (i_opt - j)) with (i_opt - j) by lia.
      reflexivity.
Qed.

(** Every option handed over starts with a colon. *)
Lemma GetFilenames_from_options :
  forall (fuel : nat) (i_opt : Z),
    i_opt + 1 - optind <= Z.of_nat fuel ->
    Forall (fun c => forallb starts_with_colon (ppsz_options c) = true)
      (GetFilenames_from fuel conv ppsz_argv optind i_opt).
Proof.
  induction fuel as [|fuel IH]; intros i_opt Hfuel; [constructor|].
  cbn [GetFilenames_from].
  destruct (i_opt <? optind) eqn:El; [constructor|].
  apply Z.ltb_ge in El.
  destruct (count_options_spec ppsz_argv optind (S fuel) i_opt 0)
    as (j & E & Hj & Hc & _); [lia|lia|].
  rewrite E. constructor; [|apply IH; lia].
  cbn [ppsz_options]. unfold options_at. fold (seg ppsz_argv (j + 1) (0 + (i_opt - j))).
  replace (0 + (i_opt - j)) with (Z.of_nat (Z.to_nat (i_opt - j))) by lia.
  apply seg_colons; [lia|]. intros k Hk. apply Hc. lia.
Qed.

(** The call made last takes [ppsz_argv[ optind ]] as its input; the
    inputs of the calls before it do not start with a colon. *)
Lemma GetFilenames_from_targets :
  forall (fuel : nat) (i_opt : Z),
    optind <= i_opt ->
    i_opt + 1 - optind <= Z.of_nat fuel ->
    exists front options,
      GetFilenames_from fuel conv ppsz_argv optind i_opt
      = front ++ [{| psz_target := conv (argv_at ppsz_argv optind);
                     ppsz_options := options |}]
      /\ Forall (fun c => exists i,
                     optind < i <= i_opt
                     /\ starts_with_colon (argv_at ppsz_argv i) = false
                     /\ psz_target c = conv (argv_at ppsz_argv i)) front.
Proof.
  induction fuel as [|fuel IH]; intros i_opt Hi Hfuel; [lia|].
  cbn [GetFilenames_from].
  destruct (i_opt <? optind) eqn:El; [apply Z.ltb_lt in El; lia|].
  destruct (count_options_spec ppsz_argv optind (S fuel) i_opt 0)
    as (j & E & Hj & _ & Hs); [lia|lia|].
  rewrite E. destruct (Z.eq_dec j optind) as [-> |Hne].
  - exists [], (options_at ppsz_argv optind (0 + (i_opt - optind))).
    split; [|constructor]. cbn [app]. f_equal.
    destruct fuel; cbn [GetFilenames_from]; [reflexivity|].
    replace (optind - 1 <? optind) with true by (symmetry; apply Z.ltb_lt; lia).
    reflexivity.
  - destruct Hs as [Hs|Hs]; [contradiction|].
    destruct (IH (j - 1)) as (front & options & -> & Hf); [lia|lia|].
    eexists (_ :: front), options. split; [reflexivity|].
    constructor.
    + exists j. cbn [psz_target]. repeat split; try lia. exact Hs.
    + eapply Forall_impl; [|exact Hf]. cbn beta.
      intros c (i & Hi' & Hc & Ht). exists i. repeat split; try lia; assumption.
Qed.

End GetFilenames_facts.

(** X18.  [GetFilenames] uses every argument that is left on the command
    line exactly once: with a target conversion that changes none of
    them, the inputs and options of its calls, read from the last call
    made to the first (each call inserts at the head of the playlist), are
    the arguments from [optind] on, in the order of the command line.  It
    returns [VLC_SUCCESS]. *)
Theorem GetFilenames_uses_each_argument (bc : build_config) (GetVersion : Z)
    (FromLocale : string -> string) (ppsz_argv : list string) (optind : Z) :
  0 <= optind ->
  (forall psz, In psz ppsz_argv ->
               target_conversion bc GetVersion FromLocale psz = psz) ->
  fst (GetFilenames bc GetVersion FromLocale ppsz_argv optind) = VLC_SUCCESS
  /\ flat_map arguments_of
       (rev (snd (GetFilenames bc GetVersion FromLocale ppsz_argv optind)))
     = skipn (Z.to_nat optind) ppsz_argv.
Proof.
  intros H0 Hconv. split; [reflexivity|].
  unfold GetFilenames. cbn [snd].
  set (n := Z.of_nat (List.length ppsz_argv)).
  destruct (Z_lt_le_dec n optind) as [Hout|Hin].
  - rewrite skipn_all2 by lia.
    destruct (Z.to_nat n); cbn [GetFilenames_from]; [reflexivity|].
    replace (n - 1 <? optind) with true by (symmetry; apply Z.ltb_lt; lia).
    reflexivity.
  - rewrite (GetFilenames_from_arguments _ ppsz_argv optind H0 Hconv) by lia.
    replace (n - 1 + 1 - optind) with (n - optind) by lia.
    apply seg_all. exact H0.
Qed.

Lemma GetFilenames_uses_each_argument_witness :
  flat_map arguments_of
    (rev (snd (GetFilenames win32_build 5 (fun _ => "?")
                 ["vlc"; "-v"; "a.avi"; ":start=3"; "b.avi"] 2)))
  = ["a.avi"; ":start=3"; "b.avi"].
Proof.
  exact (proj2 (GetFilenames_uses_each_argument win32_build 5 (fun _ => "?")
                  ["vlc"; "-v"; "a.avi"; ":start=3"; "b.avi"] 2
                  ltac:(lia) (fun psz _ => eq_refl))).
Defined.

(** X19.  Of the arguments left on the command line, [GetFilenames] takes
    the first one as an input whatever it starts with, and it is the input
    of the last call made; every other input does not start with a colon
    and every option handed over does.  With no argument left it makes no
    call. *)
Theorem GetFilenames_inputs_and_options (bc : build_config) (GetVersion : Z)
    (FromLocale : string -> string) (ppsz_argv : list string) (optind : Z) :
  0 <= optind ->
  let conv := target_conversion bc GetVersion FromLocale in
  let calls := snd (GetFilenames bc GetVersion FromLocale ppsz_argv optind) in
  Forall (fun c => forallb starts_with_colon (ppsz_options c) = true) calls
  /\ (Z.of_nat (List.length ppsz_argv) <= optind -> calls = [])
  /\ (optind < Z.of_nat (List.length ppsz_argv) ->
      exists front options,
        calls = front ++ [{| psz_target := conv (argv_at ppsz_argv optind);
                             ppsz_options := options |}]
        /\ Forall (fun c => exists i,
                       optind < i < Z.of_nat (List.length ppsz_argv)
                       /\ starts_with_colon (argv_at ppsz_argv i) = false
                       /\ psz_target c = conv (argv_at ppsz_argv i)) front).
Proof.
  intros H0 conv calls. subst calls. unfold GetFilenames. cbn [snd].
  fold conv. set (n := Z.of_nat (List.length ppsz_argv)).
  split; [apply GetFilenames_from_options; lia|]. split.
  - intros Hout. destruct (Z.to_nat n); cbn [GetFilenames_from]; [reflexivity|].
    replace (n - 1 <? optind) with true by (symmetry; apply Z.ltb_lt; lia).
    reflexivity.
  - intros Hin.
    destruct (GetFilenames_from_targets conv ppsz_argv optind
                (Z.to_nat n) (n - 1)) as (front & options & E & Hf);
      [lia|lia|].
    exists front, options. split; [exact E|].
    eapply Forall_impl; [|exact Hf]. cbn beta.
    intros c (i & Hi & Hc & Ht). exists i. repeat split; try lia; assumption.
Qed.

Lemma GetFilenames_inputs_and_options_witness :
  exists front options,
    snd (GetFilenames linux_build 0 (fun psz => psz) ["vlc"; ":opt"; ":sub"] 1)
    = front ++ [{| psz_target := ":opt"; ppsz_options := options |}].
Proof.
  destruct (GetFilenames_inputs_and_options linux_build 0 (fun psz => psz)
              ["vlc"; ":opt"; ":sub"] 1 ltac:(lia)) as (_ & _ & H).
  destruct (H ltac:(cbn; lia)) as (front & options & E & _).
  exists front, options. exact E.
Defined.

(** ** The width of the console and the wrapping of help texts *)

Lemma strchr_space_spec (psz : list ascii) :
  forall k,
    strchr_space psz = Some k ->
    0 <= k < Z.of_nat (List.length psz)
    /\ nth (Z.to_nat k) psz zero = " "%char.
Proof.
  induction psz as [|c r IH]; intros k; cbn [strchr_space]; [discriminate|].
  destruct (Ascii.eqb c " ") eqn:Ec.
  - intros [= <-]. apply Ascii.eqb_eq in Ec. cbn. split; [lia|exact Ec].
  - destruct (strchr_space r) as [k'|]; [|discriminate].
    intros [= <-]. destruct (IH k' eq_refl) as [Hk Hn].
    cbn [List.length]. split; [lia|].
    replace (Z.to_nat (k' + 1)) with (S (Z.to_nat k')) by lia. exact Hn.
Qed.

Lemma nth_of_skipn (A : Type) (d : A) (m n : nat) (l : list A) :
  nth n (skipn m l) d = nth (m + n) l d.
Proof.
  revert l. induction m as [|m IH]; intros l; [reflexivity|].
  destruct l as [|x r]; cbn; [now destruct n|]. apply IH.
Qed.

Lemma skipn_cons_nth (A : Type) (d : A) (n : nat) (l : list A) :
  (n < List.length l)%nat -> skipn n l = nth n l d :: skipn (S n) l.
Proof.
  revert l. induction n as [|n IH]; intros [|x r] H; cbn in *; try lia;
    [reflexivity|]. apply IH. lia.
Qed.

(** A text is what comes before one of its characters, the character, and
    what follows. *)
Lemma text_around (w : Z) (c : ascii) (text : list ascii) :
  1 <= w <= Z.of_nat (List.length text) ->
  nth (Z.to_nat (w - 1)) text zero = c ->
  text = firstn (Z.to_nat (w - 1)) text ++ c :: skipn (Z.to_nat w) text.
Proof.
  intros Hw Hc. rewrite <- (firstn_skipn (Z.to_nat (w - 1)) text) at 1.
  f_equal. rewrite (skipn_cons_nth _ zero) by lia. rewrite Hc.
  replace (S (Z.to_nat (w - 1))) with (Z.to_nat w) by lia. reflexivity.
Qed.

(** Where the words of a line end: [psz_word] is within the width, and is
    the start of the text or follows a space. *)
Lemma eat_words_spec (psz_text : list ascii) (i_width : Z) :
  let i_end := Z.of_nat (List.length psz_text) in
  i_width < i_end ->
  forall (fuel : nat) (psz_parser : Z),
    0 <= psz_parser <= i_width ->
    i_end - psz_parser < Z.of_nat fuel ->
    (psz_parser = 0
     \/ 1 <= psz_parser
        /\ nth (Z.to_nat (psz_parser - 1)) psz_text zero = " "%char) ->
    exists psz_word psz_parser',
      eat_words fuel psz_text i_end i_width psz_parser
      = (psz_word, psz_parser')
      /\ 0 <= psz_word <= i_width
      /\ (psz_word = 0
          \/ 1 <= psz_word
             /\ nth (Z.to_nat (psz_word - 1)) psz_text zero = " "%char).
Proof.
  intros i_end Hlong.
  induction fuel as [|fuel IH]; intros p Hp Hfuel Hstart; [lia|].
  cbn [eat_words].
  destruct (strchr_space (skipn (Z.to_nat p) psz_text)) as [k|] eqn:Es.
  - destruct (strchr_space_spec _ k Es) as [Hk Hn].
    rewrite length_skipn in Hk. rewrite nth_of_skipn in Hn.
    destruct (p + k + 1 <=? i_width) eqn:El.
    + apply Z.leb_le in El. apply IH; [lia|lia|].
      right. split; [lia|].
      replace (Z.to_nat (p + k + 1 - 1)) with (Z.to_nat p + Z.to_nat k)%nat
        by lia.
      exact Hn.
    + eauto.
  - destruct (i_end <=? i_width) eqn:El; [apply Z.leb_le in El; lia|]. eauto.
Qed.

Section Wrapping.
Variables size_modulus i_width : Z.
Hypothesis width_positive : 1 <= i_width.
Hypothesis width_is_size : i_width < size_modulus.

Lemma wrap_text_spec :
  forall (fuel : nat) (psz_text : list ascii),
    (List.length psz_text < fuel)%nat ->
    exists lines,
      wrap_text fuel size_modulus i_width psz_text = Some lines
      /\ Forall (fun line => Z.of_nat (List.length line) <= i_width) lines
      /\ rejoins lines psz_text
      /\ (psz_text <> [] -> lines <> []).
Proof.
  induction fuel as [|fuel IH]; intros psz_text Hfuel; [lia|].
  cbn [wrap_text]. destruct psz_text as [|c0 r0] eqn:Et.
  { exists []. repeat split; [constructor|congruence]. }
  rewrite <- Et in *. rewrite Z.mod_small by lia.
  assert (Hne : psz_text <> []) by (rewrite Et; discriminate).
  clear Et c0 r0.
  set (i_end := Z.of_nat (List.length psz_text)).
  destruct (i_end <=? i_width) eqn:Efit.
  { apply Z.leb_le in Efit. exists [psz_text].
    repeat split; [repeat constructor; exact Efit|discriminate]. }
  apply Z.leb_gt in Efit.
  destruct (eat_words_spec psz_text i_width Efit (S (List.length psz_text)) 0)
    as (w & q & E & Hw & Hspace); [lia|fold i_end; lia|auto|].
  fold i_end in E. rewrite E.
  destruct ((w =? 0)
            || ((w <? Z.quot (80 * i_width) 100)
                && (Z.quot (40 * i_width) 100 <? q - w))) eqn:Ecut.
  - destruct (IH (skipn (Z.to_nat i_width) psz_text))
      as (lines & -> & Hfit & Hjoin & Hrest).
    { rewrite length_skipn. lia. }
    exists (firstn (Z.to_nat i_width) psz_text :: lines).
    split; [reflexivity|]. split; [|split; [|discriminate]].
    + constructor; [|exact Hfit]. rewrite length_firstn. lia.
    + cbn [rejoins]. destruct lines as [|l1 ls].
      * exfalso. apply Hrest; [|reflexivity].
        intros H. apply (f_equal (@List.length ascii)) in H.
        rewrite length_skipn in H. cbn in H. lia.
      * exists (skipn (Z.to_nat i_width) psz_text). split; [|exact Hjoin].
        left. symmetry. apply firstn_skipn.
  - apply orb_false_iff in Ecut. destruct Ecut as [Hw0 _].
    apply Z.eqb_neq in Hw0. destruct Hspace as [Hs|[Hw1 Hs]]; [contradiction|].
    destruct (IH (skipn (Z.to_nat w) psz_text))
      as (lines & -> & Hfit & Hjoin & Hrest).
    { rewrite length_skipn. lia. }
    exists (firstn (Z.to_nat (w - 1)) psz_text :: lines).
    split; [reflexivity|]. split; [|split; [|discriminate]].
    + constructor; [|exact Hfit]. rewrite length_firstn. lia.
    + cbn [rejoins]. destruct lines as [|l1 ls].
      * exfalso. apply Hrest; [|reflexivity].
        intros H. apply (f_equal (@List.length ascii)) in H.
        rewrite length_skipn in H. cbn in H. lia.
      * exists (skipn (Z.to_nat w) psz_text). split; [|exact Hjoin].
        right. apply text_around; [lia|exact Hs].
Qed.

End Wrapping.

(** X20.  The wrapping of a help text in [Usage] ends for every text and
    every width from 1 on that a [size_t] holds: after at most as many
    passes as the text has characters it has printed lines none of which
    is longer than the width, and the text is these lines one after the
    other with nothing (a cut) or one space (a wrap between two words)
    between two of them; nothing is lost, repeated or reordered, and an
    empty text prints no line. *)
Theorem wrapped_lines_fit_and_rejoin (size_modulus i_width : Z)
    (psz_text : list ascii) :
  1 <= i_width < size_modulus ->
  exists lines,
    wrap_text (S (List.length psz_text)) size_modulus i_width psz_text
    = Some lines
    /\ Forall (fun line => Z.of_nat (List.length line) <= i_width) lines
    /\ rejoins lines psz_text
    /\ (psz_text = [] <-> lines = []).
Proof.
  intros [H1 H2].
  destruct (wrap_text_spec size_modulus i_width H1 H2
              (S (List.length psz_text)) psz_text)
    as (lines & E & Hfit & Hjoin & Hne); [lia|].
  exists lines. repeat split; try assumption.
  - intros ->. cbn in E. congruence.
  - intros ->. destruct psz_text; [reflexivity|]. exfalso.
    apply Hne; [discriminate|reflexivity].
Qed.

Lemma wrapped_lines_fit_and_rejoin_witness :
  exists lines,
    wrap_text 18 (2 ^ 32) 6 (list_ascii_of_string "play a long file")
    = Some lines
    /\ Forall (fun line => Z.of_nat (List.length line) <= 6) lines.
Proof.
  destruct (wrapped_lines_fit_and_rejoin (2 ^ 32) 6
              (list_ascii_of_string "play a long file") ltac:(lia))
    as (lines & E & H & _).
  exists lines. split; [exact E|exact H].
Defined.

Example wrap_text_sample :
  wrap_text 18 (2 ^ 32) 6 (list_ascii_of_string "play a long file")
  = Some (map list_ascii_of_string ["play"; "a long"; " file"]).
Proof. vm_compute. reflexivity. Qed.

Lemma ConsoleWidth_at_least_80 (bc : build_config) (popen_output : option string)
    (stack : string) :
  80 <= ConsoleWidth bc popen_output stack.
Proof.
  unfold ConsoleWidth. cbv zeta.
  destruct (WIN32 bc); [lia|]. destruct popen_output as [output|]; [|lia].
  destruct (0 <? Nat.min 20 (String.length output))%nat; [|lia].
  destruct (after_space _) as [psz_parser|]; [|lia].
  destruct (80 <=? atoi psz_parser) eqn:E; [|lia]. apply Z.leb_le. exact E.
Qed.

(** X21.  Whatever the console answers, [Usage] wraps every help text it
    prints: the width it computes from [ConsoleWidth] is 46 or more, the
    wrapping ends, and a wrapped line behind its indentation of
    [PADDING_SPACES + LINE_START] spaces is shorter than the width
    [ConsoleWidth] returned. *)
Theorem usage_text_fits_console (bc : build_config)
    (popen_output : option string) (stack : string)
    (size_modulus : Z) (psz_text : list ascii) :
  Usage_i_width bc popen_output stack < size_modulus ->
  46 <= Usage_i_width bc popen_output stack
  /\ exists lines,
       wrap_text (S (List.length psz_text)) size_modulus
         (Usage_i_width bc popen_output stack) psz_text = Some lines
       /\ Forall (fun line =>
                    PADDING_SPACES + LINE_START + Z.of_nat (List.length line)
                    < ConsoleWidth bc popen_output stack) lines.
Proof.
  intros Hsize.
  pose proof (ConsoleWidth_at_least_80 bc popen_output stack) as H80.
  assert (Hw : 46 <= Usage_i_width bc popen_output stack)
    by (unfold Usage_i_width, PADDING_SPACES, LINE_START; lia).
  split; [exact Hw|].
  destruct (wrap_text_spec size_modulus (Usage_i_width bc popen_output stack)
              ltac:(lia) Hsize (S (List.length psz_text)) psz_text)
    as (lines & E & Hfit & _); [lia|].
  exists lines. split; [exact E|].
  eapply Forall_impl; [|exact Hfit]. cbn beta.
  unfold Usage_i_width, PADDING_SPACES, LINE_START. intros line. lia.
Qed.

Lemma usage_text_fits_console_witness :
  46 <= Usage_i_width linux_build (Some stty_24_132) EmptyString.
Proof.
  exact (proj1 (usage_text_fits_console linux_build (Some stty_24_132)
                  EmptyString (2 ^ 32) [] ltac:(vm_compute; reflexivity))).
Defined.

Lemma take_app_ge (a b : string) :
  forall n : nat,
    (String.length a <= n)%nat ->
    take n (a ++ b) = (a ++ take (n - String.length a) b)%string.
Proof.
  induction a as [|c a IH]; intros n H; cbn [String.length append] in *.
  - now rewrite Nat.sub_0_r.
  - destruct n as [|n]; [lia|]. cbn [take Nat.sub]. rewrite IH by lia.
    reflexivity.
Qed.

Lemma digit_not_nul (c : ascii) (v : Z) :
  digit_value c = Some v ->
  Ascii.eqb c zero = false /\ Ascii.eqb c " " = false /\ isspace c = false.
Proof.
  destruct c as [[] [] [] [] [] [] [] []]; cbv; intros H;
    try discriminate; auto.
Qed.

Lemma until_nul_one_word (a b : string) :
  one_word a = true -> until_nul (a ++ b) = (a ++ until_nul b)%string.
Proof.
  induction a as [|c a IH]; cbn [one_word append until_nul]; [reflexivity|].
  intros H. apply andb_prop in H. destruct H as [H Ha].
  apply andb_prop in H. destruct H as [_ Hc].
  apply negb_true_iff in Hc. rewrite Hc, IH by exact Ha. reflexivity.
Qed.

Lemma until_nul_digits (a b : string) :
  all_digits a = true -> until_nul (a ++ b) = (a ++ until_nul b)%string.
Proof.
  induction a as [|c a IH]; cbn [all_digits append until_nul]; [reflexivity|].
  destruct (digit_value c) as [v|] eqn:Ed; [|discriminate]. intros Ha.
  destruct (digit_not_nul c v Ed) as (-> & _). rewrite IH by exact Ha.
  reflexivity.
Qed.

Lemma after_space_one_word (a b : string) :
  one_word a = true -> after_space (a ++ String " " b) = Some b.
Proof.
  induction a as [|c a IH]; cbn [one_word append after_space]; [reflexivity|].
  intros H. apply andb_prop in H. destruct H as [H Ha].
  apply andb_prop in H. destruct H as [Hc _].
  apply negb_true_iff in Hc. rewrite Hc. apply IH. exact Ha.
Qed.

Lemma digits_value_stops (a b : string) (c : ascii) :
  all_digits a = true ->
  digit_value c = None ->
  forall acc, digits_value acc (a ++ String c b) = digits_value acc a.
Proof.
  intros Ha Hc. induction a as [|d a IH]; intros acc;
    cbn [all_digits append digits_value] in *.
  - now rewrite Hc.
  - destruct (digit_value d); [|discriminate]. apply IH. exact Ha.
Qed.

Lemma digits_value_nonneg (s : string) :
  forall acc, 0 <= acc -> 0 <= digits_value acc s.
Proof.
  induction s as [|c s IH]; intros acc Hacc; cbn [digits_value]; [exact Hacc|].
  destruct (digit_value c) as [d|] eqn:Ed; [|exact Hacc].
  apply IH. unfold digit_value in Ed. cbv zeta in Ed.
  destruct ((48 <=? Z.of_nat (nat_of_ascii c))
            && (Z.of_nat (nat_of_ascii c) <=? 57)) eqn:E; [|discriminate].
  injection Ed as <-. apply andb_prop in E. destruct E as [E _].
  apply Z.leb_le in E. lia.
Qed.

Lemma strtol_of_digit (d : ascii) (s : string) (v : Z) :
  digit_value d = Some v ->
  strtol (String d s)
  = Z.max LONG_MIN (Z.min LONG_MAX (digits_value 0 (String d s))).
Proof.
  intros H.
  destruct d as [[] [] [] [] [] [] [] []];
    try (exfalso; vm_compute in H; discriminate H); reflexivity.
Qed.

(** A number an [int] holds is the value of [atoi]. *)
Lemma atoi_of_digit (d : ascii) (s : string) (v : Z) :
  digit_value d = Some v ->
  digits_value 0 (String d s) < 2 ^ 31 ->
  atoi (String d s) = digits_value 0 (String d s).
Proof.
  intros Hd Hint. unfold atoi. rewrite (strtol_of_digit d s v Hd).
  pose proof (digits_value_nonneg (String d s) 0 ltac:(lia)) as H0.
  unfold LONG_MIN, LONG_MAX, int_of_long. cbv zeta.
  rewrite Z.min_r by lia. rewrite Z.max_r by lia.
  rewrite Z.mod_small by lia.
  destruct (digits_value 0 (String d s) <? 2 ^ 31) eqn:E;
    [reflexivity|apply Z.ltb_ge in E; lia].
Qed.

Lemma length_append (a b : string) :
  String.length (a ++ b) = (String.length a + String.length b)%nat.
Proof.
  induction a as [|c a IH]; cbn [append String.length]; [reflexivity|].
  now rewrite IH.
Qed.

Lemma stty_line_tail (rows cols tail : string) :
  (rows ++ String " " (cols ++ String "010" tail))%string
  = ((rows ++ String " " (cols ++ String "010" EmptyString)) ++ tail)%string.
Proof.
  induction rows as [|c r IH]; cbn [append]; [|now rewrite IH].
  f_equal. induction cols as [|c cs IHc]; cbn [append]; [reflexivity|].
  now rewrite IHc.
Qed.

(** X22.  On a build that is not WIN32, when [stty size] answers with a
    word, a space, a decimal number that an [int] holds and a line feed
    within the first 19 bytes, [ConsoleWidth] returns that number or 80 if
    it is less, whatever follows in the answer and whatever the part of the
    buffer it did not fill holds. *)
Theorem ConsoleWidth_reads_columns (bc : build_config)
    (rows cols tail stack : string) :
  WIN32 bc = false ->
  one_word rows = true ->
  all_digits cols = true ->
  cols <> EmptyString ->
  digits_value 0 cols < 2 ^ 31 ->
  (String.length rows + String.length cols <= 17)%nat ->
  ConsoleWidth bc
    (Some (rows ++ String " " (cols ++ String "010" tail))%string) stack
  = Z.max 80 (digits_value 0 cols).
Proof.
  intros Hw Hrows Hcols Hne Hint Hlen. unfold ConsoleWidth. cbv zeta. rewrite Hw.
  set (line := (rows ++ String " " (cols ++ String "010" EmptyString))%string).
  assert (Eout : (rows ++ String " " (cols ++ String "010" tail))%string
                 = (line ++ tail)%string).
  { apply stty_line_tail. }
  assert (Elen : String.length line
                 = (String.length rows + String.length cols + 2)%nat).
  { unfold line. rewrite length_append. cbn [String.length].
    rewrite length_append. cbn [String.length]. lia. }
  rewrite Eout. set (n := Nat.min 20 (String.length (line ++ tail))).
  assert (Hn : (String.length line <= n)%nat).
  { unfold n. rewrite length_append. lia. }
  replace (0 <? n)%nat with true by (symmetry; apply Nat.ltb_lt; lia).
  rewrite (take_app_ge line tail n Hn). rewrite append_assoc.
  rewrite take_app_ge by lia.
  set (rest := take (19 - String.length line)
                 (take (n - String.length line) tail
                  ++ drop n (take 20 stack))).
  unfold line. rewrite <- stty_line_tail.
  rewrite until_nul_one_word by exact Hrows. cbn [until_nul].
  change (Ascii.eqb " " zero) with false. cbv iota.
  rewrite until_nul_digits by exact Hcols. cbn [until_nul].
  change (Ascii.eqb "010" zero) with false. cbv iota.
  rewrite after_space_one_word by exact Hrows.
  destruct cols as [|d cols']; [congruence|].
  cbn [all_digits] in Hcols. destruct (digit_value d) as [v|] eqn:Ed;
    [|discriminate].
  cbn [append].
  assert (Ev : digits_value 0 (String d (cols' ++ String "010" (until_nul rest)))
               = digits_value 0 (String d cols')).
  { change (String d (cols' ++ String "010" (until_nul rest)))
      with (String d cols' ++ String "010" (until_nul rest))%string.
    apply digits_value_stops;
      [cbn [all_digits]; rewrite Ed; exact Hcols|reflexivity]. }
  rewrite (atoi_of_digit d _ v Ed) by (rewrite Ev; exact Hint).
  rewrite Ev.
  destruct (80 <=? digits_value 0 (String d cols')) eqn:E.
  - apply Z.leb_le in E. lia.
  - apply Z.leb_gt in E. lia.
Qed.

Lemma ConsoleWidth_reads_columns_witness :
  ConsoleWidth linux_build (Some stty_24_132) "uninitialised bytes.." = 132.
Proof.
  exact (ConsoleWidth_reads_columns linux_build "24" "132" EmptyString _
           eq_refl eq_refl eq_refl ltac:(discriminate)
           ltac:(vm_compute; reflexivity) ltac:(cbn; lia)).
Defined.

Lemma length_spaces (n : nat) : String.length (spaces n) = n.
Proof. induction n as [|n IH]; cbn; [reflexivity|now rewrite IH]. Qed.

Lemma int_of_size_t_small (x : Z) :
  - 2 ^ 31 <= x < 2 ^ 31 -> int_of_size_t x = x.
Proof.
  intros H. unfold int_of_size_t. cbv zeta.
  destruct (Z_lt_le_dec x 0) as [Hneg|Hpos].
  - replace (x mod 2 ^ 32) with (x + 2 ^ 32).
    + destruct (x + 2 ^ 32 <? 2 ^ 31) eqn:E; [apply Z.ltb_lt in E; lia|lia].
    + apply Z.mod_unique with (q := -1); lia.
  - rewrite Z.mod_small by lia.
    destruct (x <? 2 ^ 31) eqn:E; [reflexivity|apply Z.ltb_ge in E; lia].
Qed.

(** X23.  The head [Usage] prints before the text of an option puts the
    text in column [PADDING_SPACES + LINE_START], where the wrapped lines
    of the text are indented to: either the head is that long, or, when the
    option is too long for it, the head ends in a line feed and that many
    spaces. *)
Theorem option_text_column (i_short : option ascii)
    (psz_name psz_bra psz_type psz_ket : string) (b_no : bool) :
  2 * strlen psz_name + strlen psz_bra + strlen psz_type + strlen psz_ket
  < 2 ^ 30 ->
  let head := option_head i_short psz_name psz_bra psz_type psz_ket b_no in
  strlen head = PADDING_SPACES + LINE_START
  \/ exists option,
       head = (option ++ String "010"
                 (spaces (Z.to_nat (PADDING_SPACES + LINE_START))))%string
       /\ PADDING_SPACES + LINE_START <= strlen option.
Proof.
  intros Hsmall head. subst head. unfold option_head. cbv zeta.
  set (psz_short := match i_short with
                    | Some c => String "-" (String c (String "," EmptyString))
                    | None => "   "
                    end).
  assert (Hshort : strlen psz_short = 3) by (unfold psz_short; now destruct i_short).
  pose proof (Nat2Z.is_nonneg (String.length psz_name)) as Hn.
  pose proof (Nat2Z.is_nonneg (String.length psz_bra)) as Hb.
  pose proof (Nat2Z.is_nonneg (String.length psz_type)) as Hty.
  pose proof (Nat2Z.is_nonneg (String.length psz_ket)) as Hk.
  unfold strlen in *. unfold PADDING_SPACES, LINE_START in *.
  rewrite (int_of_size_t_small
             (25 - Z.of_nat (String.length psz_name)
              - Z.of_nat (String.length psz_bra)
              - Z.of_nat (String.length psz_type)
              - Z.of_nat (String.length psz_ket) - 1)) by lia.
  set (extra := if b_no then (", --no-" ++ psz_name)%string else EmptyString).
  set (i := if b_no then _ else _).
  assert (Hi : i = 24 - Z.of_nat (String.length psz_name)
                   - Z.of_nat (String.length extra)
                   - Z.of_nat (String.length psz_bra)
                   - Z.of_nat (String.length psz_type)
                   - Z.of_nat (String.length psz_ket)).
  { unfold i, extra. destruct b_no.
    - rewrite int_of_size_t_small by (cbn [String.length]; lia).
      rewrite length_append. cbn [String.length]. lia.
    - cbn [String.length]. lia. }
  assert (He : 0 <= Z.of_nat (String.length extra)) by lia.
  clearbody i extra.
  destruct (i <? 0) eqn:Eneg.
  - right. apply Z.ltb_lt in Eneg.
    exists ("  " ++ psz_short ++ " --" ++ psz_name ++ extra
            ++ psz_bra ++ psz_type ++ psz_ket)%string.
    split.
    + rewrite !append_assoc.
      repeat (apply (f_equal (append _))).
      reflexivity.
    + rewrite !length_append. cbn [String.length]. lia.
  - left. apply Z.ltb_ge in Eneg.
    rewrite !length_append, length_spaces. cbn [String.length]. lia.
Qed.

Lemma option_text_column_witness :
  strlen (option_head (Some "v"%char) "verbose" " <" "integer" ">" false) = 33.
Proof.
  destruct (option_text_column (Some "v"%char) "verbose" " <" "integer" ">" false
              ltac:(vm_compute; reflexivity)) as [H|(option & E & H)].
  - exact H.
  - reflexivity.
Defined.
